(** * nassh-relay: the session layer of the NaSSH relay, embedded in Rocq

    A shallow embedding of [nassh-relay.js]: the [Buffer] helpers, the
    [Session] methods ([sendFragment], [shrinkBuffer], [adopt] and the
    listeners it registers), the backend socket listeners and the WebSocket
    [request] handler, followed by the properties of the retransmission
    protocol.

    JavaScript numbers are modelled by [Z]: every number the relay handles
    is an integer (byte counts, stream offsets, 32-bit ack fields).  The
    [NaN] that [parseInt] returns for a missing or malformed query value is
    outside the model. *)

From Stdlib Require Import ZArith Lia Strings.Byte Strings.String.
From stdpp Require Import gmap strings list.

Local Open Scope Z_scope.

(** ** Exceptions

    A JavaScript call either returns or throws.  Nothing in the relay
    catches, so an exception raised inside a listener leaves the listener
    at the point where it was raised. *)

Inductive JsError : Type :=
  | RangeError                (* Buffer read or write out of bounds *)
  | ReferenceError            (* an identifier that is not declared *)
  | TypeError                 (* property access on null, call of a non-function *)
  | SpliceError (at_ : Z).    (* the [Error] that [bslice] throws *)

Inductive outcome (A : Type) : Type :=
  | Ret (a : A)
  | Exn (e : JsError).
Arguments Ret {A} a.
Arguments Exn {A} e.

(** ** Buffers *)

Definition Buffer : Type := list byte.

Definition blen (b : Buffer) : Z := Z.of_nat (length b).

Definition Z_of_byte (b : byte) : Z := Z.of_N (Byte.to_N b).

Definition byte_of_Z (z : Z) : byte :=
  default x00 (Byte.of_N (Z.to_N (Z.land z 255))).

(** [Buffer.prototype.slice(start)] of Node, with [end] left out: a
    negative [start] counts from the end, and both ends are clamped. *)
Definition slice (start : Z) (this : Buffer) : Buffer :=
  let len := blen this in
  let s := if start <? 0 then Z.max (start + len) 0 else Z.min start len in
  drop (Z.to_nat s) this.

(** [Buffer.prototype.bslice]: the tail of [index] bytes. *)
Definition bslice (index : Z) (this : Buffer) : outcome Buffer :=
  if (index >? blen this) || (index <? 0) then Exn (SpliceError (blen this - index))
  else if index =? 0 then Ret []
  else Ret (slice (- index) this).

(** The last [n] bytes of a buffer, the notion the protocol is stated with. *)
Definition lastn (n : nat) (b : Buffer) : Buffer := drop (length b - n) b.

Definition int32_min : Z := - 2 ^ 31.
Definition int32_max : Z := 2 ^ 31 - 1.

Definition int32_ok (v : Z) : bool := (int32_min <=? v) && (v <=? int32_max).

(** [new Buffer(4)] followed by [writeInt32BE(value, 0)]: Node checks the
    range of [value] and throws when it is no signed 32-bit integer. *)
Definition writeInt32BE (value : Z) : outcome Buffer :=
  if int32_ok value then
    Ret [ byte_of_Z (Z.shiftr value 24); byte_of_Z (Z.shiftr value 16);
          byte_of_Z (Z.shiftr value 8); byte_of_Z value ]
  else Exn RangeError.

(** [readInt32BE(0)]: throws when the buffer has fewer than four bytes. *)
Definition readInt32BE (this : Buffer) : outcome Z :=
  match this with
  | b0 :: b1 :: b2 :: b3 :: _ =>
      let u := Z.shiftl (Z_of_byte b0) 24 + Z.shiftl (Z_of_byte b1) 16
               + Z.shiftl (Z_of_byte b2) 8 + Z_of_byte b3 in
      Ret (if u >=? 2 ^ 31 then u - 2 ^ 32 else u)
  | _ => Exn RangeError
  end.

Definition friendlyBufferRelease : Z := 256 * 256 * 16.

(** ** Objects

    The backend socket, as far as the relay uses it.  [bytesWritten] and
    [bytesRead] are the counters Node keeps; [written] and [received] are
    the history of the two byte streams, kept to state what the relay
    forwarded. *)
Record Socket : Type := mkSocket {
  bytesWritten : Z;
  bytesRead : Z;
  written : Buffer;      (* every byte handed to [write], in order *)
  received : Buffer      (* every byte delivered by a [data] event, in order *)
}.

(** What the relay did to a WebSocket connection. *)
Inductive ConEvent : Type :=
  | SendBytes (frame : Buffer)
  | Close.

(** A WebSocket connection object.  Connections are compared by identity
    in the source, so they live in a store and are named by their address.
    [listeners] is the session whose [close] and [message] listeners
    [adopt] registered on the connection.  [pos] is the property [adopt]
    assigns; no listener reads it before that assignment. *)
Record Con : Type := mkCon {
  pos : Z;
  listeners : option string;
  events : list ConEvent
}.

Record Session : Type := mkSession {
  backendSocket : Socket;
  B2FUnacked : Buffer;
  frontendCon : option nat
}.

(** A property of the global [sessions] object.  The backend [close]
    listener stores [null]; the success callback of [/proxy] stores the
    session. *)
Inductive RegEntry : Type :=
  | RNull
  | RSession (sid : string).

(** The heap: the [sessions] object, the [Session] objects (named by their
    [sid], which the listeners close over), the connection objects, and
    the address of the next connection [request.accept] creates. *)
Record World : Type := mkWorld {
  sessions : gmap string RegEntry;
  heap : string -> Session;
  connections : nat -> Con;
  nextCon : nat
}.

Inductive Message : Type :=
  | Utf8 (utf8Data : string)
  | Binary (binaryData : Buffer).

(** A WebSocket upgrade request whose [ack] and [pos] are integers, as
    far as the relay looks at it: [resourceURL.pathname], and the [sid],
    [ack] and [pos] properties of [resourceURL.query], the last two as
    [parseInt] returns them.  For a missing or malformed [ack] or [pos]
    [parseInt] returns [NaN], and the relay adopts with it; such a
    request has no counterpart in this type, and what is proved of the
    requests below is proved of requests with integers only. *)
Record Request : Type := mkRequest {
  pathname : string;
  query_sid : option string;
  query_ack : Z;
  query_pos : Z
}.

(** ** Listeners as state transformers that may throw *)

Definition M (A : Type) : Type := World -> outcome A * World.

Definition ret {A} (a : A) : M A := fun w => (Ret a, w).

Definition bind {A B} (m : M A) (f : A -> M B) : M B :=
  fun w => match m w with
           | (Ret a, w') => f a w'
           | (Exn e, w') => (Exn e, w')
           end.

Definition throw {A} (e : JsError) : M A := fun w => (Exn e, w).

Definition lift {A} (o : outcome A) : M A := fun w => (o, w).

Notation "'do' x <- c ; k" := (bind c (fun x => k))
  (at level 10, x name, c at level 100, k at level 200).
Notation "'run' c ; k" := (bind c (fun _ => k))
  (at level 10, c at level 100, k at level 200).

(** *** Reading and writing the heap *)

Definition with_B2FUnacked (b : Buffer) (s : Session) : Session :=
  mkSession (backendSocket s) b (frontendCon s).
Definition with_frontendCon (c : option nat) (s : Session) : Session :=
  mkSession (backendSocket s) (B2FUnacked s) c.
Definition with_backendSocket (k : Socket) (s : Session) : Session :=
  mkSession k (B2FUnacked s) (frontendCon s).

Definition with_pos (p : Z) (k : Con) : Con := mkCon p (listeners k) (events k).
Definition with_listeners (l : option string) (k : Con) : Con :=
  mkCon (pos k) l (events k).
Definition with_events (l : list ConEvent) (k : Con) : Con :=
  mkCon (pos k) (listeners k) l.

Definition set_ses (sid : string) (s : Session) (w : World) : World :=
  mkWorld (sessions w) (fun i => if decide (i = sid) then s else heap w i)
          (connections w) (nextCon w).
Definition set_con (c : nat) (k : Con) (w : World) : World :=
  mkWorld (sessions w) (heap w)
          (fun i => if decide (i = c) then k else connections w i) (nextCon w).
Definition set_sessions (m : gmap string RegEntry) (w : World) : World :=
  mkWorld m (heap w) (connections w) (nextCon w).

Definition getSes (sid : string) : M Session := fun w => (Ret (heap w sid), w).
Definition putSes (sid : string) (s : Session) : M unit :=
  fun w => (Ret tt, set_ses sid s w).
Definition getCon (c : nat) : M Con := fun w => (Ret (connections w c), w).
Definition putCon (c : nat) (k : Con) : M unit :=
  fun w => (Ret tt, set_con c k w).

(** *** The backend socket ([net.Socket]) *)

(** [write(buf)]: the bytes are queued for the backend and counted. *)
Definition socket_write (buf : Buffer) (k : Socket) : Socket :=
  mkSocket (bytesWritten k + blen buf) (bytesRead k) (written k ++ buf) (received k).

(** A chunk arrives from the backend: Node counts it, then emits [data]. *)
Definition socket_deliver (buf : Buffer) (k : Socket) : Socket :=
  mkSocket (bytesWritten k) (bytesRead k + blen buf) (written k) (received k ++ buf).

(** *** The WebSocket connection *)

Definition sendBytes (c : nat) (frame : Buffer) : M unit :=
  do k <- getCon c;
  putCon c (with_events (events k ++ [SendBytes frame]) k).

Definition close (c : nat) : M unit :=
  do k <- getCon c;
  putCon c (with_events (events k ++ [Close]) k).

(** [frontendCon.closeProtocol], installed by the [request] handler. *)
Definition closeProtocol (c : nat) : M unit :=
  do headerBuffer <- lift (writeInt32BE (-1));
  run sendBytes c headerBuffer;
  close c.

(** *** Session *)

Definition new_Session : Session := mkSession (mkSocket 0 0 [] []) [] None.

Definition new_Con : Con := mkCon 0 None [].

(** [Session.prototype.sendFragment] *)
Definition sendFragment (sid : string) (fragment : Buffer) : M unit :=
  do ses <- getSes sid;
  match frontendCon ses with
  | Some c =>
      do k <- getCon c;
      do headerBuffer <-
        lift (writeInt32BE (Z.min (bytesWritten (backendSocket ses)) (pos k)));
      sendBytes c (headerBuffer ++ fragment)
  | None => ret tt
  end.

(** [Session.prototype.shrinkBuffer] *)
Definition shrinkBuffer (sid : string) (ack : Z) : M bool :=
  do ses <- getSes sid;
  if ack >? bytesRead (backendSocket ses) then ret false
  else if ack <? bytesRead (backendSocket ses) - blen (B2FUnacked ses) then ret false
  else
    do b <- lift (bslice (bytesRead (backendSocket ses) - ack) (B2FUnacked ses));
    run putSes sid (with_B2FUnacked b ses);
    ret true.

(** The [close] listener that [adopt] registers on [c] for session [sid]. *)
Definition on_close (sid : string) (c : nat) : M unit :=
  do ses <- getSes sid;
  if decide (frontendCon ses = Some c)
  then putSes sid (with_frontendCon None ses)
  else ret tt.

(** [c.emit("close")]: runs the [close] listeners of [c]. *)
Definition emit_close (c : nat) : M unit :=
  do k <- getCon c;
  match listeners k with
  | Some sid => on_close sid c
  | None => ret tt
  end.

(** The [message] listener that [adopt] registers on [c] for session [sid]. *)
Definition on_message (sid : string) (c : nat) (message : Message) : M unit :=
  match message with
  | Utf8 _ => closeProtocol c
  | Binary binaryData =>
      do k <- getCon c;
      run putCon c (with_pos (pos k + (blen binaryData - 4)) k);
      do k <- getCon c;
      do ses <- getSes sid;
      do unseenPayload <-
        lift (bslice (Z.max (pos k - bytesWritten (backendSocket ses)) 0) binaryData);
      run putSes sid (with_backendSocket
                        (socket_write unseenPayload (backendSocket ses)) ses);
      do ack <- lift (readInt32BE binaryData);
      do ok <- shrinkBuffer sid ack;
      if negb ok then emit_close c
      else
        do ses <- getSes sid;
        do k <- getCon c;
        if bytesWritten (backendSocket ses) - pos k >? friendlyBufferRelease
        then sendFragment sid []
        else ret tt
  end.

(** The identifier [frontend] is declared nowhere in the program:
    evaluating it throws. *)
Definition frontend : M nat := throw ReferenceError.

(** [Session.prototype.adopt] *)
Definition adopt (sid : string) (c : nat) (ack pos_ : Z) : M unit :=
  do ses <- getSes sid;
  run match frontendCon ses with
      | Some old => closeProtocol old
      | None => ret tt
      end;
  do k <- getCon c;
  run putCon c (with_listeners (Some sid) k);
  do ses <- getSes sid;
  if pos_ >? bytesWritten (backendSocket ses) then
    do f <- frontend;
    closeProtocol f
  else
    do k <- getCon c;
    run putCon c (with_pos pos_ k);
    do ok <- shrinkBuffer sid ack;
    if negb ok then closeProtocol c
    else
      do ses <- getSes sid;
      run putSes sid (with_frontendCon (Some c) ses);
      do ses <- getSes sid;
      sendFragment sid (B2FUnacked ses).

(** *** Listeners of the backend socket *)

(** The [data] listener, run after the socket has counted the chunk. *)
Definition backend_data (sid : string) (buf : Buffer) : M unit :=
  do ses <- getSes sid;
  run putSes sid (with_backendSocket (socket_deliver buf (backendSocket ses)) ses);
  run sendFragment sid buf;
  do ses <- getSes sid;
  putSes sid (with_B2FUnacked (B2FUnacked ses ++ buf) ses).

(** The [close] listener: [sessions[ses.sid] = null]. *)
Definition backend_close (sid : string) : M unit :=
  run (fun w => (Ret tt, set_sessions (<[sid := RNull]> (sessions w)) w));
  do ses <- getSes sid;
  match frontendCon ses with
  | Some c => closeProtocol c
  | None => ret tt
  end.

(** The success callback of [/proxy]: [sessions[ses.sid] = ses]. *)
Definition proxy_success (sid : string) : M unit :=
  fun w => (Ret tt, set_sessions (<[sid := RSession sid]> (sessions w)) w).

(** *** The [request] handler of the WebSocket server *)

(** What reading a property of the [sessions] object gives. *)
Inductive JsVal : Type :=
  | JUndefined
  | JNull
  | JSession (sid : string)
  | JInherited.           (* a member of [Object.prototype] *)

(** [sessions] is created by [{}], so a key it does not own is looked up in
    [Object.prototype]. *)
Definition Object_prototype : list string :=
  [ "constructor"; "toString"; "toLocaleString"; "valueOf"; "hasOwnProperty";
    "isPrototypeOf"; "propertyIsEnumerable"; "__proto__"; "__defineGetter__";
    "__defineSetter__"; "__lookupGetter__"; "__lookupSetter__" ]%string.

Definition sessions_get (key : string) : M JsVal :=
  fun w => (Ret match sessions w !! key with
                | Some RNull => JNull
                | Some (RSession sid) => JSession sid
                | None => if decide (key ∈ Object_prototype) then JInherited
                          else JUndefined
                end, w).

(** [request.accept]: a new connection object. *)
Definition accept : M nat :=
  fun w => (Ret (nextCon w),
            mkWorld (sessions w) (heap w)
                    (fun i => if decide (i = nextCon w) then new_Con
                              else connections w i)
                    (S (nextCon w))).

Definition on_request (request : Request) : M unit :=
  do con <- accept;
  run (if negb (String.eqb (pathname request) "/connect")
       then closeProtocol con else ret tt);
  match query_sid request with
  | None => closeProtocol con
  | Some sid =>
      if String.eqb sid "" then closeProtocol con
      else
        do ses <- sessions_get sid;
        match ses with
        | JUndefined => closeProtocol con
        | JSession s => adopt s con (query_ack request) (query_pos request)
        | JNull | JInherited => throw TypeError
        end
  end.

(** ** The retransmission invariant

    The counter [bytesRead] is the length of the stream read from the
    backend so far, and [B2FUnacked] is a tail of that stream. *)
Definition wf_session (s : Session) : Prop :=
  bytesRead (backendSocket s) = blen (received (backendSocket s)) /\
  B2FUnacked s `suffix_of` received (backendSocket s).

Definition wf_world (w : World) : Prop := forall sid, wf_session (heap w sid).

(** What the frontend-side listeners may do to a session: the stream read
    from the backend stays, the retransmission buffer loses a prefix. *)
Definition ses_shrinks (s s' : Session) : Prop :=
  bytesRead (backendSocket s') = bytesRead (backendSocket s) /\
  received (backendSocket s') = received (backendSocket s) /\
  B2FUnacked s' `suffix_of` B2FUnacked s.

Definition shrinks (w w' : World) : Prop :=
  forall sid, ses_shrinks (heap w sid) (heap w' sid).

(** ** Running the relay *)

(** The state a listener leaves behind, whether it returned or threw. *)
Definition exec {A} (m : M A) (w : World) : World := snd (m w).

(** The relay after start-up: no session, no connection. *)
Definition world0 : World :=
  mkWorld ∅ (fun _ => new_Session) (fun _ => new_Con) 0.

(** A frame as a frontend builds it: ack header, then payload. *)
Definition frame (ack : Z) (payload : string) : Buffer :=
  match writeInt32BE ack with
  | Ret h => h ++ list_byte_of_string payload
  | Exn _ => []
  end.

Definition connect (sid : string) (ack pos_ : Z) : Request :=
  mkRequest "/connect" (Some sid) ack pos_.

(** ** Scenarios

    Session [X] after [/proxy] succeeded and a first frontend connected
    with [ack=0&pos=0]: connection 0 is attached. *)
Definition attached : World :=
  exec (run proxy_success "X"; on_request (connect "X" 0 0)) world0.

(** The backend produced [abcdef], the frontend acked 4 of them, then its
    WebSocket dropped. *)
Definition dropped_after_ack : World :=
  exec (run backend_data "X" (list_byte_of_string "abcdef");
        run on_message "X" 0 (Binary (frame 4 ""));
        emit_close 0) attached.

(** The frontend sent [abcd], its WebSocket dropped, and it connected
    again with [ack=0&pos=0]: connection 1 is attached. *)
Definition reconnected : World :=
  exec (run on_message "X" 0 (Binary (frame 0 "abcd"));
        run emit_close 0;
        on_request (connect "X" 0 0)) attached.

(** A second frontend connected while the first was still attached, and
    the [close] event of the first has not arrived yet. *)
Definition readopted : World :=
  exec (on_request (connect "X" 0 0)) attached.

(** The counters of a session that has forwarded 2000000 bytes, with a
    frontend that starts over from offset 0 (the streams themselves are
    left out). *)
Definition far_behind : World :=
  mkWorld {[ "X"%string := RSession "X" ]}
          (fun _ => mkSession (mkSocket 2000000 0 [] []) [] (Some 0%nat))
          (fun _ => mkCon 0 (Some "X"%string) [])
          1.

(** Session [X] right after [/proxy] succeeded: registered, nothing read
    or written, no frontend yet. *)
Definition registered : World := exec (proxy_success "X") world0.

(** The counters of a session that has forwarded 2 GiB and 2 MiB to its
    backend, with a frontend that resumed one byte below 2 GiB (the
    streams themselves are left out). *)
Definition past_2GiB : World :=
  mkWorld {[ "X"%string := RSession "X" ]}
          (fun _ => mkSession (mkSocket 2149580800 0 [] []) [] (Some 0%nat))
          (fun _ => mkCon 2147483647 (Some "X"%string) [])
          1.

(** ** The event loop

    The events Node delivers to the listeners of the relay, and the relay
    as the transformer of its heap that each of them runs. *)

(** The [message] event of connection [c] runs the listener [adopt]
    registered on it, if any. *)
Definition emit_message (c : nat) (message : Message) : M unit :=
  do k <- getCon c;
  match listeners k with
  | Some sid => on_message sid c message
  | None => ret tt
  end.

Inductive Event : Type :=
  | ProxyConnected (sid : string)              (* success callback of [/proxy] *)
  | Upgrade (request : Request)                (* [request] of the WebSocket server *)
  | FrontendMessage (c : nat) (message : Message)
  | FrontendClose (c : nat)
  | BackendData (sid : string) (buf : Buffer)
  | BackendClose (sid : string).

Definition handle (e : Event) : M unit :=
  match e with
  | ProxyConnected sid => proxy_success sid
  | Upgrade request => on_request request
  | FrontendMessage c message => emit_message c message
  | FrontendClose c => emit_close c
  | BackendData sid buf => backend_data sid buf
  | BackendClose sid => backend_close sid
  end.

(** A run of events; an exception ends it, as it ends the process. *)
Fixpoint run_events (es : list Event) : M unit :=
  match es with
  | [] => ret tt
  | e :: es' => run handle e; run_events es'
  end.

(** Every connection with listeners has a [pos] that is not ahead of what
    its session wrote to the backend. *)
Definition pos_behind (w : World) : Prop :=
  forall c sid, listeners (connections w c) = Some sid ->
                pos (connections w c) <= bytesWritten (backendSocket (heap w sid)).

(** Steps that move no [pos]: listeners and [pos] of every connection
    stay, and no [bytesWritten] goes down. *)
Definition pos_rel (w w' : World) : Prop :=
  (forall c, listeners (connections w' c) = listeners (connections w c) /\
             pos (connections w' c) = pos (connections w c)) /\
  (forall s, bytesWritten (backendSocket (heap w s))
             <= bytesWritten (backendSocket (heap w' s))).

(** Steps that may move the [pos] of connection [c], and of no other. *)
Definition msg_rel (c : nat) (w w' : World) : Prop :=
  (forall c', listeners (connections w' c') = listeners (connections w c')) /\
  (forall c', c' <> c -> pos (connections w' c') = pos (connections w c')) /\
  (forall s, bytesWritten (backendSocket (heap w s))
             <= bytesWritten (backendSocket (heap w' s))).

(** ** The HTTP server *)

(** The part of an HTTP request the handler looks at: the pathname and the
    query of the parsed URL (each key once, with a string value), and the
    [Host] and [Origin] headers, which may be missing. *)
Record HttpRequest : Type := mkHttpRequest {
  http_pathname : string;
  http_query : gmap string string;
  http_host : option string;
  http_origin : option string
}.

(** What [writeHead] and [end] were given.  A header value is kept as the
    handler passes it, [None] for [undefined]. *)
Record Response : Type := mkResponse {
  statusCode : Z;
  responseHeaders : list (string * option string);
  responseBody : string
}.

(** Truth value of a string or [undefined]. *)
Definition truthy (v : option string) : bool :=
  match v with
  | Some s => negb (String.eqb s "")
  | None => false
  end.

(** What [%s] prints for a string or [undefined]. *)
Definition to_String (v : option string) : string := default "undefined"%string v.

(** [util.format("chrome-extension://%s/%s#ignored@%s", ext, path, host)] *)
Definition format_Location (ext path host : option string) : string :=
  ("chrome-extension://" ++ to_String ext ++ "/" ++ to_String path
   ++ "#ignored@" ++ to_String host)%string.

(** The handler either ends the response at once or creates a [Session],
    whose callbacks end it later. *)
Inductive HttpAction : Type :=
  | Reply (r : Response)
  | NewSession (host port : string) (commonHeader : list (string * option string)).

(** The request listener of [http.createServer]. *)
Definition on_http (externalRedirect : option string) (request : HttpRequest)
  : HttpAction :=
  let query := http_query request in
  if String.eqb (http_pathname request) "/cookie" then
    if truthy (query !! "ext"%string) && truthy (query !! "path"%string) then
      Reply (mkResponse 302
               [("Location"%string,
                 Some (format_Location (query !! "ext"%string) (query !! "path"%string)
                         (if truthy externalRedirect then externalRedirect
                          else http_host request)))]
               "")
    else
      Reply (mkResponse 400 [("Content-Type"%string, Some "text/plain"%string)]
               ("Request for /cookie needs a query string that sets ext to the"
                ++ "chrome-extension identifier and a path for redirection."))
  else if String.eqb (http_pathname request) "/proxy" then
    if truthy (query !! "host"%string) && truthy (query !! "port"%string) then
      NewSession (to_String (query !! "host"%string)) (to_String (query !! "port"%string))
        [("Content-Type"%string, Some "text/plain"%string);
         ("Access-Control-Allow-Origin"%string, http_origin request);
         ("Access-Control-Allow-Credentials"%string, Some "true"%string)]
    else
      Reply (mkResponse 400 [("Content-type"%string, Some "text/plain"%string)]
               "Request for /proxy needs a query string that sets host and path for relay.")
  else
    Reply (mkResponse 404 [("Content-type"%string, Some "text/plain"%string)]
             "Unknown endpoint").

(** The command line: [process.argv] holds [node], the script and the
    arguments.  [None] is [process.exit(1)] after the usage line; otherwise
    the result is [externalRedirect]. *)
Definition startup (argv : list string) : option (option string) :=
  if (length argv <? 3)%nat || (4 <? length argv)%nat then None
  else Some (if (length argv =? 4)%nat then argv !! 3%nat else None).

(** What a [Session] keeps of the [/proxy] request that created it: the
    response its two callbacks end, the headers they send, and whether
    [callbackFail] is still a listener of the socket's [error] event. *)
Record ProxyCall : Type := mkProxyCall {
  call_response : nat;
  call_header : list (string * option string);
  call_listening : bool
}.

(** The whole server: the relay's heap, the [/proxy] calls by session id,
    and the responses ended so far, each with the request it answers. *)
Record Server : Type := mkServer {
  relay : World;
  calls : gmap string ProxyCall;
  replies : list (nat * Response)
}.

Inductive ServerEvent : Type :=
  | Http (rid : nat) (uuid : string) (request : HttpRequest)
      (* request number [rid]; [uuid] is what [uuid.v4()] returns if asked *)
  | BackendConnect (sid : string)
  | BackendError (sid : string)
  | Relay (e : Event).

(** How a listener can end the process. *)
Inductive Uncaught : Type :=
  | Thrown (e : JsError)
  | UnhandledError.         (* [error] emitted on a socket with no listener for it *)

(** [writeHead] throws on a header whose value is [undefined]. *)
Definition headers_defined (h : list (string * option string)) : bool :=
  forallb (fun kv => match snd kv with Some _ => true | None => false end) h.

(** One event of the server.  [legalPort] tells which port strings
    [net.Socket.connect] accepts; on any other it throws a RangeError, out
    of the [Session] constructor and of the request listener.  The
    [connect] listener first removes [callbackFail] and then runs the
    success callback, whose [writeHead] comes before the registration. *)
Definition serve (legalPort : string -> bool) (externalRedirect : option string)
           (ev : ServerEvent) (s : Server) : option Uncaught * Server :=
  match ev with
  | Http rid uuid request =>
      match on_http externalRedirect request with
      | Reply r => (None, mkServer (relay s) (calls s) (replies s ++ [(rid, r)]))
      | NewSession host port commonHeader =>
          if legalPort port
          then (None, mkServer (set_ses uuid new_Session (relay s))
                               (<[uuid := mkProxyCall rid commonHeader true]> (calls s))
                               (replies s))
          else (Some (Thrown RangeError), s)
      end
  | BackendConnect sid =>
      match calls s !! sid with
      | Some call =>
          let calls' :=
            <[sid := mkProxyCall (call_response call) (call_header call) false]>
              (calls s) in
          if headers_defined (call_header call)
          then (None, mkServer (exec (proxy_success sid) (relay s)) calls'
                               (replies s ++ [(call_response call,
                                               mkResponse 200 (call_header call) sid)]))
          else (Some (Thrown TypeError), mkServer (relay s) calls' (replies s))
      | None => (None, s)
      end
  | BackendError sid =>
      match calls s !! sid with
      | Some call =>
          if call_listening call
          then if headers_defined (call_header call)
               then (None, mkServer (relay s) (calls s)
                                    (replies s ++ [(call_response call,
                                                    mkResponse 502 (call_header call) "")]))
               else (Some (Thrown TypeError), s)
          else (Some UnhandledError, s)
      | None => (None, s)
      end
  | Relay e =>
      let (o, w) := handle e (relay s) in
      (match o with Ret _ => None | Exn x => Some (Thrown x) end,
       mkServer w (calls s) (replies s))
  end.

(** A run of the server; the first uncaught exception ends it. *)
Fixpoint serve_all (legalPort : string -> bool) (externalRedirect : option string)
         (evs : list ServerEvent) (s : Server) : option Uncaught * Server :=
  match evs with
  | [] => (None, s)
  | ev :: evs' =>
      match serve legalPort externalRedirect ev s with
      | (None, s') => serve_all legalPort externalRedirect evs' s'
      | (Some u, s') => (Some u, s')
      end
  end.

(** A port written in decimal digits and at most 65535, a form that
    [connect] accepts. *)
Fixpoint digits_value (l : list Ascii.ascii) (acc : N) : option N :=
  match l with
  | [] => Some acc
  | a :: l' =>
      let n := Ascii.N_of_ascii a in
      if ((48 <=? n) && (n <=? 57))%N
      then digits_value l' (10 * acc + (n - 48))%N
      else None
  end.

Definition decimal_port (p : string) : bool :=
  match String.list_ascii_of_string p with
  | [] => false
  | l => match digits_value l 0 with
         | Some v => (v <=? 65535)%N
         | None => false
         end
  end.

Definition server0 : Server := mkServer world0 ∅ [].

(** ** Tactics *)

Ltac unfold_M :=
  unfold bind, ret, lift, throw, getSes, putSes, getCon, putCon.

Create Rewrite HintDb world.

Ltac world_simpl :=
  repeat (progress (autorewrite with world;
                    cbn [fst snd negb backendSocket B2FUnacked frontendCon
                         pos listeners events bytesWritten bytesRead written
                         received with_B2FUnacked with_frontendCon
                         with_backendSocket with_pos with_listeners
                         with_events socket_write socket_deliver])).

Ltac same_stream := split; [reflexivity | split; [reflexivity | cbn]].

(** ** The frame codec *)

Lemma Z_of_byte_range (b : byte) : 0 <= Z_of_byte b <= 255.
Proof.
  unfold Z_of_byte. pose proof (Byte.to_N_bounded b). lia.
Qed.

Lemma Z_of_byte_of_Z (z : Z) : Z_of_byte (byte_of_Z z) = z mod 256.
Proof.
  unfold Z_of_byte, byte_of_Z.
  change 255 with (Z.ones 8). rewrite Z.land_ones by lia.
  change (2 ^ 8) with 256.
  pose proof (Z.mod_pos_bound z 256 ltac:(lia)) as Hb.
  destruct (Byte.of_N (Z.to_N (z mod 256))) as [b|] eqn:E; simpl.
  - apply Byte.to_of_N in E. rewrite E. lia.
  - apply Byte.of_N_None_iff in E. lia.
Qed.

Lemma int32_ok_spec (v : Z) : int32_ok v = true <-> - 2 ^ 31 <= v <= 2 ^ 31 - 1.
Proof.
  unfold int32_ok, int32_min, int32_max. rewrite andb_true_iff, !Z.leb_le. tauto.
Qed.

Lemma writeInt32BE_length (v : Z) (h : Buffer) :
  writeInt32BE v = Ret h -> length h = 4%nat.
Proof.
  unfold writeInt32BE. destruct (int32_ok v); intros E; inversion E; reflexivity.
Qed.

(** Reading the header of a frame gives back the ack that was written. *)
Lemma readInt32BE_writeInt32BE (v : Z) (h payload : Buffer) :
  writeInt32BE v = Ret h -> readInt32BE (h ++ payload) = Ret v.
Proof.
  unfold writeInt32BE. destruct (int32_ok v) eqn:Hok; intros E; inversion E; subst h.
  apply int32_ok_spec in Hok.
  cbn [app]. unfold readInt32BE. rewrite !Z_of_byte_of_Z.
  rewrite !Z.shiftl_mul_pow2, !Z.shiftr_div_pow2 by lia.
  f_equal.
  destruct (_ >=? _) eqn:Hge; rewrite Z.geb_leb in Hge;
    [apply Z.leb_le in Hge | apply Z.leb_gt in Hge];
    Z.div_mod_to_equations; lia.
Qed.

Lemma drop_header (v : Z) (h payload : Buffer) :
  writeInt32BE v = Ret h -> drop 4 (h ++ payload) = payload.
Proof.
  intros E. apply writeInt32BE_length in E.
  rewrite <- E. apply drop_app_length.
Qed.

(** ** The tail of a buffer *)

Lemma blen_nonneg (b : Buffer) : 0 <= blen b.
Proof. unfold blen. lia. Qed.

Lemma blen_app (a b : Buffer) : blen (a ++ b) = blen a + blen b.
Proof. unfold blen. rewrite length_app. lia. Qed.

Lemma lastn_length (n : nat) (b : Buffer) :
  (n <= length b)%nat -> length (lastn n b) = n.
Proof. intros H. unfold lastn. rewrite length_drop. lia. Qed.

Lemma lastn_0 (b : Buffer) : lastn 0 b = [].
Proof. unfold lastn. rewrite Nat.sub_0_r. apply drop_all. Qed.

(** Within its bounds [bslice] returns the last [index] bytes; at 0 that
    is the empty buffer, where [slice (-0)] alone is the whole buffer. *)
Lemma bslice_lastn (index : Z) (this : Buffer) :
  0 <= index <= blen this ->
  bslice index this = Ret (lastn (Z.to_nat index) this).
Proof.
  intros [H0 H1]. unfold bslice.
  destruct (index >? blen this) eqn:Hgt; [apply Z.gtb_lt in Hgt; lia|].
  destruct (index <? 0) eqn:Hlt; [apply Z.ltb_lt in Hlt; lia|]. cbn [orb].
  destruct (index =? 0) eqn:Hz.
  - apply Z.eqb_eq in Hz. subst. now rewrite lastn_0.
  - apply Z.eqb_neq in Hz. unfold slice, lastn.
    destruct (- index <? 0) eqn:Hn; [|apply Z.ltb_ge in Hn; lia].
    do 2 f_equal. unfold blen in *. lia.
Qed.

Lemma slice_minus_0 (this : Buffer) : slice (- 0) this = this.
Proof.
  unfold slice. cbn [Z.opp Z.ltb Z.compare].
  rewrite Z.min_l by apply blen_nonneg. reflexivity.
Qed.

(** ** Elementary steps *)

Lemma writeInt32BE_close : writeInt32BE (-1) = Ret [xff; xff; xff; xff].
Proof. reflexivity. Qed.

Lemma friendlyBufferRelease_1MiB : friendlyBufferRelease = 1048576.
Proof. reflexivity. Qed.


(** Reading the heap after a write. *)
Lemma heap_set_ses_eq (sid : string) (s : Session) (w : World) :
  heap (set_ses sid s w) sid = s.
Proof. cbn. now rewrite decide_True. Qed.

Lemma heap_set_ses_ne (sid sid' : string) (s : Session) (w : World) :
  sid' <> sid -> heap (set_ses sid s w) sid' = heap w sid'.
Proof. intros H. cbn. now rewrite decide_False. Qed.

Lemma heap_set_con (c : nat) (k : Con) (w : World) :
  heap (set_con c k w) = heap w.
Proof. reflexivity. Qed.

Lemma connections_set_con_eq (c : nat) (k : Con) (w : World) :
  connections (set_con c k w) c = k.
Proof. cbn. now rewrite decide_True. Qed.

Lemma connections_set_con_ne (c c' : nat) (k : Con) (w : World) :
  c' <> c -> connections (set_con c k w) c' = connections w c'.
Proof. intros H. cbn. now rewrite decide_False. Qed.

Lemma connections_set_ses (sid : string) (s : Session) (w : World) :
  connections (set_ses sid s w) = connections w.
Proof. reflexivity. Qed.

Lemma sessions_set_ses (sid : string) (s : Session) (w : World) :
  sessions (set_ses sid s w) = sessions w.
Proof. reflexivity. Qed.

Lemma sessions_set_con (c : nat) (k : Con) (w : World) :
  sessions (set_con c k w) = sessions w.
Proof. reflexivity. Qed.

#[local] Hint Rewrite heap_set_ses_eq heap_set_con connections_set_con_eq
  connections_set_ses sessions_set_ses sessions_set_con : world.


Lemma shrinkBuffer_ahead (w : World) (sid : string) (a : Z) :
  a > bytesRead (backendSocket (heap w sid)) ->
  shrinkBuffer sid a w = (Ret false, w).
Proof.
  intros H. unfold shrinkBuffer. unfold_M.
  apply Z.gtb_gt in H. now rewrite H.
Qed.

Lemma shrinkBuffer_behind (w : World) (sid : string) (a : Z) :
  a < bytesRead (backendSocket (heap w sid)) - blen (B2FUnacked (heap w sid)) ->
  shrinkBuffer sid a w = (Ret false, w).
Proof.
  intros H. unfold shrinkBuffer. unfold_M.
  destruct (a >? _); [reflexivity|].
  apply Z.ltb_lt in H. now rewrite H.
Qed.

Lemma shrinkBuffer_ok (w : World) (sid : string) (a : Z) :
  bytesRead (backendSocket (heap w sid)) - blen (B2FUnacked (heap w sid)) <= a
    <= bytesRead (backendSocket (heap w sid)) ->
  shrinkBuffer sid a w =
    (Ret true,
     set_ses sid
       (with_B2FUnacked
          (lastn (Z.to_nat (bytesRead (backendSocket (heap w sid)) - a))
                 (B2FUnacked (heap w sid)))
          (heap w sid)) w).
Proof.
  intros [H1 H2]. unfold shrinkBuffer. unfold_M.
  destruct (a >? _) eqn:E1; [apply Z.gtb_gt in E1; lia|].
  destruct (a <? _) eqn:E2; [apply Z.ltb_lt in E2; lia|].
  rewrite bslice_lastn by lia. reflexivity.
Qed.

(** The three cases are exhaustive: [shrinkBuffer] never throws. *)
Lemma shrinkBuffer_cases (w : World) (sid : string) (a : Z) :
  shrinkBuffer sid a w = (Ret false, w) \/
  exists b, shrinkBuffer sid a w =
              (Ret true, set_ses sid (with_B2FUnacked b (heap w sid)) w).
Proof.
  destruct (Z_gt_dec a (bytesRead (backendSocket (heap w sid)))) as [H|H].
  { left. now apply shrinkBuffer_ahead. }
  destruct (Z_lt_dec a (bytesRead (backendSocket (heap w sid))
                        - blen (B2FUnacked (heap w sid)))) as [H'|H'].
  { left. now apply shrinkBuffer_behind. }
  right. eexists. apply shrinkBuffer_ok. lia.
Qed.

Lemma sendFragment_detached (w : World) (sid : string) (fragment : Buffer) :
  frontendCon (heap w sid) = None ->
  sendFragment sid fragment w = (Ret tt, w).
Proof. intros H. unfold sendFragment. unfold_M. now rewrite H. Qed.

Lemma sendFragment_attached (w : World) (sid : string) (c : nat)
      (fragment headerBuffer : Buffer) :
  frontendCon (heap w sid) = Some c ->
  writeInt32BE (Z.min (bytesWritten (backendSocket (heap w sid)))
                      (pos (connections w c))) = Ret headerBuffer ->
  sendFragment sid fragment w =
    (Ret tt,
     set_con c (with_events (events (connections w c)
                             ++ [SendBytes (headerBuffer ++ fragment)])
                            (connections w c)) w).
Proof.
  intros H E. unfold sendFragment, sendBytes. unfold_M. now rewrite H, E.
Qed.

Lemma sendFragment_overflow (w : World) (sid : string) (c : nat) (fragment : Buffer) :
  frontendCon (heap w sid) = Some c ->
  int32_ok (Z.min (bytesWritten (backendSocket (heap w sid)))
                  (pos (connections w c))) = false ->
  sendFragment sid fragment w = (Exn RangeError, w).
Proof.
  intros H E. unfold sendFragment, sendBytes, writeInt32BE. unfold_M.
  now rewrite H, E.
Qed.

(** [sendFragment] touches nothing but the event list of a connection. *)
Lemma sendFragment_frame (w : World) (sid : string) (fragment : Buffer) :
  let w' := exec (sendFragment sid fragment) w in
  heap w' = heap w /\ sessions w' = sessions w /\
  forall i, pos (connections w' i) = pos (connections w i) /\
            listeners (connections w' i) = listeners (connections w i).
Proof.
  unfold exec, sendFragment, sendBytes. unfold_M.
  destruct (frontendCon (heap w sid)) as [c|]; [|now cbn].
  destruct (writeInt32BE _); cbn; [|now auto].
  repeat split; destruct (decide (i = c)); subst; reflexivity.
Qed.

Lemma on_close_frame (w : World) (sid : string) (c : nat) :
  let w' := exec (on_close sid c) w in
  connections w' = connections w /\ sessions w' = sessions w /\
  forall s, backendSocket (heap w' s) = backendSocket (heap w s) /\
            B2FUnacked (heap w' s) = B2FUnacked (heap w s).
Proof.
  unfold exec, on_close. unfold_M.
  destruct (decide _); cbn; [|now auto].
  repeat split; destruct (decide (s = sid)); subst; reflexivity.
Qed.

Lemma emit_close_frame (w : World) (c : nat) :
  let w' := exec (emit_close c) w in
  connections w' = connections w /\ sessions w' = sessions w /\
  forall s, backendSocket (heap w' s) = backendSocket (heap w s) /\
            B2FUnacked (heap w' s) = B2FUnacked (heap w s).
Proof.
  unfold exec, emit_close. unfold_M.
  destruct (listeners (connections w c)) as [sid|]; [|now cbn].
  apply on_close_frame.
Qed.

Lemma drop4_blen (d : Buffer) : 4 <= blen d -> blen (drop 4 d) = blen d - 4.
Proof. unfold blen. rewrite length_drop. lia. Qed.

(** A tail of the frame that is no longer than the payload is a tail of
    the payload. *)
Lemma lastn_frame_payload (n : nat) (d : Buffer) :
  (n + 4 <= length d)%nat -> lastn n d = lastn n (drop 4 d).
Proof.
  intros H. unfold lastn. rewrite drop_drop, length_drop. f_equal. lia.
Qed.

Lemma readInt32BE_total (d : Buffer) :
  4 <= blen d -> exists a, readInt32BE d = Ret a.
Proof.
  unfold blen.
  destruct d as [|b0 [|b1 [|b2 [|b3 d']]]]; cbn [length]; intros H; try lia.
  eexists. reflexivity.
Qed.

(** The part of the [message] listener that follows the write to the
    backend leaves the socket and every [pos] alone. *)
Lemma on_message_forwards (w : World) (sid : string) (c : nat) (d : Buffer) :
  4 <= blen d ->
  pos (connections w c) <= bytesWritten (backendSocket (heap w sid)) ->
  let pos' := pos (connections w c) + (blen d - 4) in
  let unseen :=
    lastn (Z.to_nat (Z.max (pos' - bytesWritten (backendSocket (heap w sid))) 0))
          (drop 4 d) in
  let w' := exec (on_message sid c (Binary d)) w in
  pos (connections w' c) = pos' /\
  backendSocket (heap w' sid) = socket_write unseen (backendSocket (heap w sid)).
Proof.
  intros Hlen Hpos pos' unseen w'.
  subst w'. unfold exec, on_message. unfold_M.
  cbn [set_con connections heap fst snd pos with_pos].
  rewrite decide_True by reflexivity. cbn [pos with_pos].
  fold pos'.
  rewrite bslice_lastn by (unfold pos'; lia).
  rewrite lastn_frame_payload by (unfold pos', blen in *; lia).
  fold unseen.
  destruct (readInt32BE_total d Hlen) as [a ->].
  set (w1 := set_ses _ _ _).
  assert (Hw1 : pos (connections w1 c) = pos' /\
                backendSocket (heap w1 sid) = socket_write unseen (backendSocket (heap w sid))).
  { subst w1. cbn. now rewrite !decide_True by reflexivity. }
  clearbody w1.
  destruct (shrinkBuffer_cases w1 sid a) as [-> | [b ->]].
  - cbn [negb]. pose proof (emit_close_frame w1 c) as (Hc & _ & Hh).
    unfold exec in *. rewrite Hc. destruct (Hh sid) as [-> _]. exact Hw1.
  - cbn [negb].
    set (w2 := set_ses _ _ _).
    assert (Hw2 : pos (connections w2 c) = pos' /\
                  backendSocket (heap w2 sid) = socket_write unseen (backendSocket (heap w sid))).
    { subst w2. cbn. now rewrite !decide_True by reflexivity. }
    clearbody w2.
    destruct (_ >? _); [|exact Hw2].
    pose proof (sendFragment_frame w2 sid []) as (Hh & _ & Hp).
    unfold exec in *. rewrite Hh. destruct (Hp c) as [-> _]. exact Hw2.
Qed.

Lemma writeInt32BE_ok (v : Z) :
  int32_ok v = true -> exists h, writeInt32BE v = Ret h /\ length h = 4%nat.
Proof.
  intros H. unfold writeInt32BE. rewrite H. eexists. split; reflexivity.
Qed.

Lemma unseen_length (pos' bw : Z) (d : Buffer) :
  4 <= blen d -> pos' - bw <= blen d - 4 ->
  blen (lastn (Z.to_nat (Z.max (pos' - bw) 0)) (drop 4 d)) = Z.max (pos' - bw) 0.
Proof.
  intros H4 H. unfold blen in *. rewrite lastn_length; [lia|].
  rewrite length_drop. lia.
Qed.

Lemma readInt32BE_Ret_length (d : Buffer) (a : Z) :
  readInt32BE d = Ret a -> 4 <= blen d.
Proof.
  unfold blen.
  destruct d as [|b0 [|b1 [|b2 [|b3 d']]]]; cbn [readInt32BE length];
    intros H; try discriminate H. lia.
Qed.

(** The [message] listener on a frame whose ack passes the shrink rules,
    in any state: [bslice] throws when the connection ends more than a
    frame ahead of the backend; otherwise the unseen tail is written, the
    buffer shrunk, and the empty fragment is sent or not. *)
Lemma on_message_acked (w : World) (sid : string) (c : nat) (d : Buffer) (a : Z) :
  frontendCon (heap w sid) = Some c ->
  readInt32BE d = Ret a ->
  bytesRead (backendSocket (heap w sid)) - blen (B2FUnacked (heap w sid)) <= a
    <= bytesRead (backendSocket (heap w sid)) ->
  let pos' := pos (connections w c) + (blen d - 4) in
  let bw := bytesWritten (backendSocket (heap w sid)) in
  let index := Z.max (pos' - bw) 0 in
  let r := on_message sid c (Binary d) w in
  pos (connections (snd r) c) = pos' /\
  if index >? blen d
  then bytesWritten (backendSocket (heap (snd r) sid)) = bw /\
       fst r = Exn (SpliceError (blen d - index)) /\
       events (connections (snd r) c) = events (connections w c)
  else bytesWritten (backendSocket (heap (snd r) sid)) = bw + index /\
       if bw + index - pos' >? friendlyBufferRelease
       then match writeInt32BE (Z.min (bw + index) pos') with
            | Ret h => fst r = Ret tt /\
                       events (connections (snd r) c)
                       = events (connections w c) ++ [SendBytes h]
            | Exn e => fst r = Exn e /\
                       events (connections (snd r) c) = events (connections w c)
            end
       else fst r = Ret tt /\
            events (connections (snd r) c) = events (connections w c).
Proof.
  intros Hatt Hack Hrange pos' bw index.
  pose proof (readInt32BE_Ret_length d a Hack) as Hlen.
  cbv zeta. unfold on_message. unfold_M. world_simpl. fold pos' bw index.
  destruct (index >? blen d) eqn:Hidx.
  - unfold bslice. rewrite Hidx. cbn [orb fst snd]. world_simpl. fold bw.
    repeat split.
  - rewrite Z.gtb_ltb in Hidx. apply Z.ltb_ge in Hidx.
    rewrite bslice_lastn by (unfold index; lia).
    cbn [fst snd]. rewrite Hack.
    set (unseen := lastn _ _).
    assert (Hun : blen unseen = index).
    { unfold unseen, blen in *. rewrite lastn_length; unfold index in *; lia. }
    rewrite shrinkBuffer_ok by (world_simpl; exact Hrange).
    world_simpl.
    set (w2 := set_ses _ _ _).
    assert (Hbw2 : bytesWritten (backendSocket (heap w2 sid)) = bw + index).
    { subst w2. world_simpl. fold bw. lia. }
    assert (Hpos2 : pos (connections w2 c) = pos') by (subst w2; now world_simpl).
    assert (Hatt2 : frontendCon (heap w2 sid) = Some c) by (subst w2; now world_simpl).
    assert (Hev2 : events (connections w2 c) = events (connections w c))
      by (subst w2; now world_simpl).
    clearbody w2. fold bw. rewrite Hun.
    destruct (_ >? friendlyBufferRelease).
    + destruct (writeInt32BE (Z.min (bw + index) pos')) as [h|e] eqn:Hh.
      * rewrite (sendFragment_attached w2 sid c [] h Hatt2)
          by (now rewrite Hbw2, Hpos2).
        world_simpl. rewrite app_nil_r, Hev2, Hbw2, Hpos2. repeat split.
      * assert (He : e = RangeError /\ int32_ok (Z.min (bw + index) pos') = false).
        { unfold writeInt32BE in Hh. destruct (int32_ok _); [discriminate|].
          split; [congruence | reflexivity]. }
        destruct He as [-> Hno].
        rewrite (sendFragment_overflow w2 sid c [] Hatt2)
          by (now rewrite Hbw2, Hpos2).
        cbn [fst snd]. rewrite Hpos2, Hbw2, Hev2. repeat split.
    + cbn [fst snd]. rewrite Hpos2, Hbw2, Hev2. repeat split.
Qed.

Lemma closeProtocol_events (c : nat) (w : World) :
  closeProtocol c w =
    (Ret tt,
     let w1 := set_con c (with_events (events (connections w c)
                                       ++ [SendBytes [xff; xff; xff; xff]])
                                      (connections w c)) w in
     set_con c (with_events (events (connections w1 c) ++ [Close])
                            (connections w1 c)) w1).
Proof. reflexivity. Qed.

(** With the invariant, the tail [shrinkBuffer] keeps is the stream read
    from the backend, from offset [a] on. *)
Lemma lastn_unacked_drop (s : Session) (a : Z) :
  wf_session s ->
  bytesRead (backendSocket s) - blen (B2FUnacked s) <= a
    <= bytesRead (backendSocket s) ->
  lastn (Z.to_nat (bytesRead (backendSocket s) - a)) (B2FUnacked s)
  = drop (Z.to_nat a) (received (backendSocket s)).
Proof.
  intros [Hread [acked Hsuf]] [H1 H2]. rewrite Hread in *. rewrite Hsuf in *.
  rewrite blen_app in *. unfold blen in *. unfold lastn.
  rewrite drop_app_ge by lia. f_equal. lia.
Qed.

Lemma adopt_resume (w : World) (sid : string) (c : nat) (ack pos_ : Z) :
  wf_session (heap w sid) ->
  frontendCon (heap w sid) <> Some c ->
  pos_ <= bytesWritten (backendSocket (heap w sid)) ->
  bytesRead (backendSocket (heap w sid)) - blen (B2FUnacked (heap w sid)) <= ack
    <= bytesRead (backendSocket (heap w sid)) ->
  int32_ok pos_ = true ->
  let w' := exec (adopt sid c ack pos_) w in
  fst (adopt sid c ack pos_ w) = Ret tt /\
  frontendCon (heap w' sid) = Some c /\
  pos (connections w' c) = pos_ /\
  exists h,
    writeInt32BE pos_ = Ret h /\
    events (connections w' c) =
      events (connections w c)
      ++ [SendBytes (h ++ drop (Z.to_nat ack) (received (backendSocket (heap w sid))))].
Proof.
  intros Hwf Hfresh Hpos Hack Hok.
  destruct (writeInt32BE_ok pos_ Hok) as (h & Hh & _).
  rewrite <- (lastn_unacked_drop _ _ Hwf Hack).
  assert (Hle : (pos_ >? bytesWritten (backendSocket (heap w sid))) = false).
  { destruct (_ >? _) eqn:E; [apply Z.gtb_gt in E; lia | reflexivity]. }
  cbv zeta. unfold exec, adopt. unfold_M.
  destruct (frontendCon (heap w sid)) as [old|] eqn:Hold.
  - assert (old <> c) by congruence.
    rewrite closeProtocol_events. cbv zeta.
    cbn [set_con connections heap fst snd].
    rewrite Hle.
    rewrite shrinkBuffer_ok by (cbn; exact Hack).
    cbn [negb set_ses set_con connections heap fst snd].
    rewrite !decide_True by reflexivity.
    erewrite sendFragment_attached; cycle 1.
    { cbn. now rewrite decide_True by reflexivity. }
    { cbn. rewrite !decide_True by reflexivity. cbn.
      rewrite Z.min_r by lia. exact Hh. }
    cbn. rewrite !decide_True by reflexivity. cbn.
    rewrite !decide_False by congruence.
    repeat split. exists h. auto.
  - cbn [set_con connections heap fst snd].
    rewrite Hle.
    rewrite shrinkBuffer_ok by (cbn; exact Hack).
    cbn [negb set_ses set_con connections heap fst snd].
    rewrite !decide_True by reflexivity.
    erewrite sendFragment_attached; cycle 1.
    { cbn. now rewrite decide_True by reflexivity. }
    { cbn. rewrite !decide_True by reflexivity. cbn.
      rewrite Z.min_r by lia. exact Hh. }
    cbn. rewrite !decide_True by reflexivity. cbn.
    repeat split. exists h. auto.
Qed.

(** ** Rejected requests *)

(** [adopt] with a [pos] ahead of what the backend was given: the branch
    evaluates [frontend] and throws before anything is sent to [c]. *)
Lemma adopt_pos_ahead (w : World) (sid : string) (c : nat) (ack pos_ : Z) :
  pos_ > bytesWritten (backendSocket (heap w sid)) ->
  frontendCon (heap w sid) <> Some c ->
  let w' := exec (adopt sid c ack pos_) w in
  fst (adopt sid c ack pos_ w) = Exn ReferenceError /\
  events (connections w' c) = events (connections w c) /\
  frontendCon (heap w' sid) = frontendCon (heap w sid).
Proof.
  intros Hpos Hfresh. apply Z.gtb_gt in Hpos.
  cbv zeta. unfold exec, adopt, frontend. unfold_M.
  destruct (frontendCon (heap w sid)) as [old|] eqn:Hold.
  - rewrite closeProtocol_events. cbv zeta.
    cbn [set_con connections heap fst snd]. rewrite Hpos. cbn.
    rewrite !decide_True by reflexivity. cbn.
    rewrite !decide_False by congruence. auto.
  - cbn [set_con connections heap fst snd]. rewrite Hpos. cbn.
    rewrite !decide_True by reflexivity. auto.
Qed.

(** The [message] listener on a frame whose ack fails the shrink rules:
    the [close] listeners run, nothing is sent and the WebSocket stays
    open. *)
Lemma on_message_rejected_ack (w : World) (sid : string) (c : nat) (d : Buffer) (a : Z) :
  frontendCon (heap w sid) = Some c ->
  listeners (connections w c) = Some sid ->
  4 <= blen d ->
  pos (connections w c) <= bytesWritten (backendSocket (heap w sid)) ->
  readInt32BE d = Ret a ->
  a > bytesRead (backendSocket (heap w sid)) \/
  a < bytesRead (backendSocket (heap w sid)) - blen (B2FUnacked (heap w sid)) ->
  let w' := exec (on_message sid c (Binary d)) w in
  fst (on_message sid c (Binary d) w) = Ret tt /\
  events (connections w' c) = events (connections w c) /\
  frontendCon (heap w' sid) = None.
Proof.
  intros Hatt Hlis Hlen Hpos Hack Hbad.
  cbv zeta. unfold exec, on_message. unfold_M. world_simpl.
  rewrite bslice_lastn by lia. rewrite Hack.
  set (w1 := set_ses _ _ _).
  assert (Hfail : shrinkBuffer sid a w1 = (Ret false, w1)).
  { destruct Hbad as [H|H]; [apply shrinkBuffer_ahead | apply shrinkBuffer_behind];
      subst w1; world_simpl; lia. }
  rewrite Hfail. cbn [negb].
  unfold emit_close, on_close. unfold_M.
  subst w1. world_simpl. rewrite Hlis. world_simpl.
  rewrite Hatt, decide_True by reflexivity. world_simpl. auto.
Qed.

(** A [/connect] that names a session whose backend socket has closed. *)
Lemma connect_after_backend_close (w : World) (sid : string) (ack pos_ : Z) :
  sid <> ""%string ->
  let w1 := exec (backend_close sid) w in
  let w2 := exec (on_request (connect sid ack pos_)) w1 in
  sessions w1 !! sid = Some RNull /\
  fst (on_request (connect sid ack pos_) w1) = Exn TypeError /\
  events (connections w2 (nextCon w1)) = [].
Proof.
  intros Hsid. apply String.eqb_neq in Hsid.
  assert (Hreg : sessions (exec (backend_close sid) w) !! sid = Some RNull).
  { unfold exec, backend_close. unfold_M. cbn.
    destruct (frontendCon (heap w sid));
      [rewrite closeProtocol_events|]; cbn; apply lookup_insert_eq. }
  cbv zeta. split; [exact Hreg|].
  set (w1 := exec (backend_close sid) w) in *. clearbody w1.
  unfold exec, on_request, accept, sessions_get, connect. unfold_M.
  cbn [fst snd sessions connections nextCon heap pathname query_sid query_ack
       query_pos String.eqb Ascii.eqb Bool.eqb negb].
  rewrite Hsid. cbn [sessions]. rewrite Hreg. cbn [fst snd connections].
  rewrite decide_True by reflexivity. auto.
Qed.

(** A request without a usable [sid] is protocol-closed and not adopted. *)
Lemma on_request_no_sid (w : World) (path : string) (ack pos_ : Z) (q : option string) :
  q = None \/ q = Some ""%string ->
  let w' := exec (on_request (mkRequest path q ack pos_)) w in
  listeners (connections w' (nextCon w)) = None /\
  exists pre, events (connections w' (nextCon w))
              = pre ++ [SendBytes [xff; xff; xff; xff]; Close].
Proof.
  intros Hq. cbv zeta. unfold exec, on_request, accept. unfold_M. cbn.
  destruct (negb (String.eqb path "/connect"));
    [rewrite closeProtocol_events|]; cbn;
    destruct Hq as [-> | ->]; cbn [String.eqb];
    rewrite closeProtocol_events; cbn;
    rewrite !decide_True by reflexivity; cbn;
    (split; [reflexivity|]).
  all: first [ now exists [SendBytes [xff; xff; xff; xff]; Close]
             | now exists [] ].
Qed.

(** [adopt] registers its listeners on [c] first, whatever follows. *)
Lemma adopt_registers_listeners (w : World) (sid : string) (c : nat) (ack pos_ : Z) :
  listeners (connections (exec (adopt sid c ack pos_) w) c) = Some sid.
Proof.
  unfold exec, adopt, frontend. unfold_M.
  set (evict := match frontendCon (heap w sid) with
                | Some old => closeProtocol old
                | None => _
                end).
  assert (Hev : exists w1, evict w = (Ret tt, w1) /\ heap w1 = heap w).
  { subst evict. destruct (frontendCon (heap w sid)) as [old|].
    - rewrite closeProtocol_events. eexists. split; reflexivity.
    - eexists. split; reflexivity. }
  destruct Hev as (w1 & -> & Hheap). world_simpl.
  destruct (pos_ >? _); [now world_simpl|]. world_simpl.
  set (w3 := set_con c _ _).
  assert (H3 : listeners (connections w3 c) = Some sid) by (subst w3; now world_simpl).
  clearbody w3.
  destruct (shrinkBuffer_cases w3 sid ack) as [-> | [b ->]]; cbn [negb].
  - rewrite closeProtocol_events. cbv zeta. now world_simpl.
  - world_simpl.
    set (w5 := set_ses _ _ _).
    assert (H5 : listeners (connections w5 c) = Some sid) by (subst w5; now world_simpl).
    clearbody w5.
    match goal with
    | |- context [sendFragment sid ?f w5] =>
        pose proof (sendFragment_frame w5 sid f) as (_ & _ & Hl)
    end.
    unfold exec in Hl. destruct (Hl c) as [_ ->]. exact H5.
Qed.

(** A [sid] that [sessions] neither owns nor inherits: protocol-close,
    and [adopt] is not called. *)
Lemma on_request_unknown_sid (w : World) (sid : string) (ack pos_ : Z) :
  sid <> ""%string ->
  sessions w !! sid = None ->
  sid ∉ Object_prototype ->
  let w' := exec (on_request (connect sid ack pos_)) w in
  fst (on_request (connect sid ack pos_) w) = Ret tt /\
  listeners (connections w' (nextCon w)) = None /\
  events (connections w' (nextCon w)) = [SendBytes [xff; xff; xff; xff]; Close].
Proof.
  intros Hsid Hreg Hproto. apply String.eqb_neq in Hsid.
  cbv zeta. unfold exec, on_request, accept, sessions_get, connect. unfold_M.
  cbn [fst snd sessions connections nextCon heap pathname query_sid query_ack
       query_pos String.eqb Ascii.eqb Bool.eqb negb].
  rewrite Hsid. cbn [sessions]. rewrite Hreg, decide_False by exact Hproto.
  rewrite closeProtocol_events. cbv zeta.
  world_simpl. cbn [connections]. rewrite decide_True by reflexivity.
  auto.
Qed.

(** A [/connect] that names a registered session is handed to [adopt]. *)
Lemma on_request_connect_known (w : World) (sid s : string) (ack pos_ : Z) :
  sid <> ""%string ->
  sessions w !! sid = Some (RSession s) ->
  on_request (connect sid ack pos_) w = adopt s (nextCon w) ack pos_ (exec accept w).
Proof.
  intros Hsid Hreg. apply String.eqb_neq in Hsid.
  unfold exec, on_request, accept, sessions_get, connect. unfold_M.
  cbn [fst snd sessions connections nextCon heap pathname query_sid query_ack
       query_pos String.eqb Ascii.eqb Bool.eqb negb].
  rewrite Hsid. cbn [sessions]. now rewrite Hreg.
Qed.

(** A request for another path that names a live session: after the
    protocol-close the handler goes on and calls [adopt]. *)
Lemma on_request_wrong_path_adopts (w : World) (path sid s : string) (ack pos_ : Z) :
  path <> "/connect"%string ->
  sid <> ""%string ->
  sessions w !! sid = Some (RSession s) ->
  let w' := exec (on_request (mkRequest path (Some sid) ack pos_)) w in
  listeners (connections w' (nextCon w)) = Some s.
Proof.
  intros Hpath Hsid Hreg.
  apply String.eqb_neq in Hpath. apply String.eqb_neq in Hsid.
  cbv zeta. unfold exec, on_request, accept, sessions_get. unfold_M.
  cbn [fst snd sessions connections nextCon heap pathname query_sid query_ack
       query_pos negb].
  rewrite Hpath. cbn [negb]. rewrite closeProtocol_events. cbv zeta.
  cbn [fst snd]. rewrite Hsid. world_simpl. cbn [sessions]. rewrite Hreg.
  apply adopt_registers_listeners.
Qed.

(** ** The retransmission invariant is kept *)

Lemma ses_shrinks_refl (s : Session) : ses_shrinks s s.
Proof. split; [|split]; reflexivity. Qed.

Lemma ses_shrinks_trans (s1 s2 s3 : Session) :
  ses_shrinks s1 s2 -> ses_shrinks s2 s3 -> ses_shrinks s1 s3.
Proof.
  intros (Ha & Hb & Hc) (Ha' & Hb' & Hc'). repeat split; try congruence.
  now transitivity (B2FUnacked s2).
Qed.

Lemma ses_shrinks_wf (s s' : Session) :
  wf_session s -> ses_shrinks s s' -> wf_session s'.
Proof.
  intros [Hread Hsuf] (Ha & Hb & Hc). split.
  - congruence.
  - rewrite Hb. now transitivity (B2FUnacked s).
Qed.

Lemma shrinks_refl (w : World) : shrinks w w.
Proof. intros sid. apply ses_shrinks_refl. Qed.

Lemma shrinks_trans (w1 w2 w3 : World) :
  shrinks w1 w2 -> shrinks w2 w3 -> shrinks w1 w3.
Proof. intros H1 H2 sid. eapply ses_shrinks_trans; [apply H1 | apply H2]. Qed.

Lemma shrinks_heap (w w' : World) : heap w' = heap w -> shrinks w w'.
Proof. intros H sid. rewrite H. apply ses_shrinks_refl. Qed.

Lemma shrinks_set_con (c : nat) (k : Con) (w : World) : shrinks w (set_con c k w).
Proof. now apply shrinks_heap. Qed.

Lemma shrinks_set_ses (sid : string) (s : Session) (w : World) :
  ses_shrinks (heap w sid) s -> shrinks w (set_ses sid s w).
Proof.
  intros H sid'. destruct (decide (sid' = sid)) as [->|Hne].
  - now rewrite heap_set_ses_eq.
  - rewrite heap_set_ses_ne by exact Hne. apply ses_shrinks_refl.
Qed.

Lemma shrinks_wf (w w' : World) : wf_world w -> shrinks w w' -> wf_world w'.
Proof. intros Hwf H sid. eapply ses_shrinks_wf; [apply Hwf | apply H]. Qed.

Lemma closeProtocol_shrinks (c : nat) (w : World) :
  shrinks w (exec (closeProtocol c) w).
Proof. unfold exec. rewrite closeProtocol_events. now apply shrinks_heap. Qed.

Lemma sendFragment_shrinks (sid : string) (fragment : Buffer) (w : World) :
  shrinks w (exec (sendFragment sid fragment) w).
Proof. apply shrinks_heap. apply sendFragment_frame. Qed.

Lemma shrinkBuffer_shrinks (sid : string) (a : Z) (w : World) :
  shrinks w (exec (shrinkBuffer sid a) w).
Proof.
  unfold exec, shrinkBuffer. unfold_M.
  destruct (a >? _); [apply shrinks_refl|].
  destruct (a <? _); [apply shrinks_refl|].
  unfold bslice.
  destruct (_ || _); [apply shrinks_refl|].
  destruct (_ =? 0); cbn [snd]; apply shrinks_set_ses; same_stream.
  - apply suffix_nil.
  - apply suffix_drop.
Qed.

Lemma on_close_shrinks (sid : string) (c : nat) (w : World) :
  shrinks w (exec (on_close sid c) w).
Proof.
  unfold exec, on_close. unfold_M.
  destruct (decide _); cbn [snd]; [|apply shrinks_refl].
  apply shrinks_set_ses. now same_stream.
Qed.

Lemma emit_close_shrinks (c : nat) (w : World) :
  shrinks w (exec (emit_close c) w).
Proof.
  unfold exec, emit_close. unfold_M.
  destruct (listeners (connections w c)); [apply on_close_shrinks|apply shrinks_refl].
Qed.

Lemma on_message_shrinks (sid : string) (c : nat) (m : Message) (w : World) :
  shrinks w (exec (on_message sid c m) w).
Proof.
  destruct m as [u|d]; [apply closeProtocol_shrinks|].
  unfold exec, on_message. unfold_M. cbn beta iota.
  set (w0 := set_con c _ w).
  assert (H0 : shrinks w w0) by apply shrinks_set_con.
  cbn [fst snd]. clearbody w0.
  apply (shrinks_trans _ _ _ H0). clear H0.
  destruct (bslice _ d) as [unseen|e]; [|apply shrinks_refl].
  set (w1 := set_ses sid _ w0).
  assert (H1 : shrinks w0 w1) by (apply shrinks_set_ses; now same_stream).
  clearbody w1. apply (shrinks_trans _ _ _ H1). clear H1.
  destruct (readInt32BE d) as [a|e]; [|apply shrinks_refl].
  pose proof (shrinkBuffer_shrinks sid a w1) as H2. unfold exec in H2.
  destruct (shrinkBuffer sid a w1) as [[ok|e] w2]; cbn [snd] in H2;
    apply (shrinks_trans _ _ _ H2); [|apply shrinks_refl].
  destruct ok; cbn [negb].
  - destruct (_ >? _); [apply sendFragment_shrinks | apply shrinks_refl].
  - apply emit_close_shrinks.
Qed.

Lemma adopt_shrinks (sid : string) (c : nat) (ack pos_ : Z) (w : World) :
  shrinks w (exec (adopt sid c ack pos_) w).
Proof.
  unfold exec, adopt, frontend. unfold_M.
  set (evict := match frontendCon (heap w sid) with
                | Some old => closeProtocol old
                | None => _
                end).
  assert (Hev : exists w1, evict w = (Ret tt, w1) /\ shrinks w w1).
  { subst evict. destruct (frontendCon (heap w sid)) as [old|].
    - rewrite closeProtocol_events. eexists. split; [reflexivity|].
      now apply shrinks_heap.
    - eexists. split; [reflexivity | apply shrinks_refl]. }
  destruct Hev as (w1 & -> & H1). apply (shrinks_trans _ _ _ H1). clear H1.
  cbn beta iota.
  set (w2 := set_con c _ w1).
  assert (H2 : shrinks w1 w2) by apply shrinks_set_con.
  cbn [fst snd]. clearbody w2. apply (shrinks_trans _ _ _ H2). clear H2.
  destruct (pos_ >? _); [apply shrinks_refl|].
  set (w3 := set_con c _ w2).
  assert (H3 : shrinks w2 w3) by apply shrinks_set_con.
  clearbody w3. apply (shrinks_trans _ _ _ H3). clear H3.
  pose proof (shrinkBuffer_shrinks sid ack w3) as H4. unfold exec in H4.
  destruct (shrinkBuffer sid ack w3) as [[ok|e] w4]; cbn [snd] in H4;
    apply (shrinks_trans _ _ _ H4); [|apply shrinks_refl].
  destruct ok; cbn [negb]; [|apply closeProtocol_shrinks].
  set (w5 := set_ses sid _ w4).
  assert (H5 : shrinks w4 w5) by (apply shrinks_set_ses; now same_stream).
  clearbody w5. apply (shrinks_trans _ _ _ H5).
  apply sendFragment_shrinks.
Qed.

Lemma on_request_shrinks (request : Request) (w : World) :
  shrinks w (exec (on_request request) w).
Proof.
  unfold exec, on_request, accept, sessions_get. unfold_M. cbn beta iota.
  set (w0 := mkWorld _ _ _ _).
  assert (H0 : shrinks w w0) by now apply shrinks_heap.
  cbn [fst snd]. clearbody w0. apply (shrinks_trans _ _ _ H0). clear H0.
  set (c := nextCon w). clearbody c.
  set (reject := if negb _ then closeProtocol c else _).
  assert (Hrj : exists w1, reject w0 = (Ret tt, w1) /\ shrinks w0 w1).
  { subst reject. destruct (negb _).
    - rewrite closeProtocol_events. eexists. split; [reflexivity|].
      now apply shrinks_heap.
    - eexists. split; [reflexivity | apply shrinks_refl]. }
  destruct Hrj as (w1 & -> & H1). apply (shrinks_trans _ _ _ H1). clear H1.
  destruct (query_sid request) as [sid|]; [|apply closeProtocol_shrinks].
  destruct (String.eqb sid ""); [apply closeProtocol_shrinks|].
  cbn [fst snd].
  destruct (sessions w1 !! sid) as [[|s]|]; [apply shrinks_refl| apply adopt_shrinks |].
  destruct (decide _); [apply shrinks_refl | apply closeProtocol_shrinks].
Qed.

Lemma backend_close_shrinks (sid : string) (w : World) :
  shrinks w (exec (backend_close sid) w).
Proof.
  unfold exec, backend_close. unfold_M. cbn [fst snd].
  set (w1 := set_sessions _ w).
  assert (H1 : shrinks w w1) by now apply shrinks_heap.
  clearbody w1. apply (shrinks_trans _ _ _ H1).
  destruct (frontendCon (heap w1 sid)); [apply closeProtocol_shrinks | apply shrinks_refl].
Qed.

(** Data from the backend extends the stream and the buffer alike. *)
Lemma backend_data_wf (sid : string) (buf : Buffer) (w : World) :
  fst (backend_data sid buf w) = Ret tt ->
  wf_world w -> wf_world (exec (backend_data sid buf) w).
Proof.
  unfold exec, backend_data. unfold_M. cbn [fst snd].
  set (s1 := with_backendSocket _ _).
  set (w1 := set_ses sid s1 w).
  pose proof (sendFragment_frame w1 sid buf) as (Hheap & _). unfold exec in Hheap.
  destruct (sendFragment sid buf w1) as [[[]|e] w2]; cbn [fst snd] in *;
    [|discriminate].
  intros _ Hwf sid'. destruct (decide (sid' = sid)) as [->|Hne].
  - rewrite heap_set_ses_eq, Hheap. subst w1. rewrite heap_set_ses_eq.
    subst s1. destruct (Hwf sid) as [Hread [acked Hsuf]].
    split; cbn.
    + rewrite Hread, blen_app. reflexivity.
    + exists acked. rewrite Hsuf. now rewrite app_assoc.
  - rewrite heap_set_ses_ne by exact Hne. rewrite Hheap. subst w1.
    rewrite heap_set_ses_ne by exact Hne. apply Hwf.
Qed.

Lemma world0_wf : wf_world world0.
Proof. intros sid. split; [reflexivity | now exists []]. Qed.

(** ** The properties of the protocol *)

(** C1. A binary frame of at least four bytes arrives on a connection
    whose [pos] is not ahead of [bytesWritten].  The listener first adds
    the payload length to [pos]; with that new [pos] it writes to the
    backend exactly the last [max (pos - bytesWritten) 0] bytes of the
    payload, so bytes the relay has already seen are dropped, and
    [bytesWritten] grows by the length of that unseen tail. *)
Theorem binary_frame_forwards_unseen_suffix
        (w : World) (sid : string) (c : nat) (d : Buffer) :
  4 <= blen d ->
  pos (connections w c) <= bytesWritten (backendSocket (heap w sid)) ->
  let payload := drop 4 d in
  let w' := exec (on_message sid c (Binary d)) w in
  let overlap := pos (connections w' c) - bytesWritten (backendSocket (heap w sid)) in
  let unseen := lastn (Z.to_nat (Z.max overlap 0)) payload in
  pos (connections w' c) = pos (connections w c) + blen payload /\
  blen unseen = Z.max overlap 0 /\
  written (backendSocket (heap w' sid))
    = written (backendSocket (heap w sid)) ++ unseen /\
  bytesWritten (backendSocket (heap w' sid))
    = bytesWritten (backendSocket (heap w sid)) + blen unseen.
Proof.
  intros Hlen Hpos. cbv zeta.
  destruct (on_message_forwards w sid c d Hlen Hpos) as [Hp Hs].
  rewrite Hp, Hs, drop4_blen by exact Hlen. cbn [socket_write written bytesWritten].
  rewrite unseen_length by lia. auto.
Qed.

(** Scenario S4: the frontend had sent [abcd], reconnects at [pos=0] and
    sends [abcdXY]; only [XY] reaches the backend. *)
Lemma S4_frontend_overlap :
  let d := frame 0 "abcdXY" in
  let w' := exec (on_message "X" 1 (Binary d)) reconnected in
  4 <= blen d /\
  pos (connections reconnected 1)
    <= bytesWritten (backendSocket (heap reconnected "X")) /\
  pos (connections w' 1) = 6 /\
  written (backendSocket (heap w' "X")) = list_byte_of_string "abcdXY" /\
  bytesWritten (backendSocket (heap w' "X")) = 6.
Proof.
  cbv zeta.
  assert (H1 : 4 <= blen (frame 0 "abcdXY")) by (vm_compute; discriminate).
  assert (H2 : pos (connections reconnected 1)
               <= bytesWritten (backendSocket (heap reconnected "X")))
    by (vm_compute; discriminate).
  destruct (binary_frame_forwards_unseen_suffix reconnected "X" 1%nat _ H1 H2)
    as (Hp & _ & Hw & Hb).
  split; [exact H1|]. split; [exact H2|].
  rewrite Hp, Hw, Hb. vm_compute. auto.
Defined.

(** C2. [shrinkBuffer] on an ack [a]: it fails when [a] is above
    [bytesRead], it fails when [a] is below [bytesRead] minus the length
    of [B2FUnacked], and otherwise it succeeds and [B2FUnacked] becomes its
    own last [bytesRead - a] bytes; for [a = bytesRead] that is the empty
    buffer. *)
Theorem shrinkBuffer_spec (w : World) (sid : string) (a : Z) :
  let ses := heap w sid in
  let read := bytesRead (backendSocket ses) in
  let buf := B2FUnacked ses in
  (a > read -> shrinkBuffer sid a w = (Ret false, w)) /\
  (a < read - blen buf -> shrinkBuffer sid a w = (Ret false, w)) /\
  (read - blen buf <= a <= read ->
   shrinkBuffer sid a w =
     (Ret true,
      set_ses sid (with_B2FUnacked (lastn (Z.to_nat (read - a)) buf) ses) w)) /\
  (a = read ->
   fst (shrinkBuffer sid a w) = Ret true /\
   B2FUnacked (heap (exec (shrinkBuffer sid a) w) sid) = []).
Proof.
  cbv zeta. split; [|split; [|split]].
  - apply shrinkBuffer_ahead.
  - apply shrinkBuffer_behind.
  - apply shrinkBuffer_ok.
  - intros ->. unfold exec.
    pose proof (blen_nonneg (B2FUnacked (heap w sid))).
    rewrite shrinkBuffer_ok by lia. world_simpl.
    rewrite Z.sub_diag. split; [reflexivity | apply lastn_0].
Qed.

(** With six bytes read and [ef] unacked: ack 7 is ahead, ack 3 is behind,
    ack 5 keeps [f], ack 6 empties the buffer. *)
Lemma shrinkBuffer_on_ef :
  let w := dropped_after_ack in
  bytesRead (backendSocket (heap w "X")) = 6 /\
  B2FUnacked (heap w "X") = list_byte_of_string "ef" /\
  shrinkBuffer "X" 7 w = (Ret false, w) /\
  shrinkBuffer "X" 3 w = (Ret false, w) /\
  B2FUnacked (heap (exec (shrinkBuffer "X" 5) w) "X") = list_byte_of_string "f" /\
  B2FUnacked (heap (exec (shrinkBuffer "X" 6) w) "X") = [].
Proof.
  cbv zeta.
  destruct (shrinkBuffer_spec dropped_after_ack "X" 7) as (H7 & _).
  destruct (shrinkBuffer_spec dropped_after_ack "X" 3) as (_ & H3 & _).
  destruct (shrinkBuffer_spec dropped_after_ack "X" 5) as (_ & _ & H5 & _).
  destruct (shrinkBuffer_spec dropped_after_ack "X" 6) as (_ & _ & _ & H6).
  split; [reflexivity|]. split; [reflexivity|].
  split; [apply H7; vm_compute; reflexivity|].
  split; [apply H3; vm_compute; reflexivity|].
  split.
  - unfold exec. rewrite H5 by (vm_compute; split; discriminate).
    vm_compute. reflexivity.
  - apply H6. reflexivity.
Defined.

(** C3, amended.  An adoption with [pos] not ahead of [bytesWritten],
    [ack] passing the shrink rules, and [pos] a signed 32-bit integer: it
    is [pos] that the four-byte header of the fragment carries.  Then
    [adopt] returns with [c] installed, and what it did to [c] is one
    [sendBytes]: the header followed by the bytes of the backend stream
    from offset [ack] up to [bytesRead]. *)
Theorem adopt_resumes_unacked_suffix
        (w : World) (sid : string) (c : nat) (ack pos_ : Z) :
  wf_session (heap w sid) ->
  frontendCon (heap w sid) <> Some c ->
  pos_ <= bytesWritten (backendSocket (heap w sid)) ->
  bytesRead (backendSocket (heap w sid)) - blen (B2FUnacked (heap w sid)) <= ack
    <= bytesRead (backendSocket (heap w sid)) ->
  int32_ok pos_ = true ->
  let w' := exec (adopt sid c ack pos_) w in
  let suffix := drop (Z.to_nat ack) (received (backendSocket (heap w sid))) in
  fst (adopt sid c ack pos_ w) = Ret tt /\
  frontendCon (heap w' sid) = Some c /\
  blen suffix = bytesRead (backendSocket (heap w sid)) - ack /\
  exists fragment,
    events (connections w' c) = events (connections w c) ++ [SendBytes fragment] /\
    readInt32BE fragment = Ret pos_ /\
    drop 4 fragment = suffix.
Proof.
  intros Hwf Hfresh Hpos Hack Hok. cbv zeta.
  destruct (adopt_resume w sid c ack pos_ Hwf Hfresh Hpos Hack Hok)
    as (Hret & Hatt & _ & h & Hh & Hev).
  split; [exact Hret|]. split; [exact Hatt|]. split.
  - destruct Hwf as [Hread [acked Hsuf]].
    pose proof (f_equal length Hsuf) as Hl. rewrite length_app in Hl.
    rewrite Hread in *. unfold blen in *. rewrite length_drop. lia.
  - eexists. split; [exact Hev|]. split.
    + now apply readInt32BE_writeInt32BE.
    + now apply (drop_header pos_).
Qed.

(** Scenario S3: six bytes read, four acked, reconnect with
    [ack=4&pos=0]: the new frontend is sent ack 0 and [ef]. *)
Lemma S3_resume_skipping_acked :
  let w := dropped_after_ack in
  let w' := exec (adopt "X" 1 4 0) w in
  wf_session (heap w "X") /\
  frontendCon (heap w "X") <> Some 1%nat /\
  0 <= bytesWritten (backendSocket (heap w "X")) /\
  bytesRead (backendSocket (heap w "X")) - blen (B2FUnacked (heap w "X")) <= 4
    <= bytesRead (backendSocket (heap w "X")) /\
  frontendCon (heap w' "X") = Some 1%nat /\
  exists fragment,
    events (connections w' 1) = [SendBytes fragment] /\
    readInt32BE fragment = Ret 0 /\
    drop 4 fragment = list_byte_of_string "ef".
Proof.
  cbv zeta.
  assert (H1 : wf_session (heap dropped_after_ack "X")).
  { split; [reflexivity|]. exists (list_byte_of_string "abcd"). reflexivity. }
  assert (H2 : frontendCon (heap dropped_after_ack "X") <> Some 1%nat)
    by (vm_compute; discriminate).
  assert (H3 : 0 <= bytesWritten (backendSocket (heap dropped_after_ack "X")))
    by (vm_compute; discriminate).
  assert (H4 : bytesRead (backendSocket (heap dropped_after_ack "X"))
               - blen (B2FUnacked (heap dropped_after_ack "X")) <= 4
               <= bytesRead (backendSocket (heap dropped_after_ack "X")))
    by (vm_compute; split; discriminate).
  destruct (adopt_resumes_unacked_suffix dropped_after_ack "X" 1%nat 4 0
              H1 H2 H3 H4 eq_refl)
    as (_ & Hatt & _ & fragment & Hev & Hhdr & Hpay).
  split; [exact H1|]. split; [exact H2|]. split; [exact H3|]. split; [exact H4|].
  split; [exact Hatt|]. exists fragment.
  split; [exact Hev|]. split; [exact Hhdr | exact Hpay].
Defined.

(** C3 as stated, without the bound on [pos]: the upgrade
    [/connect?sid=X&ack=0&pos=-2147483649] on a session that [/proxy] has
    just registered.  [pos] is not ahead of [bytesWritten] and the ack
    passes, so the connection is installed; then [writeInt32BE] throws on
    the header and no fragment is sent. *)
Lemma adopt_pos_below_int32_sends_nothing :
  wf_session (heap registered "X") /\
  frontendCon (heap registered "X") <> Some 0%nat /\
  -2147483649 <= bytesWritten (backendSocket (heap registered "X")) /\
  (bytesRead (backendSocket (heap registered "X"))
   - blen (B2FUnacked (heap registered "X")) <= 0
   <= bytesRead (backendSocket (heap registered "X"))) /\
  fst (adopt "X" 0 0 (-2147483649) registered) = Exn RangeError /\
  frontendCon (heap (exec (adopt "X" 0 0 (-2147483649)) registered) "X") = Some 0%nat /\
  events (connections (exec (adopt "X" 0 0 (-2147483649)) registered) 0) = [] /\
  ~ (exists fragment,
       events (connections (exec (adopt "X" 0 0 (-2147483649)) registered) 0)
       = events (connections registered 0) ++ [SendBytes fragment]).
Proof.
  split; [split; [reflexivity | now exists []]|].
  split; [vm_compute; discriminate|].
  split; [vm_compute; discriminate|].
  split; [vm_compute; split; discriminate|].
  split; [vm_compute; reflexivity|].
  split; [vm_compute; reflexivity|].
  split; [vm_compute; reflexivity|].
  intros [fragment H]. vm_compute in H. discriminate H.
Qed.

(** C8. A fragment [sendFragment] sends to the attached frontend starts
    with the big-endian encoding of [min bytesWritten pos]; that ack is
    not above [pos].  When the minimum is no signed 32-bit integer,
    nothing is sent. *)
Theorem sendFragment_ack_header
        (w : World) (sid : string) (c : nat) (fragment : Buffer) :
  frontendCon (heap w sid) = Some c ->
  let ack := Z.min (bytesWritten (backendSocket (heap w sid))) (pos (connections w c)) in
  let w' := exec (sendFragment sid fragment) w in
  ack <= pos (connections w c) /\
  (int32_ok ack = true ->
   exists sent,
     events (connections w' c) = events (connections w c) ++ [SendBytes sent] /\
     length sent = (4 + length fragment)%nat /\
     readInt32BE sent = Ret ack /\
     drop 4 sent = fragment) /\
  (int32_ok ack = false -> events (connections w' c) = events (connections w c)).
Proof.
  intros Hatt. cbv zeta. split; [lia|]. split.
  - intros Hok. destruct (writeInt32BE_ok _ Hok) as (h & Hh & Hlen).
    unfold exec. rewrite (sendFragment_attached w sid c fragment h Hatt Hh).
    world_simpl. eexists. split; [reflexivity|]. split; [|split].
    + rewrite length_app. lia.
    + now apply readInt32BE_writeInt32BE.
    + eapply drop_header. exact Hh.
  - intros Hno. unfold exec.
    now rewrite (sendFragment_overflow w sid c fragment Hatt Hno).
Qed.

(** The backend got four bytes and the attached frontend restarted at
    [pos=0]: a fragment to it acks 0, not 4. *)
Lemma sendFragment_acks_pos :
  let w := reconnected in
  let w' := exec (sendFragment "X" (list_byte_of_string "hi")) w in
  frontendCon (heap w "X") = Some 1%nat /\
  bytesWritten (backendSocket (heap w "X")) = 4 /\
  pos (connections w 1) = 0 /\
  exists sent,
    events (connections w' 1) = events (connections w 1) ++ [SendBytes sent] /\
    readInt32BE sent = Ret 0.
Proof.
  cbv zeta.
  assert (H1 : frontendCon (heap reconnected "X") = Some 1%nat) by reflexivity.
  destruct (sendFragment_ack_header reconnected "X" 1%nat
              (list_byte_of_string "hi") H1) as (_ & Hsend & _).
  destruct (Hsend eq_refl) as (sent & Hev & _ & Hack & _).
  split; [exact H1|]. split; [reflexivity|]. split; [reflexivity|].
  exists sent. split; [exact Hev | exact Hack].
Defined.

(** C9, amended.  A binary frame from the attached frontend whose ack
    passes the shrink rules, in any state of the relay.  With
    [bytesWritten - pos] computed as the listener does, on the counters as
    the frame leaves them: the listener sends an empty fragment (a frame
    that is the four header bytes and nothing else) exactly when that
    difference exceeds 1048576 and the ack of the fragment,
    [min bytesWritten pos], is a signed 32-bit integer.  When the
    difference exceeds 1048576 and the ack is no such integer,
    [writeInt32BE] throws and nothing is sent.  Nothing is sent when the
    difference is negative either: that is the case where [bslice] has
    thrown, and it does not arise for a connection that was not ahead of
    the backend before the frame. *)
Theorem friendly_release_iff
        (w : World) (sid : string) (c : nat) (d : Buffer) (a : Z) :
  frontendCon (heap w sid) = Some c ->
  readInt32BE d = Ret a ->
  bytesRead (backendSocket (heap w sid)) - blen (B2FUnacked (heap w sid)) <= a
    <= bytesRead (backendSocket (heap w sid)) ->
  let w' := exec (on_message sid c (Binary d)) w in
  let behind := bytesWritten (backendSocket (heap w' sid)) - pos (connections w' c) in
  let ack := Z.min (bytesWritten (backendSocket (heap w' sid)))
                   (pos (connections w' c)) in
  (behind > 1048576 -> int32_ok ack = true ->
   fst (on_message sid c (Binary d) w) = Ret tt /\
   exists header,
     events (connections w' c) = events (connections w c) ++ [SendBytes header] /\
     length header = 4%nat /\
     readInt32BE header = Ret ack) /\
  (behind > 1048576 -> int32_ok ack = false ->
   fst (on_message sid c (Binary d) w) = Exn RangeError /\
   events (connections w' c) = events (connections w c)) /\
  (0 <= behind <= 1048576 ->
   fst (on_message sid c (Binary d) w) = Ret tt /\
   events (connections w' c) = events (connections w c)) /\
  (behind < 0 ->
   (exists at_, fst (on_message sid c (Binary d) w) = Exn (SpliceError at_)) /\
   events (connections w' c) = events (connections w c)) /\
  (pos (connections w c) <= bytesWritten (backendSocket (heap w sid)) -> 0 <= behind).
Proof.
  intros Hatt Hack Hrange. cbv zeta.
  pose proof (readInt32BE_Ret_length d a Hack) as Hlen.
  pose proof (on_message_acked w sid c d a Hatt Hack Hrange) as H.
  cbv zeta in H. rewrite friendlyBufferRelease_1MiB in H.
  unfold exec. destruct H as [Hp H]. rewrite Hp.
  set (pos' := pos (connections w c) + (blen d - 4)) in *.
  set (bw := bytesWritten (backendSocket (heap w sid))) in *.
  set (index := Z.max (pos' - bw) 0) in *.
  destruct (index >? blen d) eqn:Hidx.
  - apply Z.gtb_gt in Hidx. destruct H as (-> & Hret & Hev).
    split; [intros; lia|]. split; [intros; lia|]. split; [intros; lia|].
    split; [|intros; lia].
    intros _. split; [eexists; exact Hret | exact Hev].
  - rewrite Z.gtb_ltb in Hidx. apply Z.ltb_ge in Hidx. destruct H as [-> H].
    destruct (_ >? 1048576) eqn:Hcmp.
    + apply Z.gtb_gt in Hcmp.
      split; [|split; [|split; [intros; lia | split; intros; lia]]].
      * intros _ Hok. destruct (writeInt32BE_ok _ Hok) as (h & Hh & Hl).
        rewrite Hh in H. destruct H as [Hret Hev]. split; [exact Hret|].
        exists h. split; [exact Hev|]. split; [exact Hl|].
        rewrite <- (app_nil_r h). now apply readInt32BE_writeInt32BE.
      * intros _ Hno. unfold writeInt32BE in H. rewrite Hno in H. exact H.
    + rewrite Z.gtb_ltb in Hcmp. apply Z.ltb_ge in Hcmp.
      split; [intros; lia|]. split; [intros; lia|]. split; [intros _; exact H|].
      split; intros; lia.
Qed.

(** With 2000000 bytes forwarded and the frontend back at offset 0, a
    two-byte frame leaves the relay 1999998 bytes ahead: one empty
    fragment goes out. *)
Lemma friendly_release_far_behind :
  let w := far_behind in
  let d := frame 0 "ab" in
  let w' := exec (on_message "X" 0 (Binary d)) w in
  frontendCon (heap w "X") = Some 0%nat /\
  pos (connections w 0) <= bytesWritten (backendSocket (heap w "X")) /\
  readInt32BE d = Ret 0 /\
  bytesRead (backendSocket (heap w "X")) - blen (B2FUnacked (heap w "X")) <= 0
    <= bytesRead (backendSocket (heap w "X")) /\
  bytesWritten (backendSocket (heap w' "X")) - pos (connections w' 0) = 1999998 /\
  exists header,
    events (connections w' 0) = events (connections w 0) ++ [SendBytes header] /\
    length header = 4%nat /\
    readInt32BE header = Ret 2.
Proof.
  cbv zeta.
  assert (H1 : frontendCon (heap far_behind "X") = Some 0%nat) by reflexivity.
  assert (H2 : pos (connections far_behind 0)
               <= bytesWritten (backendSocket (heap far_behind "X")))
    by (vm_compute; discriminate).
  assert (H3 : readInt32BE (frame 0 "ab") = Ret 0) by reflexivity.
  assert (H4 : bytesRead (backendSocket (heap far_behind "X"))
               - blen (B2FUnacked (heap far_behind "X")) <= 0
               <= bytesRead (backendSocket (heap far_behind "X")))
    by (vm_compute; split; discriminate).
  destruct (friendly_release_iff far_behind "X" 0%nat (frame 0 "ab") 0
              H1 H3 H4) as (Hsend & _).
  split; [exact H1|]. split; [exact H2|]. split; [exact H3|]. split; [exact H4|].
  split; [reflexivity|].
  apply Hsend; vm_compute; reflexivity.
Defined.

(** C9 as stated, without the bound on the ack: the session has forwarded
    2149580800 bytes and its frontend, resumed at [pos] 2147483647, sends
    a frame of six payload bytes.  The frame leaves [pos] at 2147483653,
    2097147 bytes behind [bytesWritten], which exceeds 1048576; but that
    [pos] does not fit the header, [writeInt32BE] throws, and no empty
    fragment is sent. *)
Lemma friendly_release_past_2GiB_sends_nothing :
  frontendCon (heap past_2GiB "X") = Some 0%nat /\
  pos (connections past_2GiB 0) <= bytesWritten (backendSocket (heap past_2GiB "X")) /\
  readInt32BE (frame 0 "abcdef") = Ret 0 /\
  (bytesRead (backendSocket (heap past_2GiB "X"))
   - blen (B2FUnacked (heap past_2GiB "X")) <= 0
   <= bytesRead (backendSocket (heap past_2GiB "X"))) /\
  bytesWritten
    (backendSocket
       (heap (exec (on_message "X" 0 (Binary (frame 0 "abcdef"))) past_2GiB) "X"))
  - pos (connections (exec (on_message "X" 0 (Binary (frame 0 "abcdef"))) past_2GiB) 0)
  = 2097147 /\
  2097147 > 1048576 /\
  fst (on_message "X" 0 (Binary (frame 0 "abcdef")) past_2GiB) = Exn RangeError /\
  events (connections (exec (on_message "X" 0 (Binary (frame 0 "abcdef"))) past_2GiB) 0)
  = events (connections past_2GiB 0) /\
  ~ (exists header,
       events (connections
                 (exec (on_message "X" 0 (Binary (frame 0 "abcdef"))) past_2GiB) 0)
       = events (connections past_2GiB 0) ++ [SendBytes header]).
Proof.
  split; [reflexivity|].
  split; [vm_compute; discriminate|].
  split; [reflexivity|].
  split; [vm_compute; split; discriminate|].
  split; [vm_compute; reflexivity|].
  split; [reflexivity|].
  split; [vm_compute; reflexivity|].
  split; [vm_compute; reflexivity|].
  intros [header H]. vm_compute in H. discriminate H.
Qed.

(** C10. While [cnew] is the attached frontend, a [close] event on
    another connection [cold] leaves [frontendCon] as it is; the [close]
    listener clears the reference only for the attached connection
    itself. *)
Theorem late_close_keeps_new_frontend
        (w : World) (sid : string) (cnew cold : nat) :
  frontendCon (heap w sid) = Some cnew ->
  frontendCon (heap (exec (on_close sid cold) w) sid)
    = (if decide (cold = cnew) then None else Some cnew) /\
  (cold <> cnew ->
   frontendCon (heap (exec (emit_close cold) w) sid) = Some cnew).
Proof.
  intros Hnew. split.
  - unfold exec, on_close. unfold_M. rewrite Hnew.
    destruct (decide (Some cnew = Some cold)) as [E|E];
      destruct (decide (cold = cnew)) as [E'|E']; try congruence;
      world_simpl; [reflexivity | exact Hnew].
  - intros Hne. unfold exec, emit_close, on_close. unfold_M.
    destruct (listeners (connections w cold)) as [sid'|]; [|exact Hnew].
    destruct (decide (frontendCon (heap w sid') = Some cold)) as [E|E];
      [|exact Hnew].
    destruct (decide (sid = sid')) as [->|Hs]; [congruence|].
    cbn [snd]. now rewrite heap_set_ses_ne.
Qed.

(** Connection 1 was adopted while connection 0 was attached; the [close]
    event of connection 0 arrives afterwards. *)
Lemma late_close_after_readoption :
  frontendCon (heap readopted "X") = Some 1%nat /\
  0%nat <> 1%nat /\
  listeners (connections readopted 0) = Some "X"%string /\
  frontendCon (heap (exec (emit_close 0) readopted) "X") = Some 1%nat.
Proof.
  assert (H1 : frontendCon (heap readopted "X") = Some 1%nat) by reflexivity.
  assert (H2 : 0%nat <> 1%nat) by discriminate.
  destruct (late_close_keeps_new_frontend readopted "X" 1%nat 0%nat H1)
    as (_ & Hkeep).
  split; [exact H1|]. split; [exact H2|]. split; [reflexivity|].
  exact (Hkeep H2).
Defined.

(** ** Where the program departs from the protocol *)

(** C4. A first [/connect] with [pos=100] while nothing has been written
    to the backend: [adopt] reaches the branch for a [pos] that is ahead,
    evaluates the undeclared [frontend] and throws.  The new connection
    has its listeners registered, but it was sent no frame and was not
    closed. *)
Theorem pos_ahead_throws_ReferenceError :
  let w := exec (proxy_success "X") world0 in
  let r := on_request (connect "X" 0 100) w in
  bytesWritten (backendSocket (heap w "X")) = 0 /\
  fst r = Exn ReferenceError /\
  listeners (connections (snd r) 0) = Some "X"%string /\
  events (connections (snd r) 0) = [] /\
  frontendCon (heap (snd r) "X") = None.
Proof. vm_compute. auto. Qed.

(** C5. The attached frontend sends a frame with ack 7 while the relay
    has read nothing from the backend.  The listener runs the [close]
    listeners of the connection, which clears [frontendCon]; the
    connection itself is sent nothing and is not closed. *)
Theorem rejected_ack_detaches_without_close :
  let r := on_message "X" 0 (Binary (frame 7 "ab")) attached in
  frontendCon (heap attached "X") = Some 0%nat /\
  bytesRead (backendSocket (heap attached "X")) = 0 /\
  fst r = Ret tt /\
  frontendCon (heap (snd r) "X") = None /\
  events (connections (snd r) 0) = events (connections attached 0) /\
  Close ∉ events (connections (snd r) 0).
Proof.
  vm_compute. repeat split; try reflexivity.
  intros H. apply list_elem_of_In in H. cbn in H.
  destruct H as [H|[]]. discriminate.
Qed.

(** C6. The backend socket of session [X] closes, then a [/connect] names
    [X].  The [close] listener stored [null] under the key, which is not
    [undefined]: the handler goes past its check for an unknown session
    and throws on [ses.adopt].  The new connection is sent no frame and is
    not closed. *)
Theorem connect_after_backend_close_throws_TypeError :
  let w := exec (run proxy_success "X"; backend_close "X") world0 in
  let r := on_request (connect "X" 0 0) w in
  sessions w !! "X"%string = Some RNull /\
  fst r = Exn TypeError /\
  events (connections (snd r) 0) = [].
Proof. vm_compute. auto. Qed.

(** C7. A WebSocket upgrade for the path [/other] that names the live
    session [X].  The handler protocol-closes the connection and, having
    no [return] there, goes on to call [adopt]: the closed connection gets
    the listeners, becomes the attached frontend and is sent the resume
    fragment. *)
Theorem wrong_path_is_closed_then_adopted :
  let w := exec (proxy_success "X") world0 in
  let r := on_request (mkRequest "/other" (Some "X"%string) 0 0) w in
  fst r = Ret tt /\
  listeners (connections (snd r) 0) = Some "X"%string /\
  frontendCon (heap (snd r) "X") = Some 0%nat /\
  events (connections (snd r) 0)
    = [SendBytes [xff; xff; xff; xff]; Close; SendBytes [x00; x00; x00; x00]].
Proof. vm_compute. auto. Qed.

(** ** More on buffers and the frame codec *)

Lemma byte_of_Z_of_byte (b : byte) : byte_of_Z (Z_of_byte b) = b.
Proof.
  unfold byte_of_Z, Z_of_byte.
  pose proof (Byte.to_N_bounded b) as Hb.
  change 255 with (Z.ones 8). rewrite Z.land_ones by lia.
  change (2 ^ 8) with 256.
  rewrite Z.mod_small by lia. rewrite N2Z.id, Byte.of_to_N. reflexivity.
Qed.

Lemma readInt32BE_int32 (d : Buffer) (a : Z) :
  readInt32BE d = Ret a -> int32_ok a = true.
Proof.
  destruct d as [|b0 [|b1 [|b2 [|b3 d']]]]; cbn [readInt32BE];
    intros H; try discriminate H.
  inversion H as [Ha]. clear H Ha. apply int32_ok_spec.
  pose proof (Z_of_byte_range b0). pose proof (Z_of_byte_range b1).
  pose proof (Z_of_byte_range b2). pose proof (Z_of_byte_range b3).
  rewrite !Z.shiftl_mul_pow2 by lia.
  destruct (_ >=? _) eqn:Hge; rewrite Z.geb_leb in Hge;
    [apply Z.leb_le in Hge | apply Z.leb_gt in Hge]; lia.
Qed.

(** X1. [bslice] returns a buffer exactly for an index from 0 up to the
    length of the buffer.  It then returns exactly [index] bytes, and they
    are the end of the buffer; for index 0 that is the empty buffer, where
    [slice(-0)] is the whole buffer.  For any other index it throws, with
    [length - index] in the message. *)
Theorem bslice_returns_tail (index : Z) (this : Buffer) :
  (0 <= index <= blen this ->
   exists tail,
     bslice index this = Ret tail /\
     blen tail = index /\
     this = take (length this - Z.to_nat index) this ++ tail /\
     (index = 0 -> tail = [] /\ slice (- index) this = this)) /\
  (~ 0 <= index <= blen this ->
   bslice index this = Exn (SpliceError (blen this - index))).
Proof.
  split.
  - intros H. exists (lastn (Z.to_nat index) this).
    split; [now apply bslice_lastn|]. split; [|split].
    + unfold blen in *. rewrite lastn_length by lia. lia.
    + unfold lastn. now rewrite take_drop.
    + intros ->. split; [apply lastn_0 | apply slice_minus_0].
  - intros H. unfold bslice.
    destruct (index >? blen this) eqn:E1; [reflexivity|].
    destruct (index <? 0) eqn:E2; [reflexivity|].
    rewrite Z.gtb_ltb in E1. apply Z.ltb_ge in E1. apply Z.ltb_ge in E2. lia.
Qed.

Lemma bslice_returns_tail_XY :
  0 <= 2 <= blen (list_byte_of_string "abcdXY") /\
  bslice 2 (list_byte_of_string "abcdXY") = Ret (list_byte_of_string "XY") /\
  ~ 0 <= 7 <= blen (list_byte_of_string "abc") /\
  bslice 7 (list_byte_of_string "abc") = Exn (SpliceError (-4)).
Proof.
  assert (H : 0 <= 2 <= blen (list_byte_of_string "abcdXY"))
    by (vm_compute; split; discriminate).
  assert (H' : ~ 0 <= 7 <= blen (list_byte_of_string "abc"))
    by (vm_compute; intros [_ Hc]; now apply Hc).
  destruct (bslice_returns_tail 2 (list_byte_of_string "abcdXY")) as [Hin _].
  destruct (bslice_returns_tail 7 (list_byte_of_string "abc")) as [_ Hout].
  destruct (Hin H) as (tail & Hb & _ & Hcat & _).
  split; [exact H|]. split; [|split; [exact H' | exact (Hout H')]].
  rewrite Hb. f_equal.
  vm_compute in Hcat. injection Hcat as <-. reflexivity.
Defined.

(** X2. The tail of a tail: taking [j] bytes from the end and then [i]
    of those, [i <= j], is taking [i] bytes from the end at once. *)
Theorem bslice_of_bslice (i j : Z) (this tail : Buffer) :
  0 <= i <= j ->
  j <= blen this ->
  bslice j this = Ret tail ->
  bslice i tail = bslice i this.
Proof.
  intros Hi Hj Ht.
  rewrite bslice_lastn in Ht by lia. inversion Ht as [Htail]. clear Ht.
  assert (Hlen : length (lastn (Z.to_nat j) this) = Z.to_nat j)
    by (apply lastn_length; unfold blen in Hj; lia).
  rewrite !bslice_lastn by (unfold blen in *; rewrite ?Hlen; lia).
  f_equal. unfold lastn at 1. rewrite Hlen. unfold lastn.
  rewrite drop_drop. f_equal. unfold blen in Hj. lia.
Qed.

Lemma bslice_of_bslice_abcdef :
  bslice 4 (list_byte_of_string "abcdef") = Ret (list_byte_of_string "cdef") /\
  bslice 2 (list_byte_of_string "cdef") = Ret (list_byte_of_string "ef") /\
  bslice 2 (list_byte_of_string "abcdef") = Ret (list_byte_of_string "ef").
Proof.
  assert (H : bslice 4 (list_byte_of_string "abcdef")
              = Ret (list_byte_of_string "cdef")) by reflexivity.
  split; [exact H|].
  assert (H4 : 4 <= blen (list_byte_of_string "abcdef"))
    by (vm_compute; discriminate).
  rewrite (bslice_of_bslice 2 4 (list_byte_of_string "abcdef")
             (list_byte_of_string "cdef") ltac:(lia) H4 H).
  split; reflexivity.
Defined.

(** X3. The ack header round trip: [writeInt32BE] returns exactly for a
    signed 32-bit value, the header it writes has four bytes, and reading
    a frame made of that header and any payload gives the value back and
    leaves the payload after byte 4. *)
Theorem ack_header_round_trip (v : Z) (payload : Buffer) :
  (int32_ok v = false -> writeInt32BE v = Exn RangeError) /\
  (int32_ok v = true ->
   exists header,
     writeInt32BE v = Ret header /\
     length header = 4%nat /\
     readInt32BE (header ++ payload) = Ret v /\
     drop 4 (header ++ payload) = payload).
Proof.
  split.
  - intros H. unfold writeInt32BE. now rewrite H.
  - intros H. destruct (writeInt32BE_ok v H) as (h & Hh & Hlen).
    exists h. split; [exact Hh|]. split; [exact Hlen|]. split.
    + now apply readInt32BE_writeInt32BE.
    + now apply (drop_header v).
Qed.

Lemma ack_header_round_trip_minus_one :
  int32_ok (-1) = true /\
  readInt32BE ([xff; xff; xff; xff] ++ list_byte_of_string "x") = Ret (-1) /\
  int32_ok (2 ^ 31) = false /\
  writeInt32BE (2 ^ 31) = Exn RangeError.
Proof.
  destruct (ack_header_round_trip (-1) (list_byte_of_string "x")) as [_ Hin].
  destruct (Hin eq_refl) as (h & Hh & _ & Hread & _).
  destruct (ack_header_round_trip (2 ^ 31) []) as [Hout _].
  split; [reflexivity|]. split.
  - vm_compute in Hh. injection Hh as <-. exact Hread.
  - split; [reflexivity | exact (Hout eq_refl)].
Defined.

(** X4. The other direction: [readInt32BE] returns exactly for a buffer
    of at least four bytes, what it returns is a signed 32-bit value, and
    writing that value gives the first four bytes back. *)
Theorem frame_ack_round_trip (d : Buffer) :
  ((exists a, readInt32BE d = Ret a) <-> 4 <= blen d) /\
  (blen d < 4 -> readInt32BE d = Exn RangeError) /\
  (forall a, readInt32BE d = Ret a ->
             int32_ok a = true /\ writeInt32BE a = Ret (take 4 d)).
Proof.
  split; [|split].
  - split.
    + intros [a Ha]. now apply (readInt32BE_Ret_length d a).
    + apply readInt32BE_total.
  - unfold blen.
    destruct d as [|b0 [|b1 [|b2 [|b3 d']]]]; cbn [length readInt32BE];
      intros H; try reflexivity. lia.
  - intros a Ha. pose proof (readInt32BE_int32 d a Ha) as Hok.
    split; [exact Hok|].
    destruct d as [|b0 [|b1 [|b2 [|b3 d']]]]; cbn [readInt32BE] in Ha;
      try discriminate Ha.
    injection Ha as Hval.
    unfold writeInt32BE. rewrite Hok. cbn [take]. clear Hok.
    assert (Hb : forall x (b : byte), x mod 256 = Z_of_byte b -> byte_of_Z x = b).
    { intros x b Hx. rewrite <- (byte_of_Z_of_byte b). unfold byte_of_Z.
      change 255 with (Z.ones 8). rewrite !Z.land_ones by lia.
      change (2 ^ 8) with 256. rewrite Hx.
      pose proof (Z_of_byte_range b). now rewrite Z.mod_small by lia. }
    pose proof (Z_of_byte_range b0). pose proof (Z_of_byte_range b1).
    pose proof (Z_of_byte_range b2). pose proof (Z_of_byte_range b3).
    rewrite !Z.shiftl_mul_pow2 in Hval by lia.
    rewrite !Z.shiftr_div_pow2 by lia.
    destruct (_ >=? _) eqn:Hge; rewrite Z.geb_leb in Hge;
      [apply Z.leb_le in Hge | apply Z.leb_gt in Hge];
      (do 2 f_equal; [|f_equal; [|f_equal; [|f_equal]]]);
      apply Hb; Z.div_mod_to_equations; lia.
Qed.

Lemma frame_ack_round_trip_S1 :
  readInt32BE (frame 5 "ls") = Ret 5 /\
  writeInt32BE 5 = Ret (take 4 (frame 5 "ls")) /\
  readInt32BE (list_byte_of_string "abc") = Exn RangeError.
Proof.
  destruct (frame_ack_round_trip (frame 5 "ls")) as (_ & _ & Hback).
  destruct (frame_ack_round_trip (list_byte_of_string "abc")) as (_ & Hshort & _).
  assert (H : readInt32BE (frame 5 "ls") = Ret 5) by reflexivity.
  split; [exact H|]. split.
  - apply (Hback 5 H).
  - apply Hshort. vm_compute. reflexivity.
Defined.

(** ** More on acks *)

Lemma shrinkBuffer_true_range (w : World) (sid : string) (a : Z) :
  fst (shrinkBuffer sid a w) = Ret true ->
  bytesRead (backendSocket (heap w sid)) - blen (B2FUnacked (heap w sid)) <= a
    <= bytesRead (backendSocket (heap w sid)).
Proof.
  intros H.
  destruct (Z_gt_dec a (bytesRead (backendSocket (heap w sid)))) as [H1|H1].
  { rewrite shrinkBuffer_ahead in H by exact H1. discriminate H. }
  destruct (Z_lt_dec a (bytesRead (backendSocket (heap w sid))
                        - blen (B2FUnacked (heap w sid)))) as [H2|H2].
  { rewrite shrinkBuffer_behind in H by exact H2. discriminate H. }
  lia.
Qed.

(** X5. [shrinkBuffer] never throws: its two checks keep the index it
    gives to [bslice] within the buffer.  It sends nothing, and the only
    thing it may change is [B2FUnacked] of its own session. *)
Theorem shrinkBuffer_only_shrinks (w : World) (sid : string) (a : Z) :
  let w' := exec (shrinkBuffer sid a) w in
  (exists ok, fst (shrinkBuffer sid a w) = Ret ok) /\
  connections w' = connections w /\
  sessions w' = sessions w /\
  nextCon w' = nextCon w /\
  (forall s, backendSocket (heap w' s) = backendSocket (heap w s) /\
             frontendCon (heap w' s) = frontendCon (heap w s) /\
             B2FUnacked (heap w' s) `suffix_of` B2FUnacked (heap w s)) /\
  (forall s, s <> sid -> heap w' s = heap w s).
Proof.
  cbv zeta. unfold exec.
  destruct (shrinkBuffer_cases w sid a) as [-> | [b Hb]].
  - cbn [fst snd]. split; [now exists false|]. repeat split; reflexivity.
  - pose proof (shrinkBuffer_shrinks sid a w) as Hs. unfold exec in Hs.
    rewrite Hb in *. cbn [fst snd] in *. split; [now exists true|].
    split; [reflexivity|]. split; [reflexivity|]. split; [reflexivity|]. split.
    + intros s. destruct (Hs s) as (_ & _ & Hsuf).
      destruct (decide (s = sid)) as [->|Hne].
      * rewrite heap_set_ses_eq in *. auto.
      * rewrite heap_set_ses_ne in * by exact Hne. auto.
    + intros s Hne. now rewrite heap_set_ses_ne.
Qed.

(** X6. After an accepted ack [a] the buffer holds [bytesRead - a] bytes,
    and from then on an ack is accepted exactly when it lies between [a]
    and [bytesRead]: acks cannot go back. *)
Theorem accepted_ack_is_a_floor (w : World) (sid : string) (a : Z) :
  fst (shrinkBuffer sid a w) = Ret true ->
  let w' := exec (shrinkBuffer sid a) w in
  let read := bytesRead (backendSocket (heap w' sid)) in
  blen (B2FUnacked (heap w' sid)) = read - a /\
  forall a', fst (shrinkBuffer sid a' w') = Ret true <-> a <= a' <= read.
Proof.
  intros Hok. pose proof (shrinkBuffer_true_range w sid a Hok) as Hr.
  cbv zeta. unfold exec. rewrite (shrinkBuffer_ok w sid a Hr). cbn [snd].
  rewrite heap_set_ses_eq. cbn [backendSocket B2FUnacked with_B2FUnacked].
  pose proof (blen_nonneg (B2FUnacked (heap w sid))) as Hn.
  assert (Hlen : blen (lastn (Z.to_nat (bytesRead (backendSocket (heap w sid)) - a))
                             (B2FUnacked (heap w sid)))
                 = bytesRead (backendSocket (heap w sid)) - a).
  { unfold blen in *. rewrite lastn_length by lia. lia. }
  split; [exact Hlen|].
  intros a'. split.
  - intros H. apply shrinkBuffer_true_range in H.
    rewrite heap_set_ses_eq in H.
    cbn [backendSocket B2FUnacked with_B2FUnacked] in H. lia.
  - intros H. rewrite shrinkBuffer_ok; [reflexivity|].
    rewrite heap_set_ses_eq. cbn [backendSocket B2FUnacked with_B2FUnacked]. lia.
Qed.

(** Six bytes read, [ef] unacked: after ack 5 is accepted, ack 4 is
    refused and ack 6 is accepted. *)
Lemma accepted_ack_is_a_floor_ef :
  let w' := exec (shrinkBuffer "X" 5) dropped_after_ack in
  fst (shrinkBuffer "X" 5 dropped_after_ack) = Ret true /\
  blen (B2FUnacked (heap w' "X")) = 1 /\
  fst (shrinkBuffer "X" 4 w') = Ret false /\
  fst (shrinkBuffer "X" 6 w') = Ret true.
Proof.
  cbv zeta.
  assert (H : fst (shrinkBuffer "X" 5 dropped_after_ack) = Ret true) by reflexivity.
  destruct (accepted_ack_is_a_floor dropped_after_ack "X" 5 H) as [Hlen Hiff].
  split; [exact H|]. split; [exact Hlen|]. split.
  - reflexivity.
  - apply Hiff. vm_compute. split; discriminate.
Defined.

(** X7. Cumulative acks compose: accepting [a] and then [a'], [a <= a'],
    leaves the buffer that accepting [a'] at once leaves. *)
Theorem acks_compose (w : World) (sid : string) (a a' : Z) :
  bytesRead (backendSocket (heap w sid)) - blen (B2FUnacked (heap w sid)) <= a ->
  a <= a' ->
  a' <= bytesRead (backendSocket (heap w sid)) ->
  fst ((run shrinkBuffer sid a; shrinkBuffer sid a') w) = Ret true /\
  fst (shrinkBuffer sid a' w) = Ret true /\
  heap (exec (run shrinkBuffer sid a; shrinkBuffer sid a') w) sid
    = heap (exec (shrinkBuffer sid a') w) sid.
Proof.
  intros H1 H2 H3. unfold exec, bind.
  rewrite (shrinkBuffer_ok w sid a) by lia.
  rewrite (shrinkBuffer_ok w sid a') by lia.
  pose proof (blen_nonneg (B2FUnacked (heap w sid))) as Hn.
  set (read := bytesRead (backendSocket (heap w sid))) in *.
  set (buf := B2FUnacked (heap w sid)) in *.
  assert (Hlen : length (lastn (Z.to_nat (read - a)) buf) = Z.to_nat (read - a))
    by (apply lastn_length; unfold blen in *; lia).
  rewrite shrinkBuffer_ok; rewrite heap_set_ses_eq;
    cbn [backendSocket B2FUnacked with_B2FUnacked]; fold read;
    [|unfold blen; rewrite Hlen; lia].
  cbn [fst snd]. rewrite !heap_set_ses_eq.
  split; [reflexivity|]. split; [reflexivity|].
  unfold with_B2FUnacked. cbn [backendSocket frontendCon]. f_equal.
  unfold lastn at 1. rewrite Hlen. unfold lastn. rewrite drop_drop.
  f_equal. unfold blen in *. lia.
Qed.

Lemma acks_compose_abcdef :
  let w := exec (backend_data "X" (list_byte_of_string "abcdef")) attached in
  B2FUnacked (heap (exec (run shrinkBuffer "X" 2; shrinkBuffer "X" 5) w) "X")
    = list_byte_of_string "f" /\
  B2FUnacked (heap (exec (shrinkBuffer "X" 5) w) "X") = list_byte_of_string "f".
Proof.
  cbv zeta.
  destruct (acks_compose
              (exec (backend_data "X" (list_byte_of_string "abcdef")) attached)
              "X" 2 5) as (_ & _ & Heq);
    [vm_compute; discriminate | lia | vm_compute; discriminate |].
  rewrite Heq. split; reflexivity.
Defined.

(** X8. A frame's ack is a signed 32-bit number, so once more than
    [2^31 - 1] bytes of the backend stream have been acknowledged, no
    frame's ack passes [shrinkBuffer] any more. *)
Theorem ack_field_ends_at_2GiB (w : World) (sid : string) (d : Buffer) (a : Z) :
  readInt32BE d = Ret a ->
  bytesRead (backendSocket (heap w sid)) - blen (B2FUnacked (heap w sid))
    > int32_max ->
  shrinkBuffer sid a w = (Ret false, w).
Proof.
  intros Ha Hbig. apply readInt32BE_int32, int32_ok_spec in Ha.
  apply shrinkBuffer_behind. unfold int32_max in Hbig. lia.
Qed.

Lemma ack_field_ends_at_2GiB_example :
  let w := mkWorld ∅ (fun _ => mkSession (mkSocket 0 3000000000 [] []) [] None)
                   (fun _ => new_Con) 0 in
  let d := [x7f; xff; xff; xff] in
  readInt32BE d = Ret int32_max /\
  bytesRead (backendSocket (heap w "X")) - blen (B2FUnacked (heap w "X")) > int32_max /\
  shrinkBuffer "X" int32_max w = (Ret false, w).
Proof.
  cbv zeta.
  assert (H1 : readInt32BE [x7f; xff; xff; xff] = Ret int32_max) by reflexivity.
  split; [exact H1|]. split; [reflexivity|].
  apply (ack_field_ends_at_2GiB _ "X" _ _ H1). reflexivity.
Defined.

(** ** More on the data pump *)

(** X9. Data from the backend while no frontend is attached: nothing is
    sent to any connection, the listener returns, and the chunk is
    appended to [B2FUnacked] and counted in [bytesRead]. *)
Theorem backend_data_detached_is_buffered (w : World) (sid : string) (buf : Buffer) :
  frontendCon (heap w sid) = None ->
  let w' := exec (backend_data sid buf) w in
  fst (backend_data sid buf w) = Ret tt /\
  connections w' = connections w /\
  B2FUnacked (heap w' sid) = B2FUnacked (heap w sid) ++ buf /\
  bytesRead (backendSocket (heap w' sid))
    = bytesRead (backendSocket (heap w sid)) + blen buf /\
  received (backendSocket (heap w' sid))
    = received (backendSocket (heap w sid)) ++ buf /\
  frontendCon (heap w' sid) = None.
Proof.
  intros Hdet. cbv zeta. unfold exec, backend_data. unfold_M. cbn [fst snd].
  rewrite sendFragment_detached by (now rewrite heap_set_ses_eq).
  cbn [fst snd]. rewrite !heap_set_ses_eq. cbn. rewrite Hdet.
  repeat (split; [reflexivity|]). reflexivity.
Qed.

Lemma backend_data_detached_hello :
  let w := exec (proxy_success "X") world0 in
  let w' := exec (backend_data "X" (list_byte_of_string "hello")) w in
  frontendCon (heap w "X") = None /\
  B2FUnacked (heap w' "X") = list_byte_of_string "hello" /\
  bytesRead (backendSocket (heap w' "X")) = 5.
Proof.
  cbv zeta.
  assert (H : frontendCon (heap (exec (proxy_success "X") world0) "X") = None)
    by reflexivity.
  destruct (backend_data_detached_is_buffered _ "X" (list_byte_of_string "hello") H)
    as (_ & _ & Hbuf & Hread & _).
  split; [exact H|]. rewrite Hbuf, Hread. split; reflexivity.
Defined.

(** X10. Data from the backend while [c] is attached and the ack fits the
    header: [c] is sent one fragment, the ack [min bytesWritten pos]
    followed by the chunk, no other connection is touched, and the chunk
    is appended to [B2FUnacked] as well. *)
Theorem backend_data_attached_is_sent
        (w : World) (sid : string) (c : nat) (buf : Buffer) :
  frontendCon (heap w sid) = Some c ->
  int32_ok (Z.min (bytesWritten (backendSocket (heap w sid)))
                  (pos (connections w c))) = true ->
  let w' := exec (backend_data sid buf) w in
  fst (backend_data sid buf w) = Ret tt /\
  (exists fragment,
     events (connections w' c) = events (connections w c) ++ [SendBytes fragment] /\
     readInt32BE fragment
       = Ret (Z.min (bytesWritten (backendSocket (heap w sid))) (pos (connections w c))) /\
     drop 4 fragment = buf) /\
  (forall c', c' <> c -> connections w' c' = connections w c') /\
  B2FUnacked (heap w' sid) = B2FUnacked (heap w sid) ++ buf /\
  bytesRead (backendSocket (heap w' sid))
    = bytesRead (backendSocket (heap w sid)) + blen buf.
Proof.
  intros Hatt Hok. destruct (writeInt32BE_ok _ Hok) as (h & Hh & _).
  cbv zeta. unfold exec, backend_data. unfold_M. cbn [fst snd].
  rewrite (sendFragment_attached _ sid c buf h)
    by (rewrite ?heap_set_ses_eq; cbn; assumption).
  cbn [fst snd]. world_simpl.
  split; [reflexivity|]. split; [|split; [|split]].
  - eexists. split; [reflexivity|]. split.
    + now apply readInt32BE_writeInt32BE.
    + now apply (drop_header _ _ _ Hh).
  - intros c' Hne. now rewrite connections_set_con_ne, connections_set_ses.
  - reflexivity.
  - reflexivity.
Qed.

(** Scenario S1: the backend says [hello] to the attached frontend. *)
Lemma S1_hello_is_sent :
  let w' := exec (backend_data "X" (list_byte_of_string "hello")) attached in
  frontendCon (heap attached "X") = Some 0%nat /\
  exists fragment,
    events (connections w' 0) = events (connections attached 0) ++ [SendBytes fragment] /\
    readInt32BE fragment = Ret 0 /\
    drop 4 fragment = list_byte_of_string "hello".
Proof.
  cbv zeta.
  assert (H : frontendCon (heap attached "X") = Some 0%nat) by reflexivity.
  destruct (backend_data_attached_is_sent attached "X" 0%nat
              (list_byte_of_string "hello") H eq_refl) as (_ & Hsent & _).
  split; [exact H | exact Hsent].
Defined.

(** X11. What arrives while no frontend is attached is not lost.  Let
    the next [adopt] come with the ack [bytesRead] as it was before the
    chunk, and with a [pos] that is not ahead of [bytesWritten] and is a
    signed 32-bit integer: it sends the new connection exactly the
    chunk, after the header [pos]. *)
Theorem buffered_data_is_resumed
        (w : World) (sid : string) (c : nat) (buf : Buffer) (pos_ : Z) :
  wf_session (heap w sid) ->
  frontendCon (heap w sid) = None ->
  pos_ <= bytesWritten (backendSocket (heap w sid)) ->
  int32_ok pos_ = true ->
  let ack := bytesRead (backendSocket (heap w sid)) in
  let w1 := exec (backend_data sid buf) w in
  let w2 := exec (adopt sid c ack pos_) w1 in
  fst (adopt sid c ack pos_ w1) = Ret tt /\
  frontendCon (heap w2 sid) = Some c /\
  exists fragment,
    events (connections w2 c) = events (connections w c) ++ [SendBytes fragment] /\
    readInt32BE fragment = Ret pos_ /\
    drop 4 fragment = buf.
Proof.
  intros Hwf Hdet Hpos Hok. cbv zeta.
  destruct (backend_data_detached_is_buffered w sid buf Hdet)
    as (_ & Hcon & Hbuf & Hread & Hrec & Hdet1).
  cbv zeta in *.
  set (w1 := exec (backend_data sid buf) w) in *.
  assert (Hbw : bytesWritten (backendSocket (heap w1 sid))
                = bytesWritten (backendSocket (heap w sid))).
  { subst w1. unfold exec, backend_data. unfold_M. cbn [fst snd].
    rewrite sendFragment_detached by (now rewrite heap_set_ses_eq).
    cbn [fst snd]. now rewrite !heap_set_ses_eq. }
  destruct Hwf as [Hr [acked Hsuf]].
  pose proof (blen_nonneg buf). pose proof (blen_nonneg (B2FUnacked (heap w sid))).
  assert (Hwf1 : wf_session (heap w1 sid)).
  { split.
    - rewrite Hread, Hrec, blen_app. lia.
    - exists acked. rewrite Hrec, Hbuf, Hsuf. now rewrite app_assoc. }
  destruct (adopt_resume w1 sid c (bytesRead (backendSocket (heap w sid))) pos_)
    as (Hret & Hatt & _ & h & Hh & Hev); try assumption.
  - rewrite Hdet1. discriminate.
  - lia.
  - rewrite Hread, Hbuf, blen_app. lia.
  - split; [exact Hret|]. split; [exact Hatt|].
    eexists. split; [rewrite Hev, Hcon; reflexivity|]. split.
    + now apply readInt32BE_writeInt32BE.
    + rewrite (drop_header _ _ _ Hh), Hrec, Hr. unfold blen.
      rewrite Nat2Z.id. apply drop_app_length.
Qed.

Lemma buffered_data_is_resumed_hello :
  let w := exec (proxy_success "X") world0 in
  let w2 := exec (run backend_data "X" (list_byte_of_string "hello");
                  adopt "X" 0 0 0) w in
  wf_session (heap w "X") /\
  frontendCon (heap w "X") = None /\
  exists fragment,
    events (connections w2 0) = [SendBytes fragment] /\
    drop 4 fragment = list_byte_of_string "hello".
Proof.
  cbv zeta.
  assert (H1 : wf_session (heap (exec (proxy_success "X") world0) "X"))
    by (split; [reflexivity | now exists []]).
  assert (H2 : frontendCon (heap (exec (proxy_success "X") world0) "X") = None)
    by reflexivity.
  destruct (buffered_data_is_resumed (exec (proxy_success "X") world0) "X" 0%nat
              (list_byte_of_string "hello") 0 H1 H2 ltac:(vm_compute; discriminate)
              eq_refl) as (_ & _ & fragment & Hev & _ & Hpay).
  split; [exact H1|]. split; [exact H2|].
  exists fragment. split; [exact Hev | exact Hpay].
Defined.

(** ** More on frames from the frontend *)

(** X12. A frame never lets [pos] get ahead: if [pos] was not ahead of
    [bytesWritten] before a frame of at least four bytes, then afterwards
    [bytesWritten] is the larger of its old value and the new [pos], and
    what was written to the backend before is a prefix of what is written
    now. *)
Theorem message_keeps_pos_behind (w : World) (sid : string) (c : nat) (d : Buffer) :
  4 <= blen d ->
  pos (connections w c) <= bytesWritten (backendSocket (heap w sid)) ->
  let w' := exec (on_message sid c (Binary d)) w in
  bytesWritten (backendSocket (heap w' sid))
    = Z.max (bytesWritten (backendSocket (heap w sid))) (pos (connections w' c)) /\
  pos (connections w' c) <= bytesWritten (backendSocket (heap w' sid)) /\
  written (backendSocket (heap w sid)) `prefix_of` written (backendSocket (heap w' sid)).
Proof.
  intros Hlen Hpos. cbv zeta.
  destruct (on_message_forwards w sid c d Hlen Hpos) as [Hp Hs].
  rewrite Hp, Hs. cbn [socket_write bytesWritten written].
  rewrite unseen_length by lia.
  split; [lia|]. split; [lia|]. now apply prefix_app_r.
Qed.

Lemma message_keeps_pos_behind_S4 :
  let d := frame 0 "abcdXY" in
  let w' := exec (on_message "X" 1 (Binary d)) reconnected in
  4 <= blen d /\
  pos (connections reconnected 1)
    <= bytesWritten (backendSocket (heap reconnected "X")) /\
  pos (connections w' 1) <= bytesWritten (backendSocket (heap w' "X")).
Proof.
  cbv zeta.
  assert (H1 : 4 <= blen (frame 0 "abcdXY")) by (vm_compute; discriminate).
  assert (H2 : pos (connections reconnected 1)
               <= bytesWritten (backendSocket (heap reconnected "X")))
    by (vm_compute; discriminate).
  destruct (message_keeps_pos_behind reconnected "X" 1%nat _ H1 H2) as (_ & H & _).
  split; [exact H1|]. split; [exact H2 | exact H].
Defined.

(** X13. The two ends of the overlap rule.  A frame that starts where the
    backend stream ends ([pos = bytesWritten]) is forwarded whole; a frame
    that ends no later than it ([pos] plus the payload length at most
    [bytesWritten]) is forwarded not at all, and [bytesWritten] stays. *)
Theorem in_sync_whole_duplicate_nothing
        (w : World) (sid : string) (c : nat) (d : Buffer) :
  4 <= blen d ->
  pos (connections w c) <= bytesWritten (backendSocket (heap w sid)) ->
  let w' := exec (on_message sid c (Binary d)) w in
  (pos (connections w c) = bytesWritten (backendSocket (heap w sid)) ->
   written (backendSocket (heap w' sid))
     = written (backendSocket (heap w sid)) ++ drop 4 d /\
   bytesWritten (backendSocket (heap w' sid)) = pos (connections w' c)) /\
  (pos (connections w c) + blen (drop 4 d)
     <= bytesWritten (backendSocket (heap w sid)) ->
   written (backendSocket (heap w' sid)) = written (backendSocket (heap w sid)) /\
   bytesWritten (backendSocket (heap w' sid))
     = bytesWritten (backendSocket (heap w sid))).
Proof.
  intros Hlen Hpos. cbv zeta.
  destruct (on_message_forwards w sid c d Hlen Hpos) as [Hp Hs].
  rewrite Hp, Hs, drop4_blen by exact Hlen.
  cbn [socket_write bytesWritten written].
  rewrite unseen_length by lia.
  pose proof (drop4_blen d Hlen) as Hpl.
  split.
  - intros Heq. split; [|lia]. f_equal. unfold lastn.
    replace (length (drop 4 d) - _)%nat with 0%nat; [reflexivity|].
    unfold blen in *. lia.
  - intros Hdup. split; [|lia].
    replace (Z.to_nat _) with 0%nat by (unfold blen in *; lia).
    rewrite lastn_0. apply app_nil_r.
Qed.

Lemma in_sync_whole_duplicate_nothing_abcd :
  let w1 := exec (on_message "X" 0 (Binary (frame 0 "abcd"))) attached in
  let w2 := exec (on_message "X" 1 (Binary (frame 0 "abcd"))) reconnected in
  written (backendSocket (heap w1 "X")) = list_byte_of_string "abcd" /\
  written (backendSocket (heap w2 "X")) = list_byte_of_string "abcd" /\
  bytesWritten (backendSocket (heap w2 "X")) = 4.
Proof.
  cbv zeta.
  destruct (in_sync_whole_duplicate_nothing attached "X" 0%nat (frame 0 "abcd"))
    as [Hsync _]; [vm_compute; discriminate | vm_compute; discriminate |].
  destruct (in_sync_whole_duplicate_nothing reconnected "X" 1%nat (frame 0 "abcd"))
    as [_ Hdup]; [vm_compute; discriminate | vm_compute; discriminate |].
  destruct (Hsync eq_refl) as [Hw1 _].
  destruct Hdup as [Hw2 Hb2]; [vm_compute; discriminate|].
  rewrite Hw1, Hw2, Hb2. repeat split.
Defined.

(** X14. No byte twice, none skipped.  Let the frontend's outbound stream
    be [stream], let the backend so far have been given its first
    [bytesWritten] bytes, and let a frame carry the bytes of [stream] from
    the connection's [pos] on.  Then after the frame the backend has been
    given the first [bytesWritten] bytes of [stream] again, for the new
    [bytesWritten]. *)
Theorem backend_gets_a_prefix_of_the_stream
        (w : World) (sid : string) (c : nat) (d stream : Buffer) :
  4 <= blen d ->
  0 <= pos (connections w c) <= bytesWritten (backendSocket (heap w sid)) ->
  bytesWritten (backendSocket (heap w sid)) = blen (written (backendSocket (heap w sid))) ->
  written (backendSocket (heap w sid))
    = take (Z.to_nat (bytesWritten (backendSocket (heap w sid)))) stream ->
  drop 4 d = take (length (drop 4 d)) (drop (Z.to_nat (pos (connections w c))) stream) ->
  let w' := exec (on_message sid c (Binary d)) w in
  written (backendSocket (heap w' sid))
    = take (Z.to_nat (bytesWritten (backendSocket (heap w' sid)))) stream /\
  bytesWritten (backendSocket (heap w' sid))
    = blen (written (backendSocket (heap w' sid))) /\
  bytesWritten (backendSocket (heap w' sid))
    = Z.max (bytesWritten (backendSocket (heap w sid)))
            (pos (connections w c) + blen (drop 4 d)).
Proof.
  intros Hlen [Hpos0 Hpos] Hcount Hpre Hpay. cbv zeta.
  destruct (on_message_forwards w sid c d Hlen Hpos) as [_ Hs].
  rewrite Hs. cbn [socket_write bytesWritten written].
  pose proof (drop4_blen d Hlen) as Hpl.
  rewrite unseen_length by lia. rewrite blen_app, unseen_length by lia.
  rewrite <- Hcount.
  set (bw := bytesWritten (backendSocket (heap w sid))) in *.
  set (p := pos (connections w c)) in *.
  split; [|split; [reflexivity | lia]].
  assert (Hn : (length (drop 4 d) <= length stream - Z.to_nat p)%nat).
  { rewrite Hpay at 1. rewrite length_take, (length_drop stream). lia. }
  assert (Hb : (Z.to_nat bw <= length stream)%nat).
  { unfold blen in Hcount. rewrite Hpre, length_take in Hcount. lia. }
  rewrite Hpre at 1. unfold lastn. rewrite Hpay at 2.
  rewrite skipn_firstn_comm, drop_drop.
  unfold blen in *.
  destruct (Z_le_gt_dec (p + (Z.of_nat (length d) - 4)) bw) as [Hle|Hgt].
  - replace (Z.to_nat (Z.max _ 0)) with 0%nat by lia.
    rewrite Nat.sub_0_r, Nat.sub_diag. cbn [take]. rewrite app_nil_r.
    f_equal. lia.
  - replace (Z.to_nat p + (length (drop 4 d) - _))%nat with (Z.to_nat bw) by lia.
    rewrite take_take_drop. f_equal. lia.
Qed.

(** Scenario S4 again, against the stream [abcdXY] of the frontend. *)
Lemma backend_gets_a_prefix_of_abcdXY :
  let stream := list_byte_of_string "abcdXY" in
  let d := frame 0 "abcdXY" in
  let w' := exec (on_message "X" 1 (Binary d)) reconnected in
  written (backendSocket (heap reconnected "X")) = take 4 stream /\
  drop 4 d = take (length (drop 4 d)) (drop 0 stream) /\
  written (backendSocket (heap w' "X")) = stream.
Proof.
  cbv zeta.
  assert (H1 : written (backendSocket (heap reconnected "X"))
               = take (Z.to_nat (bytesWritten (backendSocket (heap reconnected "X"))))
                      (list_byte_of_string "abcdXY")) by reflexivity.
  assert (H2 : drop 4 (frame 0 "abcdXY")
               = take (length (drop 4 (frame 0 "abcdXY")))
                      (drop (Z.to_nat (pos (connections reconnected 1)))
                            (list_byte_of_string "abcdXY"))) by reflexivity.
  destruct (backend_gets_a_prefix_of_the_stream reconnected "X" 1%nat
              (frame 0 "abcdXY") (list_byte_of_string "abcdXY"))
    as (Hw & _ & Hb);
    [vm_compute; discriminate | vm_compute; split; discriminate
    | reflexivity | exact H1 | exact H2 |].
  split; [exact H1|]. split; [exact H2|].
  rewrite Hw, Hb. reflexivity.
Defined.

(** X15. A text frame: the connection is sent the four bytes that read as
    ack -1 and is closed; nothing is written to the backend, no ack is
    processed, and the session keeps referring to the connection until
    its [close] event. *)
Theorem text_frame_is_protocol_closed
        (w : World) (sid : string) (c : nat) (utf8Data : string) :
  let w' := exec (on_message sid c (Utf8 utf8Data)) w in
  fst (on_message sid c (Utf8 utf8Data) w) = Ret tt /\
  heap w' = heap w /\
  sessions w' = sessions w /\
  (exists header,
     events (connections w' c) = events (connections w c) ++ [SendBytes header; Close] /\
     length header = 4%nat /\
     readInt32BE header = Ret (-1)) /\
  pos (connections w' c) = pos (connections w c) /\
  forall c', c' <> c -> connections w' c' = connections w c'.
Proof.
  cbv zeta. unfold exec, on_message. rewrite closeProtocol_events. cbv zeta.
  cbn [fst snd]. split; [reflexivity|]. split; [reflexivity|].
  split; [reflexivity|]. split; [|split].
  - exists [xff; xff; xff; xff]. world_simpl.
    rewrite <- app_assoc. repeat split.
  - now world_simpl.
  - intros c' Hne. now rewrite !connections_set_con_ne.
Qed.

(** ** More on adoption *)

Lemma sendFragment_other (w : World) (sid : string) (c c' : nat) (fragment : Buffer) :
  frontendCon (heap w sid) = Some c ->
  c' <> c ->
  connections (exec (sendFragment sid fragment) w) c' = connections w c'.
Proof.
  intros Hatt Hne. unfold exec, sendFragment, sendBytes. unfold_M. rewrite Hatt.
  destruct (writeInt32BE _); cbn [fst snd]; [|reflexivity].
  now rewrite connections_set_con_ne.
Qed.

(** X16. [adopt] begins by evicting: a connection that is attached when
    another one is adopted is sent the ack -1 and closed, whether the
    adoption then succeeds, is refused or throws. *)
Theorem adopt_evicts_previous
        (w : World) (sid : string) (c old : nat) (ack pos_ : Z) :
  frontendCon (heap w sid) = Some old ->
  old <> c ->
  let w' := exec (adopt sid c ack pos_) w in
  events (connections w' old)
    = events (connections w old) ++ [SendBytes [xff; xff; xff; xff]; Close].
Proof.
  intros Hold Hne. cbv zeta. unfold exec, adopt, frontend. unfold_M.
  rewrite Hold, closeProtocol_events. cbv zeta. cbn [fst snd].
  set (w1 := set_con old _ (set_con old _ w)).
  assert (H1 : events (connections w1 old)
               = events (connections w old) ++ [SendBytes [xff; xff; xff; xff]; Close]).
  { subst w1. world_simpl. now rewrite <- app_assoc. }
  assert (Hh1 : heap w1 = heap w) by reflexivity.
  clearbody w1. world_simpl.
  destruct (pos_ >? _).
  { cbn [fst snd]. now rewrite connections_set_con_ne. }
  set (w3 := set_con c _ (set_con c _ w1)).
  assert (H3 : events (connections w3 old)
               = events (connections w old) ++ [SendBytes [xff; xff; xff; xff]; Close]).
  { subst w3. now rewrite !connections_set_con_ne. }
  clearbody w3.
  destruct (shrinkBuffer_cases w3 sid ack) as [-> | [b ->]]; cbn [negb].
  - rewrite closeProtocol_events. cbv zeta. cbn [snd].
    now rewrite !connections_set_con_ne.
  - world_simpl.
    match goal with
    | |- context [sendFragment sid ?f ?w5] =>
        pose proof (sendFragment_other w5 sid c old f) as Hs
    end.
    unfold exec in Hs. rewrite Hs; [| now world_simpl | exact Hne].
    now world_simpl.
Qed.

Lemma adopt_evicts_previous_readopted :
  frontendCon (heap attached "X") = Some 0%nat /\
  events (connections (exec (adopt "X" 1 0 0) attached) 0)
    = events (connections attached 0) ++ [SendBytes [xff; xff; xff; xff]; Close].
Proof.
  assert (H : frontendCon (heap attached "X") = Some 0%nat) by reflexivity.
  split; [exact H|].
  apply (adopt_evicts_previous attached "X" 1%nat 0%nat 0 0 H). discriminate.
Defined.

(** X17. [adopt] with an ack that fails the shrink rules (and a [pos]
    that is not ahead): the new connection is protocol-closed and not
    attached, and the sessions are left exactly as they were, so the
    backend connection and the retransmission buffer survive. *)
Theorem adopt_refuses_bad_ack
        (w : World) (sid : string) (c : nat) (ack pos_ : Z) :
  frontendCon (heap w sid) <> Some c ->
  pos_ <= bytesWritten (backendSocket (heap w sid)) ->
  ack > bytesRead (backendSocket (heap w sid)) \/
  ack < bytesRead (backendSocket (heap w sid)) - blen (B2FUnacked (heap w sid)) ->
  let w' := exec (adopt sid c ack pos_) w in
  fst (adopt sid c ack pos_ w) = Ret tt /\
  heap w' = heap w /\
  sessions w' = sessions w /\
  events (connections w' c)
    = events (connections w c) ++ [SendBytes [xff; xff; xff; xff]; Close].
Proof.
  intros Hfresh Hpos Hbad.
  assert (Hle : (pos_ >? bytesWritten (backendSocket (heap w sid))) = false).
  { destruct (_ >? _) eqn:E; [apply Z.gtb_gt in E; lia | reflexivity]. }
  cbv zeta. unfold exec, adopt. unfold_M.
  set (evict := match frontendCon (heap w sid) with
                | Some old => closeProtocol old
                | None => _
                end).
  assert (Hev : exists w1, evict w = (Ret tt, w1) /\ heap w1 = heap w /\
                           sessions w1 = sessions w /\
                           connections w1 c = connections w c).
  { subst evict. destruct (frontendCon (heap w sid)) as [old|] eqn:Hold.
    - rewrite closeProtocol_events. eexists. split; [reflexivity|].
      cbv zeta. split; [reflexivity|]. split; [reflexivity|].
      rewrite !connections_set_con_ne by congruence. reflexivity.
    - eexists. repeat split. }
  destruct Hev as (w1 & -> & Hh1 & Hs1 & Hc1). world_simpl.
  rewrite Hh1, Hle.
  set (w3 := set_con c _ (set_con c _ w1)).
  assert (Hfail : shrinkBuffer sid ack w3 = (Ret false, w3)).
  { destruct Hbad as [H|H]; [apply shrinkBuffer_ahead | apply shrinkBuffer_behind];
      subst w3; world_simpl; rewrite Hh1; lia. }
  rewrite Hfail. cbn [negb]. rewrite closeProtocol_events. cbv zeta.
  subst w3. world_simpl. rewrite Hc1, <- app_assoc. auto.
Qed.

Lemma adopt_refuses_bad_ack_ahead :
  let w := dropped_after_ack in
  let w' := exec (adopt "X" 1 9 0) w in
  bytesRead (backendSocket (heap w "X")) = 6 /\
  frontendCon (heap w' "X") = None /\
  B2FUnacked (heap w' "X") = list_byte_of_string "ef" /\
  events (connections w' 1) = [SendBytes [xff; xff; xff; xff]; Close].
Proof.
  cbv zeta.
  destruct (adopt_refuses_bad_ack dropped_after_ack "X" 1%nat 9 0)
    as (_ & Hheap & _ & Hev);
    [vm_compute; discriminate | vm_compute; discriminate
    | left; vm_compute; reflexivity |].
  rewrite Hheap, Hev. repeat split.
Defined.

(** X18. A refused adoption does not spoil the next one.  After [adopt]
    refused [c] for its ack, let [c2] be adopted with an ack that passes
    and a [pos] that is not ahead of [bytesWritten] and is a signed 32-bit
    integer: [c2] is installed and sent the header [pos] and the backend
    stream from that ack on. *)
Theorem refused_then_resumed
        (w : World) (sid : string) (c c2 : nat) (bad ack pos_ pos2 : Z) :
  wf_session (heap w sid) ->
  frontendCon (heap w sid) <> Some c ->
  frontendCon (heap w sid) <> Some c2 ->
  pos_ <= bytesWritten (backendSocket (heap w sid)) ->
  bad > bytesRead (backendSocket (heap w sid)) \/
  bad < bytesRead (backendSocket (heap w sid)) - blen (B2FUnacked (heap w sid)) ->
  pos2 <= bytesWritten (backendSocket (heap w sid)) ->
  bytesRead (backendSocket (heap w sid)) - blen (B2FUnacked (heap w sid)) <= ack
    <= bytesRead (backendSocket (heap w sid)) ->
  int32_ok pos2 = true ->
  let w1 := exec (adopt sid c bad pos_) w in
  let w2 := exec (adopt sid c2 ack pos2) w1 in
  fst (adopt sid c2 ack pos2 w1) = Ret tt /\
  frontendCon (heap w2 sid) = Some c2 /\
  exists fragment,
    events (connections w2 c2) = events (connections w1 c2) ++ [SendBytes fragment] /\
    readInt32BE fragment = Ret pos2 /\
    drop 4 fragment = drop (Z.to_nat ack) (received (backendSocket (heap w sid))).
Proof.
  intros Hwf Hf1 Hf2 Hp1 Hbad Hp2 Hack Hok. cbv zeta.
  destruct (adopt_refuses_bad_ack w sid c bad pos_ Hf1 Hp1 Hbad) as (_ & Hheap & _).
  cbv zeta in Hheap.
  set (w1 := exec (adopt sid c bad pos_) w) in *.
  destruct (adopt_resume w1 sid c2 ack pos2) as (Hret & Hatt & _ & h & Hh & Hev);
    rewrite ?Hheap; try assumption.
  split; [exact Hret|]. split; [exact Hatt|].
  eexists. split; [exact Hev|]. split.
  - now apply readInt32BE_writeInt32BE.
  - rewrite Hheap. now apply (drop_header pos2).
Qed.

Lemma refused_then_resumed_ef :
  let w := dropped_after_ack in
  let w2 := exec (adopt "X" 2 4 0) (exec (adopt "X" 1 9 0) w) in
  frontendCon (heap w2 "X") = Some 2%nat /\
  exists fragment,
    events (connections w2 2) = [SendBytes fragment] /\
    drop 4 fragment = list_byte_of_string "ef".
Proof.
  cbv zeta.
  assert (Hwf : wf_session (heap dropped_after_ack "X")).
  { split; [reflexivity|]. exists (list_byte_of_string "abcd"). reflexivity. }
  destruct (refused_then_resumed dropped_after_ack "X" 1%nat 2%nat 9 4 0 0 Hwf)
    as (_ & Hatt & fragment & Hev & _ & Hpay);
    [vm_compute; discriminate | vm_compute; discriminate | vm_compute; discriminate
    | left; vm_compute; reflexivity | vm_compute; discriminate
    | vm_compute; split; discriminate | reflexivity |].
  split; [exact Hatt|]. exists fragment. split; [exact Hev | exact Hpay].
Defined.

(** ** More on the registry and the upgrade handler *)

(** X19. The backend socket closes: the session's key stays in the
    registry with value [null], every other key keeps its value, the
    attached frontend (if any) is sent the ack -1 and closed, and no
    other connection and no session object is touched. *)
Theorem backend_close_nulls_and_closes (w : World) (sid : string) :
  let w' := exec (backend_close sid) w in
  fst (backend_close sid w) = Ret tt /\
  sessions w' !! sid = Some RNull /\
  (forall k, k <> sid -> sessions w' !! k = sessions w !! k) /\
  heap w' = heap w /\
  forall c,
    events (connections w' c)
    = events (connections w c)
      ++ (if decide (frontendCon (heap w sid) = Some c)
          then [SendBytes [xff; xff; xff; xff]; Close] else []).
Proof.
  cbv zeta. unfold exec, backend_close. unfold_M. cbn [fst snd].
  change (heap (set_sessions _ w)) with (heap w).
  destruct (frontendCon (heap w sid)) as [c0|] eqn:Hatt.
  - rewrite closeProtocol_events. cbv zeta. cbn [fst snd].
    split; [reflexivity|]. split; [apply lookup_insert_eq|].
    split; [intros k Hk; now apply lookup_insert_ne|]. split; [reflexivity|].
    intros c. destruct (decide (Some c0 = Some c)) as [E|E].
    + injection E as ->. world_simpl. now rewrite <- app_assoc.
    + rewrite !connections_set_con_ne by congruence. now rewrite app_nil_r.
  - cbn [fst snd]. split; [reflexivity|]. split; [apply lookup_insert_eq|].
    split; [intros k Hk; now apply lookup_insert_ne|]. split; [reflexivity|].
    intros c. rewrite decide_False by discriminate. now rewrite app_nil_r.
Qed.

(** X20. A [/connect] whose [sid] is neither a key of the registry nor a
    member of [Object.prototype]: the new connection is protocol-closed,
    gets no listeners, and registry and sessions stay as they are. *)
Theorem upgrade_unknown_sid_is_closed (w : World) (sid : string) (ack pos_ : Z) :
  sid <> ""%string ->
  sessions w !! sid = None ->
  sid ∉ Object_prototype ->
  let w' := exec (on_request (connect sid ack pos_)) w in
  fst (on_request (connect sid ack pos_) w) = Ret tt /\
  heap w' = heap w /\
  sessions w' = sessions w /\
  listeners (connections w' (nextCon w)) = None /\
  events (connections w' (nextCon w)) = [SendBytes [xff; xff; xff; xff]; Close] /\
  forall c, c <> nextCon w -> connections w' c = connections w c.
Proof.
  intros Hsid Hreg Hproto. apply String.eqb_neq in Hsid.
  cbv zeta. unfold exec, on_request, accept, sessions_get, connect. unfold_M.
  cbn [fst snd sessions connections nextCon heap pathname query_sid query_ack
       query_pos String.eqb Ascii.eqb Bool.eqb negb].
  rewrite Hsid. cbn [sessions]. rewrite Hreg, decide_False by exact Hproto.
  rewrite closeProtocol_events. cbv zeta. cbn [fst snd].
  split; [reflexivity|]. split; [reflexivity|]. split; [reflexivity|].
  world_simpl. cbn [connections]. rewrite decide_True by reflexivity.
  split; [reflexivity|]. split; [reflexivity|].
  intros c Hc. rewrite !connections_set_con_ne by exact Hc.
  cbn [connections]. now rewrite decide_False.
Qed.

Lemma upgrade_unknown_sid_Y :
  let w' := exec (on_request (connect "Y" 0 0)) attached in
  sessions attached !! "Y"%string = None /\
("Y"%string ∉ Object_prototype) /\
  events (connections w' 1) = [SendBytes [xff; xff; xff; xff]; Close] /\
  frontendCon (heap w' "X") = Some 0%nat.
Proof.
  cbv zeta.
  assert (H1 : sessions attached !! "Y"%string = None) by reflexivity.
  assert (H2 : "Y"%string ∉ Object_prototype).
  { intros H. apply list_elem_of_In in H. cbn in H.
    repeat (destruct H as [H|H]; [discriminate H|]). exact H. }
  destruct (upgrade_unknown_sid_is_closed attached "Y" 0 0 ltac:(discriminate) H1 H2)
    as (_ & Hheap & _ & _ & Hev & _).
  split; [exact H1|]. split; [exact H2|]. split; [exact Hev|].
  rewrite Hheap. reflexivity.
Defined.

(** X21. An upgrade without a [sid], or with an empty one: the connection
    gets no listeners, registry and sessions stay as they are, and the
    connection is protocol-closed: once on the path [/connect], twice on
    any other path, whose own protocol-close comes first. *)
Theorem upgrade_without_sid_is_closed
        (w : World) (path : string) (q : option string) (ack pos_ : Z) :
  q = None \/ q = Some ""%string ->
  let w' := exec (on_request (mkRequest path q ack pos_)) w in
  let closed := [SendBytes [xff; xff; xff; xff]; Close] in
  fst (on_request (mkRequest path q ack pos_) w) = Ret tt /\
  heap w' = heap w /\
  sessions w' = sessions w /\
  listeners (connections w' (nextCon w)) = None /\
  events (connections w' (nextCon w))
    = (if String.eqb path "/connect" then closed else closed ++ closed).
Proof.
  intros Hq. cbv zeta. unfold exec, on_request, accept. unfold_M.
  cbn [fst snd pathname query_sid].
  destruct (String.eqb path "/connect"); cbn [negb];
    [|rewrite closeProtocol_events; cbv zeta; cbn [fst snd]];
    destruct Hq as [-> | ->]; cbn [String.eqb];
    rewrite closeProtocol_events; cbv zeta; cbn [fst snd];
    world_simpl; cbn [connections]; rewrite decide_True by reflexivity;
    repeat split.
Qed.

Lemma upgrade_without_sid_other_path :
  let w' := exec (on_request (mkRequest "/other" None 0 0)) attached in
  events (connections w' 1)
    = [SendBytes [xff; xff; xff; xff]; Close; SendBytes [xff; xff; xff; xff]; Close] /\
  frontendCon (heap w' "X") = Some 0%nat.
Proof.
  cbv zeta.
  destruct (upgrade_without_sid_is_closed attached "/other" None 0 0 (or_introl eq_refl))
    as (_ & Hheap & _ & _ & Hev).
  rewrite Hheap. split; [exact Hev | reflexivity].
Defined.

(** X22. A [/connect] whose [sid] is the name of a member of
    [Object.prototype] and no key of the registry: the lookup finds the
    inherited member, which is not [undefined], and the handler throws on
    [ses.adopt]; the connection is sent nothing and is not closed. *)
Theorem upgrade_inherited_key_throws (w : World) (sid : string) (ack pos_ : Z) :
  sid ∈ Object_prototype ->
  sessions w !! sid = None ->
  let w' := exec (on_request (connect sid ack pos_)) w in
  fst (on_request (connect sid ack pos_) w) = Exn TypeError /\
  events (connections w' (nextCon w)) = [] /\
  heap w' = heap w.
Proof.
  intros Hin Hreg.
  assert (Hsid : String.eqb sid "" = false).
  { apply String.eqb_neq. intros ->. apply list_elem_of_In in Hin. cbn in Hin.
    repeat (destruct Hin as [Hin|Hin]; [discriminate Hin|]). exact Hin. }
  cbv zeta. unfold exec, on_request, accept, sessions_get, connect. unfold_M.
  cbn [fst snd sessions connections nextCon heap pathname query_sid query_ack
       query_pos String.eqb Ascii.eqb Bool.eqb negb].
  rewrite Hsid. cbn [sessions]. rewrite Hreg, decide_True by exact Hin.
  cbn [fst snd connections]. rewrite decide_True by reflexivity. repeat split.
Qed.

Lemma upgrade_constructor_throws :
  ("constructor"%string ∈ Object_prototype) /\
  sessions attached !! "constructor"%string = None /\
  fst (on_request (connect "constructor" 0 0) attached) = Exn TypeError.
Proof.
  assert (H1 : "constructor"%string ∈ Object_prototype)
    by (apply list_elem_of_In; cbn; auto).
  assert (H2 : sessions attached !! "constructor"%string = None) by reflexivity.
  split; [exact H1|]. split; [exact H2|].
  apply (upgrade_inherited_key_throws attached "constructor" 0 0 H1 H2).
Defined.

(** A [/connect] with valid parameters for a registered session. *)
Lemma on_request_resume (w : World) (sid : string) (ack pos_ : Z) :
  sid <> ""%string ->
  sessions w !! sid = Some (RSession sid) ->
  wf_session (heap w sid) ->
  frontendCon (heap w sid) <> Some (nextCon w) ->
  pos_ <= bytesWritten (backendSocket (heap w sid)) ->
  bytesRead (backendSocket (heap w sid)) - blen (B2FUnacked (heap w sid)) <= ack
    <= bytesRead (backendSocket (heap w sid)) ->
  int32_ok pos_ = true ->
  let w' := exec (on_request (connect sid ack pos_)) w in
  fst (on_request (connect sid ack pos_) w) = Ret tt /\
  frontendCon (heap w' sid) = Some (nextCon w) /\
  nextCon w' = S (nextCon w) /\
  exists fragment,
    events (connections w' (nextCon w)) = [SendBytes fragment] /\
    readInt32BE fragment = Ret pos_ /\
    drop 4 fragment = drop (Z.to_nat ack) (received (backendSocket (heap w sid))).
Proof.
  intros Hsid Hreg Hwf Hfresh Hpos Hack Hok. cbv zeta. unfold exec at 1 2 3.
  rewrite (on_request_connect_known w sid sid ack pos_ Hsid Hreg).
  set (w0 := exec accept w).
  assert (Hh0 : heap w0 = heap w) by reflexivity.
  assert (He0 : events (connections w0 (nextCon w)) = []).
  { subst w0. unfold exec, accept. cbn. now rewrite decide_True. }
  assert (Hn0 : nextCon w0 = S (nextCon w)) by reflexivity.
  destruct (adopt_resume w0 sid (nextCon w) ack pos_)
    as (Hret & Hatt & _ & h & Hh & Hev); rewrite ?Hh0; try assumption.
  unfold exec in Hatt, Hev.
  split; [exact Hret|]. split; [exact Hatt|]. split.
  - clearbody w0. clear - Hn0.
    revert Hn0. generalize (nextCon w). intros n Hn0.
    unfold adopt, frontend. unfold_M.
    set (evict := match frontendCon (heap w0 sid) with
                  | Some old => closeProtocol old
                  | None => _
                  end).
    assert (Hev : exists w1, evict w0 = (Ret tt, w1) /\ nextCon w1 = nextCon w0).
    { subst evict. destruct (frontendCon (heap w0 sid)).
      - rewrite closeProtocol_events. eexists. split; reflexivity.
      - eexists. split; reflexivity. }
    destruct Hev as (w1 & -> & Hn1). cbn [fst snd].
    destruct (pos_ >? _); [cbn; congruence|]. cbn [fst snd].
    set (w3 := set_con n _ (set_con n _ w1)).
    assert (Hn3 : nextCon w3 = nextCon w0) by (subst w3; exact Hn1).
    clearbody w3.
    destruct (shrinkBuffer_cases w3 sid ack) as [-> | [b ->]]; cbn [negb].
    + rewrite closeProtocol_events. cbn. congruence.
    + cbn [fst snd].
      set (w5 := set_ses sid _ _).
      assert (Hn5 : nextCon w5 = nextCon w0) by (subst w5; exact Hn3).
      clearbody w5. unfold sendFragment, sendBytes. unfold_M.
      destruct (frontendCon (heap w5 sid)); [|cbn; congruence].
      destruct (writeInt32BE _); cbn; congruence.
  - eexists. split; [rewrite Hev, He0; reflexivity|]. split.
    + now apply readInt32BE_writeInt32BE.
    + now apply (drop_header pos_).
Qed.

(** X23. A [/connect] for a registered session with an ack that passes
    and a [pos] that is not ahead of [bytesWritten] and is a signed 32-bit
    integer: the connection the upgrade creates becomes the attached
    frontend, and all it is sent is one fragment, the header [pos]
    followed by the backend stream from [ack] on. *)
Theorem upgrade_resumes (w : World) (sid : string) (ack pos_ : Z) :
  sid <> ""%string ->
  sessions w !! sid = Some (RSession sid) ->
  wf_session (heap w sid) ->
  frontendCon (heap w sid) <> Some (nextCon w) ->
  pos_ <= bytesWritten (backendSocket (heap w sid)) ->
  bytesRead (backendSocket (heap w sid)) - blen (B2FUnacked (heap w sid)) <= ack
    <= bytesRead (backendSocket (heap w sid)) ->
  int32_ok pos_ = true ->
  let w' := exec (on_request (connect sid ack pos_)) w in
  fst (on_request (connect sid ack pos_) w) = Ret tt /\
  frontendCon (heap w' sid) = Some (nextCon w) /\
  nextCon w' = S (nextCon w) /\
  exists fragment,
    events (connections w' (nextCon w)) = [SendBytes fragment] /\
    readInt32BE fragment = Ret pos_ /\
    drop 4 fragment = drop (Z.to_nat ack) (received (backendSocket (heap w sid))).
Proof. exact (on_request_resume w sid ack pos_). Qed.

(** Scenario S3 through the upgrade handler. *)
Lemma upgrade_resumes_S3 :
  let w' := exec (on_request (connect "X" 4 0)) dropped_after_ack in
  frontendCon (heap w' "X") = Some 1%nat /\
  exists fragment,
    events (connections w' 1) = [SendBytes fragment] /\
    readInt32BE fragment = Ret 0 /\
    drop 4 fragment = list_byte_of_string "ef".
Proof.
  cbv zeta.
  assert (Hwf : wf_session (heap dropped_after_ack "X")).
  { split; [reflexivity|]. exists (list_byte_of_string "abcd"). reflexivity. }
  destruct (upgrade_resumes dropped_after_ack "X" 4 0 ltac:(discriminate) eq_refl Hwf)
    as (_ & Hatt & _ & fragment & Hev & Hhdr & Hpay);
    [vm_compute; discriminate | vm_compute; discriminate
    | vm_compute; split; discriminate | reflexivity |].
  split; [exact Hatt|]. exists fragment.
  split; [exact Hev|]. split; [exact Hhdr | exact Hpay].
Defined.

(** ** Invariants of a run *)

Lemma handle_wf (e : Event) (w : World) :
  wf_world w -> fst (handle e w) = Ret tt -> wf_world (exec (handle e) w).
Proof.
  intros Hwf Hret. destruct e as [sid|request|c m|c|sid buf|sid]; cbn [handle] in *.
  - exact Hwf.
  - eapply shrinks_wf; [exact Hwf | apply on_request_shrinks].
  - unfold exec, emit_message. unfold_M.
    destruct (listeners (connections w c)); [|exact Hwf].
    eapply shrinks_wf; [exact Hwf | apply on_message_shrinks].
  - eapply shrinks_wf; [exact Hwf | apply emit_close_shrinks].
  - now apply backend_data_wf.
  - eapply shrinks_wf; [exact Hwf | apply backend_close_shrinks].
Qed.

Lemma run_events_cons (e : Event) (es : list Event) (w : World) :
  fst (run_events (e :: es) w) = Ret tt ->
  fst (handle e w) = Ret tt /\
  fst (run_events es (exec (handle e) w)) = Ret tt /\
  exec (run_events (e :: es)) w = exec (run_events es) (exec (handle e) w).
Proof.
  unfold exec. cbn [run_events]. unfold bind.
  destruct (handle e w) as [[[]|x] w1]; cbn [fst snd]; [auto | discriminate].
Qed.

(** X24. The retransmission invariant holds throughout a run: if, for
    every session, [bytesRead] is the length of the stream read from the
    backend and [B2FUnacked] is a tail of that stream, then the same is
    true after any sequence of events whose listeners all return. *)
Theorem run_keeps_retransmission_invariant (es : list Event) (w : World) :
  wf_world w ->
  fst (run_events es w) = Ret tt ->
  wf_world (exec (run_events es) w).
Proof.
  revert w. induction es as [|e es IH]; intros w Hwf Hret; [exact Hwf|].
  destruct (run_events_cons e es w Hret) as (He & Hes & ->).
  apply IH; [now apply handle_wf | exact Hes].
Qed.

(** Scenario S1 as a run: register, connect, [hello] from the backend,
    a frame that acks it. *)
Lemma run_S1_keeps_retransmission_invariant :
  let es := [ProxyConnected "X"; Upgrade (connect "X" 0 0);
             BackendData "X" (list_byte_of_string "hello");
             FrontendMessage 0 (Binary (frame 5 "ls"))] in
  wf_world world0 /\
  fst (run_events es world0) = Ret tt /\
  wf_world (exec (run_events es) world0).
Proof.
  cbv zeta.
  assert (H : fst (run_events [ProxyConnected "X"; Upgrade (connect "X" 0 0);
                               BackendData "X" (list_byte_of_string "hello");
                               FrontendMessage 0 (Binary (frame 5 "ls"))] world0)
              = Ret tt) by (vm_compute; reflexivity).
  split; [exact world0_wf|]. split; [exact H|].
  exact (run_keeps_retransmission_invariant _ world0 world0_wf H).
Defined.

Lemma pos_rel_refl (w : World) : pos_rel w w.
Proof. split; [intros c; split; reflexivity | intros s; lia]. Qed.

Lemma pos_rel_trans (w1 w2 w3 : World) :
  pos_rel w1 w2 -> pos_rel w2 w3 -> pos_rel w1 w3.
Proof.
  intros [Ha Hb] [Ha' Hb']. split.
  - intros c. destruct (Ha c), (Ha' c). split; congruence.
  - intros s. specialize (Hb s). specialize (Hb' s). lia.
Qed.

Lemma pos_rel_behind (w w' : World) :
  pos_behind w -> pos_rel w w' -> pos_behind w'.
Proof.
  intros Hb [Hc Hs] c sid Hl. destruct (Hc c) as [Hl' Hp].
  rewrite Hl' in Hl. rewrite Hp. specialize (Hb c sid Hl). specialize (Hs sid). lia.
Qed.

Lemma pos_rel_events (c : nat) (l : list ConEvent) (w : World) :
  pos_rel w (set_con c (with_events l (connections w c)) w).
Proof.
  split; [|intros s; cbn; lia].
  intros c'. destruct (decide (c' = c)) as [->|Hne].
  - rewrite connections_set_con_eq. split; reflexivity.
  - rewrite connections_set_con_ne by exact Hne. split; reflexivity.
Qed.

Lemma closeProtocol_pos_rel (c : nat) (w : World) :
  pos_rel w (exec (closeProtocol c) w).
Proof.
  unfold exec. rewrite closeProtocol_events. cbv zeta. cbn [snd].
  eapply pos_rel_trans; apply pos_rel_events.
Qed.

Lemma sendFragment_pos_rel (sid : string) (fragment : Buffer) (w : World) :
  pos_rel w (exec (sendFragment sid fragment) w).
Proof.
  destruct (sendFragment_frame w sid fragment) as (Hh & _ & Hc). cbv zeta in *.
  split.
  - intros c. destruct (Hc c). split; assumption.
  - intros s. rewrite Hh. lia.
Qed.

Lemma pos_rel_same_socket (w w' : World) :
  connections w' = connections w ->
  (forall s, backendSocket (heap w' s) = backendSocket (heap w s)) ->
  pos_rel w w'.
Proof.
  intros Hc Hs. split.
  - intros c. rewrite Hc. split; reflexivity.
  - intros s. rewrite Hs. lia.
Qed.

Lemma shrinkBuffer_pos_rel (sid : string) (a : Z) (w : World) :
  pos_rel w (exec (shrinkBuffer sid a) w).
Proof.
  unfold exec. destruct (shrinkBuffer_cases w sid a) as [-> | [b ->]]; cbn [snd].
  - apply pos_rel_refl.
  - apply pos_rel_same_socket; [reflexivity|].
    intros s. destruct (decide (s = sid)) as [->|Hne].
    + now rewrite heap_set_ses_eq.
    + now rewrite heap_set_ses_ne.
Qed.

Lemma emit_close_pos_rel (c : nat) (w : World) :
  pos_rel w (exec (emit_close c) w).
Proof.
  destruct (emit_close_frame w c) as (Hc & _ & Hs). cbv zeta in *.
  apply pos_rel_same_socket; [exact Hc|]. intros s. apply Hs.
Qed.

Lemma msg_rel_refl (c : nat) (w : World) : msg_rel c w w.
Proof. split; [|split]; intros; reflexivity || lia. Qed.

Lemma msg_rel_trans (c : nat) (w1 w2 w3 : World) :
  msg_rel c w1 w2 -> msg_rel c w2 w3 -> msg_rel c w1 w3.
Proof.
  intros (Ha & Hb & Hc) (Ha' & Hb' & Hc'). split; [|split].
  - intros c'. now rewrite Ha', Ha.
  - intros c' Hne. now rewrite Hb', Hb.
  - intros s. specialize (Hc s). specialize (Hc' s). lia.
Qed.

Lemma pos_rel_msg_rel (c : nat) (w w' : World) : pos_rel w w' -> msg_rel c w w'.
Proof.
  intros [Ha Hb]. split; [|split].
  - intros c'. apply Ha.
  - intros c' _. apply Ha.
  - exact Hb.
Qed.

Lemma on_message_msg_rel (sid : string) (c : nat) (m : Message) (w : World) :
  msg_rel c w (exec (on_message sid c m) w).
Proof.
  destruct m as [u|d]; [apply pos_rel_msg_rel, closeProtocol_pos_rel|].
  unfold exec, on_message. unfold_M. cbn beta iota.
  set (w0 := set_con c _ w).
  assert (H0 : msg_rel c w w0).
  { subst w0. split; [|split].
    - intros c'. destruct (decide (c' = c)) as [->|Hne].
      + now rewrite connections_set_con_eq.
      + now rewrite connections_set_con_ne.
    - intros c' Hne. now rewrite connections_set_con_ne.
    - intros s. cbn. lia. }
  cbn [fst snd]. clearbody w0.
  apply (msg_rel_trans _ _ _ _ H0). clear H0.
  destruct (bslice _ d) as [unseen|e]; [|apply msg_rel_refl].
  set (w1 := set_ses sid _ w0).
  assert (H1 : msg_rel c w0 w1).
  { subst w1. split; [|split]; try reflexivity.
    intros s. destruct (decide (s = sid)) as [->|Hne].
    - rewrite heap_set_ses_eq. cbn. pose proof (blen_nonneg unseen). lia.
    - rewrite heap_set_ses_ne by exact Hne. lia. }
  clearbody w1. apply (msg_rel_trans _ _ _ _ H1). clear H1.
  destruct (readInt32BE d) as [a|e]; [|apply msg_rel_refl].
  pose proof (shrinkBuffer_pos_rel sid a w1) as H2. unfold exec in H2.
  destruct (shrinkBuffer sid a w1) as [[ok|e] w2]; cbn [snd] in H2;
    apply (msg_rel_trans _ _ _ _ (pos_rel_msg_rel c _ _ H2));
    [|apply msg_rel_refl].
  apply pos_rel_msg_rel. destruct ok; cbn [negb].
  - destruct (_ >? _); [apply sendFragment_pos_rel | apply pos_rel_refl].
  - apply emit_close_pos_rel.
Qed.

Lemma on_message_returns_length (sid : string) (c : nat) (d : Buffer) (w : World) :
  fst (on_message sid c (Binary d) w) = Ret tt -> 4 <= blen d.
Proof.
  unfold on_message. unfold_M. cbn beta iota.
  destruct (bslice _ d) as [unseen|e]; [|discriminate].
  destruct (readInt32BE d) as [a|e] eqn:Ha; [|discriminate].
  intros _. now apply (readInt32BE_Ret_length d a).
Qed.

Lemma on_message_keeps_pos_behind (sid : string) (c : nat) (m : Message) (w : World) :
  pos_behind w ->
  listeners (connections w c) = Some sid ->
  fst (on_message sid c m w) = Ret tt ->
  pos_behind (exec (on_message sid c m) w).
Proof.
  intros Hb Hl Hret.
  destruct m as [u|d].
  { eapply pos_rel_behind; [exact Hb | apply closeProtocol_pos_rel]. }
  pose proof (on_message_returns_length sid c d w Hret) as Hlen.
  pose proof (Hb c sid Hl) as Hpos.
  destruct (on_message_msg_rel sid c (Binary d) w) as (Hls & Hps & Hbw).
  intros c0 s0 Hl0. rewrite Hls in Hl0.
  destruct (decide (c0 = c)) as [->|Hne].
  - rewrite Hl in Hl0. injection Hl0 as <-.
    destruct (on_message_forwards w sid c d Hlen Hpos) as [Hp Hs].
    rewrite Hp, Hs. cbn [socket_write bytesWritten].
    rewrite unseen_length by lia. lia.
  - rewrite Hps by exact Hne. specialize (Hb c0 s0 Hl0). specialize (Hbw s0). lia.
Qed.

Lemma adopt_keeps_pos_behind (sid : string) (c : nat) (ack pos_ : Z) (w : World) :
  pos_behind w ->
  fst (adopt sid c ack pos_ w) = Ret tt ->
  pos_behind (exec (adopt sid c ack pos_) w).
Proof.
  intros Hb. unfold exec, adopt, frontend. unfold_M.
  set (evict := match frontendCon (heap w sid) with
                | Some old => closeProtocol old
                | None => _
                end).
  assert (Hev : exists w1, evict w = (Ret tt, w1) /\ pos_rel w w1).
  { subst evict. destruct (frontendCon (heap w sid)) as [old|].
    - exists (exec (closeProtocol old) w). split.
      + unfold exec. now rewrite closeProtocol_events.
      + apply closeProtocol_pos_rel.
    - eexists. split; [reflexivity | apply pos_rel_refl]. }
  destruct Hev as (w1 & -> & H1).
  pose proof (pos_rel_behind w w1 Hb H1) as Hb1. clear H1 Hb.
  cbn [fst snd]. world_simpl.
  destruct (pos_ >? _) eqn:Hcmp; [cbn; discriminate|].
  rewrite Z.gtb_ltb in Hcmp. apply Z.ltb_ge in Hcmp.
  set (w3 := set_con c _ (set_con c _ w1)).
  assert (Hb3 : pos_behind w3).
  { subst w3. intros c0 s0. destruct (decide (c0 = c)) as [->|Hne].
    - world_simpl. intros Hl. injection Hl as <-. exact Hcmp.
    - rewrite !connections_set_con_ne by exact Hne. apply Hb1. }
  clearbody w3. intros Hret.
  assert (Hrel : pos_rel w3
            (snd (let (o, w') := shrinkBuffer sid ack w3 in
                  match o with
                  | Ret a =>
                      (if negb a then closeProtocol c
                       else fun w0 =>
                         let (o0, w'0) :=
                           (Ret tt, set_ses sid (with_frontendCon (Some c) (heap w0 sid)) w0) in
                         match o0 with
                         | Ret _ => sendFragment sid (B2FUnacked (heap w'0 sid)) w'0
                         | Exn e => (Exn e, w'0)
                         end) w'
                  | Exn e => (Exn e, w')
                  end))).
  { pose proof (shrinkBuffer_pos_rel sid ack w3) as H4. unfold exec in H4.
    destruct (shrinkBuffer sid ack w3) as [[ok|e] w4]; cbn [snd] in H4;
      apply (pos_rel_trans _ _ _ H4); [|apply pos_rel_refl].
    destruct ok; cbn [negb]; [|apply closeProtocol_pos_rel].
    set (w5 := set_ses sid _ w4).
    assert (H5 : pos_rel w4 w5).
    { subst w5. apply pos_rel_same_socket; [reflexivity|].
      intros s. destruct (decide (s = sid)) as [->|Hne].
      - now rewrite heap_set_ses_eq.
      - now rewrite heap_set_ses_ne. }
    clearbody w5. apply (pos_rel_trans _ _ _ H5). apply sendFragment_pos_rel. }
  exact (pos_rel_behind _ _ Hb3 Hrel).
Qed.

Lemma on_request_keeps_pos_behind (request : Request) (w : World) :
  pos_behind w ->
  fst (on_request request w) = Ret tt ->
  pos_behind (exec (on_request request) w).
Proof.
  intros Hb. unfold exec, on_request, accept, sessions_get. unfold_M.
  cbn beta iota.
  set (w0 := mkWorld _ _ _ _).
  assert (Hb0 : pos_behind w0).
  { subst w0. intros c0 s0. cbn [connections heap].
    destruct (decide (c0 = nextCon w)); [discriminate | apply Hb]. }
  cbn [fst snd]. clearbody w0. clear Hb.
  set (c := nextCon w). clearbody c.
  set (reject := if negb _ then closeProtocol c else _).
  assert (Hrj : exists w1, reject w0 = (Ret tt, w1) /\ pos_behind w1).
  { subst reject. destruct (negb _).
    - exists (exec (closeProtocol c) w0). split.
      + unfold exec. now rewrite closeProtocol_events.
      + eapply pos_rel_behind; [exact Hb0 | apply closeProtocol_pos_rel].
    - eexists. split; [reflexivity | exact Hb0]. }
  destruct Hrj as (w1 & -> & Hb1). clear Hb0.
  assert (Hclose : pos_behind (snd (closeProtocol c w1))).
  { eapply pos_rel_behind; [exact Hb1 | apply closeProtocol_pos_rel]. }
  destruct (query_sid request) as [sid|]; [|intros _; exact Hclose].
  destruct (String.eqb sid ""); [intros _; exact Hclose|].
  cbn [fst snd].
  destruct (sessions w1 !! sid) as [[|s]|].
  - cbn. discriminate.
  - apply adopt_keeps_pos_behind. exact Hb1.
  - destruct (decide _); [cbn; discriminate | intros _; exact Hclose].
Qed.

Lemma backend_data_pos_rel (sid : string) (buf : Buffer) (w : World) :
  pos_rel w (exec (backend_data sid buf) w).
Proof.
  unfold exec, backend_data. unfold_M. cbn [fst snd].
  set (w1 := set_ses sid _ w).
  assert (H1 : pos_rel w w1).
  { subst w1. split; [intros c; split; reflexivity|].
    intros s. destruct (decide (s = sid)) as [->|Hne].
    - rewrite heap_set_ses_eq. cbn. lia.
    - rewrite heap_set_ses_ne by exact Hne. lia. }
  clearbody w1. apply (pos_rel_trans _ _ _ H1).
  pose proof (sendFragment_pos_rel sid buf w1) as H2. unfold exec in H2.
  destruct (sendFragment sid buf w1) as [[[]|e] w2]; cbn [snd] in *; [|exact H2].
  apply (pos_rel_trans _ _ _ H2).
  apply pos_rel_same_socket; [reflexivity|].
  intros s. destruct (decide (s = sid)) as [->|Hne].
  - now rewrite heap_set_ses_eq.
  - now rewrite heap_set_ses_ne.
Qed.

Lemma backend_close_pos_rel (sid : string) (w : World) :
  pos_rel w (exec (backend_close sid) w).
Proof.
  unfold exec, backend_close. unfold_M. cbn [fst snd].
  set (w1 := set_sessions _ w).
  assert (H1 : pos_rel w w1) by (now apply pos_rel_same_socket).
  clearbody w1. apply (pos_rel_trans _ _ _ H1).
  destruct (frontendCon (heap w1 sid)); [apply closeProtocol_pos_rel | apply pos_rel_refl].
Qed.

Lemma handle_keeps_pos_behind (e : Event) (w : World) :
  pos_behind w -> fst (handle e w) = Ret tt -> pos_behind (exec (handle e) w).
Proof.
  intros Hb Hret. destruct e as [sid|request|c m|c|sid buf|sid]; cbn [handle] in *.
  - exact Hb.
  - now apply on_request_keeps_pos_behind.
  - unfold exec, emit_message in *. unfold_M. unfold bind, getCon in Hret.
    cbn [fst snd] in *.
    destruct (listeners (connections w c)) as [sid|] eqn:Hl; [|exact Hb].
    now apply on_message_keeps_pos_behind.
  - eapply pos_rel_behind; [exact Hb | apply emit_close_pos_rel].
  - eapply pos_rel_behind; [exact Hb | apply backend_data_pos_rel].
  - eapply pos_rel_behind; [exact Hb | apply backend_close_pos_rel].
Qed.

Lemma world0_pos_behind : pos_behind world0.
Proof. intros c sid H. discriminate H. Qed.

(** X25. Among upgrade requests whose [ack] and [pos] are integers, the
    only ones an [Event] holds, no connection gets ahead of the backend:
    if every connection with listeners has a [pos] of at most the
    [bytesWritten] of its session, the same is true after any sequence of
    such events whose listeners all return.  So every frame that is
    delivered in such a run finds the precondition of the overlap rule in
    force.  (A request with a missing or malformed [pos] is adopted with
    [NaN]; it is outside this statement.) *)
Theorem run_keeps_pos_behind (es : list Event) (w : World) :
  pos_behind w ->
  fst (run_events es w) = Ret tt ->
  pos_behind (exec (run_events es) w).
Proof.
  revert w. induction es as [|e es IH]; intros w Hb Hret; [exact Hb|].
  destruct (run_events_cons e es w Hret) as (He & Hes & ->).
  apply IH; [now apply handle_keeps_pos_behind | exact Hes].
Qed.

(** Scenario S4 as a run from start-up; connection 1 ends at [pos] 6 with
    6 bytes written. *)
Lemma run_S4_keeps_pos_behind :
  let es := [ProxyConnected "X"; Upgrade (connect "X" 0 0);
             FrontendMessage 0 (Binary (frame 0 "abcd")); FrontendClose 0;
             Upgrade (connect "X" 0 0);
             FrontendMessage 1 (Binary (frame 0 "abcdXY"))] in
  pos_behind world0 /\
  fst (run_events es world0) = Ret tt /\
  pos (connections (exec (run_events es) world0) 1)
    <= bytesWritten (backendSocket (heap (exec (run_events es) world0) "X")).
Proof.
  cbv zeta.
  assert (H : fst (run_events
                     [ProxyConnected "X"; Upgrade (connect "X" 0 0);
                      FrontendMessage 0 (Binary (frame 0 "abcd")); FrontendClose 0;
                      Upgrade (connect "X" 0 0);
                      FrontendMessage 1 (Binary (frame 0 "abcdXY"))] world0)
              = Ret tt) by (vm_compute; reflexivity).
  split; [exact world0_pos_behind|]. split; [exact H|].
  apply (run_keeps_pos_behind _ world0 world0_pos_behind H).
  vm_compute. reflexivity.
Defined.

(** ** The HTTP endpoints *)

Lemma truthy_Some (s : string) : s <> ""%string -> truthy (Some s) = true.
Proof. intros H. cbn. apply String.eqb_neq in H. now rewrite H. Qed.

(** X26. [/cookie] with a non-empty [ext] and [path] answers 302 with the
    location [chrome-extension://ext/path#ignored@target].  The target is
    the external-redirect argument of the command line when there is one
    and it is not empty; with no such argument, or an empty one, it is
    the [Host] header of the request, printed as [undefined] when the
    request has none. *)
Theorem cookie_redirect_target
        (argv : list string) (externalRedirect : option string)
        (request : HttpRequest) (ext path : string) :
  startup argv = Some externalRedirect ->
  http_pathname request = "/cookie"%string ->
  http_query request !! "ext"%string = Some ext ->
  http_query request !! "path"%string = Some path ->
  ext <> ""%string ->
  path <> ""%string ->
  exists target,
    on_http externalRedirect request
    = Reply (mkResponse 302
               [("Location"%string,
                 Some ("chrome-extension://" ++ ext ++ "/" ++ path
                       ++ "#ignored@" ++ target)%string)]
               "") /\
    (forall r, argv !! 3%nat = Some r -> r <> ""%string -> target = r) /\
    (argv !! 3%nat = None \/ argv !! 3%nat = Some ""%string ->
     target = default "undefined"%string (http_host request)).
Proof.
  intros Hstart Hpath Hext Hp Hne1 Hne2.
  unfold on_http. rewrite Hpath, Hext, Hp. cbn [String.eqb Ascii.eqb Bool.eqb].
  rewrite !truthy_Some by assumption. cbn [andb].
  unfold startup in Hstart.
  destruct ((length argv <? 3)%nat || (4 <? length argv)%nat) eqn:Hlen;
    [discriminate|].
  injection Hstart as <-.
  apply orb_false_elim in Hlen. destruct Hlen as [H3 H4].
  apply Nat.ltb_ge in H3. apply Nat.ltb_ge in H4.
  eexists. split; [reflexivity|].
  destruct (length argv =? 4)%nat eqn:E4.
  - apply Nat.eqb_eq in E4. split.
    + intros r Hr Hrne. rewrite Hr, truthy_Some by exact Hrne. reflexivity.
    + intros [Hnone | Hempty].
      * apply lookup_ge_None in Hnone. lia.
      * rewrite Hempty. reflexivity.
  - apply Nat.eqb_neq in E4. split.
    + intros r Hr _. apply lookup_lt_Some in Hr. lia.
    + intros _. reflexivity.
Qed.

Lemma cookie_redirect_to_argument :
  let argv := ["node"; "nassh-relay.js"; "8022"; "relay.example:8022"]%string in
  let request := mkHttpRequest "/cookie"
                   {[ "ext"%string := "abc"%string; "path"%string := "html/nassh.html"%string ]}
                   (Some "localhost:8022"%string) None in
  startup argv = Some (Some "relay.example:8022"%string) /\
  on_http (Some "relay.example:8022"%string) request
  = Reply (mkResponse 302
             [("Location"%string,
               Some "chrome-extension://abc/html/nassh.html#ignored@relay.example:8022"%string)]
             "").
Proof.
  cbv zeta.
  assert (H : startup ["node"; "nassh-relay.js"; "8022"; "relay.example:8022"]%string
              = Some (Some "relay.example:8022"%string)) by reflexivity.
  split; [exact H|].
  set (request := mkHttpRequest "/cookie" _ _ _).
  assert (He : http_query request !! "ext"%string = Some "abc"%string)
    by (vm_compute; reflexivity).
  assert (Hp : http_query request !! "path"%string = Some "html/nassh.html"%string)
    by (vm_compute; reflexivity).
  destruct (cookie_redirect_target _ _ request "abc" "html/nassh.html" H eq_refl
              He Hp ltac:(discriminate) ltac:(discriminate))
    as (target & Hreply & Harg & _).
  rewrite Hreply, (Harg "relay.example:8022"%string eq_refl ltac:(discriminate)).
  reflexivity.
Defined.

Lemma closeProtocol_sessions (c : nat) (w : World) :
  sessions (exec (closeProtocol c) w) = sessions w.
Proof. unfold exec. now rewrite closeProtocol_events. Qed.

Lemma on_message_sessions (sid : string) (c : nat) (m : Message) (w : World) :
  sessions (exec (on_message sid c m) w) = sessions w.
Proof.
  destruct m as [u|d]; [apply closeProtocol_sessions|].
  unfold exec, on_message. unfold_M. cbn beta iota. cbn [fst snd].
  destruct (bslice _ d) as [unseen|e]; [|reflexivity].
  destruct (readInt32BE d) as [a|e]; [|reflexivity].
  set (w1 := set_ses sid _ _).
  assert (H1 : sessions w1 = sessions w) by reflexivity. clearbody w1.
  destruct (shrinkBuffer_cases w1 sid a) as [-> | [b ->]]; cbn [negb].
  - destruct (emit_close_frame w1 c) as (_ & Hs & _). cbv zeta in Hs.
    unfold exec in Hs. now rewrite Hs.
  - cbn [fst snd]. destruct (_ >? _); [|exact H1].
    destruct (sendFragment_frame (set_ses sid (with_B2FUnacked b (heap w1 sid)) w1) sid [])
      as (_ & Hs & _). cbv zeta in Hs. unfold exec in Hs. now rewrite Hs.
Qed.

Lemma adopt_sessions (sid : string) (c : nat) (ack pos_ : Z) (w : World) :
  sessions (exec (adopt sid c ack pos_) w) = sessions w.
Proof.
  unfold exec, adopt, frontend. unfold_M.
  set (evict := match frontendCon (heap w sid) with
                | Some old => closeProtocol old
                | None => _
                end).
  assert (Hev : exists w1, evict w = (Ret tt, w1) /\ sessions w1 = sessions w).
  { subst evict. destruct (frontendCon (heap w sid)).
    - rewrite closeProtocol_events. eexists. split; reflexivity.
    - eexists. split; reflexivity. }
  destruct Hev as (w1 & -> & H1). cbn [fst snd].
  destruct (pos_ >? _); [exact H1|]. cbn [fst snd].
  set (w3 := set_con c _ (set_con c _ w1)).
  assert (H3 : sessions w3 = sessions w) by exact H1. clearbody w3.
  destruct (shrinkBuffer_cases w3 sid ack) as [-> | [b ->]]; cbn [negb].
  - now rewrite closeProtocol_events.
  - cbn [fst snd].
    match goal with
    | |- context [sendFragment sid ?f ?w5] =>
        destruct (sendFragment_frame w5 sid f) as (_ & Hs & _)
    end.
    cbv zeta in Hs. unfold exec in Hs. now rewrite Hs.
Qed.

Lemma on_request_sessions (request : Request) (w : World) :
  sessions (exec (on_request request) w) = sessions w.
Proof.
  unfold exec, on_request, accept, sessions_get. unfold_M. cbn beta iota.
  set (w0 := mkWorld _ _ _ _).
  assert (H0 : sessions w0 = sessions w) by reflexivity.
  cbn [fst snd]. clearbody w0.
  set (c := nextCon w). clearbody c.
  set (reject := if negb _ then closeProtocol c else _).
  assert (Hrj : exists w1, reject w0 = (Ret tt, w1) /\ sessions w1 = sessions w).
  { subst reject. destruct (negb _).
    - rewrite closeProtocol_events. eexists. split; [reflexivity | exact H0].
    - eexists. split; [reflexivity | exact H0]. }
  destruct Hrj as (w1 & -> & H1).
  pose proof (closeProtocol_sessions c w1) as Hcl. unfold exec in Hcl.
  destruct (query_sid request) as [sid|]; [|congruence].
  destruct (String.eqb sid ""); [congruence|].
  cbn [fst snd].
  destruct (sessions w1 !! sid) as [[|s]|]; [exact H1| |].
  - pose proof (adopt_sessions s c (query_ack request) (query_pos request) w1) as Ha.
    unfold exec in Ha. congruence.
  - destruct (decide _); [exact H1 | congruence].
Qed.

Lemma on_http_proxy (externalRedirect : option string) (request : HttpRequest)
      (host port : string) :
  http_pathname request = "/proxy"%string ->
  http_query request !! "host"%string = Some host ->
  http_query request !! "port"%string = Some port ->
  host <> ""%string ->
  port <> ""%string ->
  on_http externalRedirect request
  = NewSession host port
      [("Content-Type"%string, Some "text/plain"%string);
       ("Access-Control-Allow-Origin"%string, http_origin request);
       ("Access-Control-Allow-Credentials"%string, Some "true"%string)].
Proof.
  intros Hpath Hh Hp Hne1 Hne2. unfold on_http.
  rewrite Hpath, Hh, Hp. cbn [String.eqb Ascii.eqb Bool.eqb].
  rewrite !truthy_Some by assumption. reflexivity.
Qed.

(** A [/proxy] with a port that [connect] rejects: the [Session]
    constructor throws out of the request listener; no reply goes out
    and nothing is created. *)
Lemma proxy_illegal_port_throws
      (legalPort : string -> bool) (externalRedirect : option string)
      (s : Server) (rid : nat) (uuid host port : string) (request : HttpRequest) :
  http_pathname request = "/proxy"%string ->
  http_query request !! "host"%string = Some host ->
  http_query request !! "port"%string = Some port ->
  host <> ""%string ->
  port <> ""%string ->
  legalPort port = false ->
  serve legalPort externalRedirect (Http rid uuid request) s
  = (Some (Thrown RangeError), s).
Proof.
  intros Hpath Hh Hp Hne1 Hne2 Hlegal. cbn [serve].
  now rewrite (on_http_proxy _ _ host port Hpath Hh Hp Hne1 Hne2), Hlegal.
Qed.

(** A [/proxy] with no [Origin] header: the value of
    [Access-Control-Allow-Origin] is [undefined], so when the backend
    socket connects [writeHead] throws in the success callback, before
    the registration; no reply goes out and the id is not registered. *)
Lemma proxy_without_origin_throws
      (legalPort : string -> bool) (externalRedirect : option string)
      (s : Server) (rid : nat) (uuid host port : string) (request : HttpRequest) :
  http_pathname request = "/proxy"%string ->
  http_query request !! "host"%string = Some host ->
  http_query request !! "port"%string = Some port ->
  host <> ""%string ->
  port <> ""%string ->
  legalPort port = true ->
  http_origin request = None ->
  let r := serve_all legalPort externalRedirect
             [Http rid uuid request; BackendConnect uuid] s in
  fst r = Some (Thrown TypeError) /\
  replies (snd r) = replies s /\
  sessions (relay (snd r)) = sessions (relay s).
Proof.
  intros Hpath Hh Hp Hne1 Hne2 Hlegal Horigin. cbv zeta.
  cbn [serve_all serve].
  rewrite (on_http_proxy _ _ host port Hpath Hh Hp Hne1 Hne2), Hlegal, Horigin.
  cbn [calls relay replies]. rewrite lookup_insert_eq.
  cbn [call_response call_header headers_defined forallb snd andb fst relay replies].
  repeat split.
Qed.

(** X27. From [/proxy] to an attached frontend.  Take a [/proxy] request
    with a host, a port that [connect] accepts, and an [Origin] header.
    It creates a session; when its backend socket connects, the request
    is answered 200 with the session id as body, and the [Origin] of the
    request echoed in the CORS header, and the id is registered; a
    [/connect] with that id, [ack=0] and [pos=0] is then adopted and sent
    one fragment, ack 0 and no payload. *)
Theorem proxy_then_connect
        (legalPort : string -> bool) (externalRedirect : option string)
        (s : Server) (rid : nat)
        (uuid host port origin : string) (request : HttpRequest) :
  http_pathname request = "/proxy"%string ->
  http_query request !! "host"%string = Some host ->
  http_query request !! "port"%string = Some port ->
  host <> ""%string ->
  port <> ""%string ->
  legalPort port = true ->
  http_origin request = Some origin ->
  uuid <> ""%string ->
  let r := serve_all legalPort externalRedirect
             [Http rid uuid request; BackendConnect uuid;
              Relay (Upgrade (connect uuid 0 0))] s in
  let c := nextCon (relay s) in
  fst r = None /\
  replies (snd r)
    = replies s
      ++ [(rid, mkResponse 200
                  [("Content-Type"%string, Some "text/plain"%string);
                   ("Access-Control-Allow-Origin"%string, Some origin);
                   ("Access-Control-Allow-Credentials"%string, Some "true"%string)]
                  uuid)] /\
  sessions (relay (snd r)) !! uuid = Some (RSession uuid) /\
  frontendCon (heap (relay (snd r)) uuid) = Some c /\
  exists fragment,
    events (connections (relay (snd r)) c) = [SendBytes fragment] /\
    readInt32BE fragment = Ret 0 /\
    drop 4 fragment = [].
Proof.
  intros Hpath Hh Hp Hne1 Hne2 Hlegal Horigin Hu. cbv zeta.
  cbn [serve_all serve].
  rewrite (on_http_proxy _ _ host port Hpath Hh Hp Hne1 Hne2), Hlegal, Horigin.
  cbn [calls relay replies]. rewrite lookup_insert_eq.
  cbn [call_response call_header headers_defined forallb snd andb handle].
  set (w := exec (proxy_success uuid) (set_ses uuid new_Session (relay s))).
  assert (Hreg : sessions w !! uuid = Some (RSession uuid)).
  { subst w. unfold exec, proxy_success. cbn. apply lookup_insert_eq. }
  assert (Hheap : heap w uuid = new_Session).
  { subst w. unfold exec, proxy_success. cbn. now rewrite decide_True. }
  assert (Hnext : nextCon w = nextCon (relay s)) by reflexivity.
  assert (Hwf : wf_session (heap w uuid))
    by (rewrite Hheap; split; [reflexivity | now exists []]).
  assert (Hfresh : frontendCon (heap w uuid) <> Some (nextCon w))
    by (rewrite Hheap; discriminate).
  assert (Hpos : 0 <= bytesWritten (backendSocket (heap w uuid)))
    by (rewrite Hheap; reflexivity).
  assert (Hack : bytesRead (backendSocket (heap w uuid))
                 - blen (B2FUnacked (heap w uuid)) <= 0
                 <= bytesRead (backendSocket (heap w uuid)))
    by (rewrite Hheap; split; reflexivity).
  destruct (on_request_resume w uuid 0 0 Hu Hreg Hwf Hfresh Hpos Hack eq_refl)
    as (Hret & Hatt & _ & fragment & Hev & Hhdr & Hpay).
  pose proof (on_request_sessions (connect uuid 0 0) w) as Hses.
  unfold exec in Hatt, Hev, Hses. rewrite Hheap in Hpay. cbn in Hpay.
  rewrite Hnext in *.
  cbn [relay].
  destruct (on_request (connect uuid 0 0) w) as [[[]|x] w'];
    cbn [fst snd relay replies] in *; [|discriminate].
  split; [reflexivity|]. split; [reflexivity|].
  split; [now rewrite Hses|].
  split; [exact Hatt|]. exists fragment. auto.
Qed.

Lemma proxy_then_connect_S1 :
  let request := mkHttpRequest "/proxy"
                   {[ "host"%string := "127.0.0.1"%string; "port"%string := "22"%string ]}
                   (Some "relay:8022"%string) (Some "chrome-extension://abc"%string) in
  let r := serve_all decimal_port None
             [Http 0 "X" request; BackendConnect "X";
              Relay (Upgrade (connect "X" 0 0))] server0 in
  fst r = None /\
  (exists hdr, replies (snd r) = [(0%nat, mkResponse 200 hdr "X")]) /\
  frontendCon (heap (relay (snd r)) "X") = Some 0%nat.
Proof.
  cbv zeta.
  set (request := mkHttpRequest "/proxy" _ _ _).
  assert (Hh : http_query request !! "host"%string = Some "127.0.0.1"%string)
    by (vm_compute; reflexivity).
  assert (Hp : http_query request !! "port"%string = Some "22"%string)
    by (vm_compute; reflexivity).
  assert (Hl : decimal_port "22" = true) by (vm_compute; reflexivity).
  destruct (proxy_then_connect decimal_port None server0 0%nat "X" "127.0.0.1" "22"
              "chrome-extension://abc" request
              eq_refl Hh Hp ltac:(discriminate) ltac:(discriminate) Hl eq_refl
              ltac:(discriminate))
    as (Hnone & Hrep & _ & Hatt & _).
  split; [exact Hnone|]. split; [|exact Hatt].
  eexists. exact Hrep.
Defined.

(** X28. A [/proxy] whose backend connection fails.  Take a [/proxy]
    request with a host, a port that [connect] accepts, and an [Origin]
    header.  The [error] event of its backend socket answers the request
    502 with the same headers, and the [close] event that follows stores
    [null] under the id of the session, although that id was never
    registered; every other key keeps its value. *)
Theorem proxy_failure
        (legalPort : string -> bool) (externalRedirect : option string)
        (s : Server) (rid : nat)
        (uuid host port origin : string) (request : HttpRequest) :
  http_pathname request = "/proxy"%string ->
  http_query request !! "host"%string = Some host ->
  http_query request !! "port"%string = Some port ->
  host <> ""%string ->
  port <> ""%string ->
  legalPort port = true ->
  http_origin request = Some origin ->
  let r := serve_all legalPort externalRedirect
             [Http rid uuid request; BackendError uuid; Relay (BackendClose uuid)] s in
  fst r = None /\
  replies (snd r)
    = replies s
      ++ [(rid, mkResponse 502
                  [("Content-Type"%string, Some "text/plain"%string);
                   ("Access-Control-Allow-Origin"%string, Some origin);
                   ("Access-Control-Allow-Credentials"%string, Some "true"%string)]
                  "")] /\
  sessions (relay (snd r)) !! uuid = Some RNull /\
  (forall k, k <> uuid -> sessions (relay (snd r)) !! k = sessions (relay s) !! k) /\
  connections (relay (snd r)) = connections (relay s).
Proof.
  intros Hpath Hh Hp Hne1 Hne2 Hlegal Horigin. cbv zeta.
  cbn [serve_all serve].
  rewrite (on_http_proxy _ _ host port Hpath Hh Hp Hne1 Hne2), Hlegal, Horigin.
  cbn [calls relay replies]. rewrite lookup_insert_eq.
  cbn [call_listening call_response call_header headers_defined forallb snd andb
       handle relay].
  unfold backend_close. unfold_M. cbn [fst snd].
  change (heap (set_sessions ?m ?w)) with (heap w).
  rewrite heap_set_ses_eq. cbn [frontendCon new_Session fst snd relay replies].
  split; [reflexivity|]. split; [reflexivity|].
  split; [apply lookup_insert_eq|].
  split; [intros k Hk; now apply lookup_insert_ne | reflexivity].
Qed.

Lemma proxy_failure_example :
  let request := mkHttpRequest "/proxy"
                   {[ "host"%string := "10.0.0.1"%string; "port"%string := "22"%string ]}
                   (Some "relay:8022"%string) (Some "chrome-extension://abc"%string) in
  let r := serve_all decimal_port None
             [Http 0 "X" request; BackendError "X"; Relay (BackendClose "X")] server0 in
  (exists hdr, replies (snd r) = [(0%nat, mkResponse 502 hdr "")]) /\
  sessions (relay (snd r)) !! "X"%string = Some RNull.
Proof.
  cbv zeta.
  set (request := mkHttpRequest "/proxy" _ _ _).
  assert (Hh : http_query request !! "host"%string = Some "10.0.0.1"%string)
    by (vm_compute; reflexivity).
  assert (Hp : http_query request !! "port"%string = Some "22"%string)
    by (vm_compute; reflexivity).
  assert (Hl : decimal_port "22" = true) by (vm_compute; reflexivity).
  destruct (proxy_failure decimal_port None server0 0%nat "X" "10.0.0.1" "22"
              "chrome-extension://abc" request
              eq_refl Hh Hp ltac:(discriminate) ltac:(discriminate) Hl eq_refl)
    as (_ & Hrep & Hnull & _).
  split; [eexists; exact Hrep | exact Hnull].
Defined.

(** X29. Take a [/proxy] request with a host, a port that [connect]
    accepts, and an [Origin] header.  Once its backend socket has
    connected, [callbackFail] is removed from the [error] event and
    nothing listens to it any more: an [error] event then is an uncaught
    exception, after the 200 was sent and the session registered. *)
Theorem error_after_connect_is_uncaught
        (legalPort : string -> bool) (externalRedirect : option string)
        (s : Server) (rid : nat)
        (uuid host port origin : string) (request : HttpRequest) :
  http_pathname request = "/proxy"%string ->
  http_query request !! "host"%string = Some host ->
  http_query request !! "port"%string = Some port ->
  host <> ""%string ->
  port <> ""%string ->
  legalPort port = true ->
  http_origin request = Some origin ->
  let r := serve_all legalPort externalRedirect
             [Http rid uuid request; BackendConnect uuid; BackendError uuid] s in
  fst r = Some UnhandledError /\
  (exists hdr, replies (snd r) = replies s ++ [(rid, mkResponse 200 hdr uuid)]) /\
  sessions (relay (snd r)) !! uuid = Some (RSession uuid).
Proof.
  intros Hpath Hh Hp Hne1 Hne2 Hlegal Horigin. cbv zeta.
  cbn [serve_all serve].
  rewrite (on_http_proxy _ _ host port Hpath Hh Hp Hne1 Hne2), Hlegal, Horigin.
  cbn [calls relay replies]. rewrite lookup_insert_eq.
  cbn [call_listening call_response call_header headers_defined forallb snd andb calls].
  rewrite lookup_insert_eq.
  cbn [call_listening fst snd relay replies].
  split; [reflexivity|]. split; [eexists; reflexivity|].
  unfold exec, proxy_success. cbn. apply lookup_insert_eq.
Qed.

Lemma error_after_connect_example :
  let request := mkHttpRequest "/proxy"
                   {[ "host"%string := "10.0.0.1"%string; "port"%string := "22"%string ]}
                   (Some "relay:8022"%string) (Some "chrome-extension://abc"%string) in
  fst (serve_all decimal_port None
         [Http 0 "X" request; BackendConnect "X"; BackendError "X"] server0)
  = Some UnhandledError.
Proof.
  cbv zeta.
  set (request := mkHttpRequest "/proxy" _ _ _).
  assert (Hh : http_query request !! "host"%string = Some "10.0.0.1"%string)
    by (vm_compute; reflexivity).
  assert (Hp : http_query request !! "port"%string = Some "22"%string)
    by (vm_compute; reflexivity).
  assert (Hl : decimal_port "22" = true) by (vm_compute; reflexivity).
  apply (error_after_connect_is_uncaught decimal_port None server0 0%nat "X" "10.0.0.1"
           "22" "chrome-extension://abc" request eq_refl Hh Hp
           ltac:(discriminate) ltac:(discriminate) Hl eq_refl).
Defined.

(** X30. The registry is out of reach of the frontend: an upgrade
    request, a frame, a [close] event of a connection and data from the
    backend leave every key of [sessions] as it is.  Only the success
    callback of [/proxy] and the [close] event of a backend socket write
    to it. *)
Theorem registry_is_kept (w : World) :
  (forall request, sessions (exec (handle (Upgrade request)) w) = sessions w) /\
  (forall c message,
     sessions (exec (handle (FrontendMessage c message)) w) = sessions w) /\
  (forall c, sessions (exec (handle (FrontendClose c)) w) = sessions w) /\
  (forall sid buf, sessions (exec (handle (BackendData sid buf)) w) = sessions w).
Proof.
  split; [|split; [|split]].
  - intros request. apply on_request_sessions.
  - intros c m. cbn [handle]. unfold exec, emit_message. unfold_M.
    destruct (listeners (connections w c)) as [sid|]; [|reflexivity].
    apply on_message_sessions.
  - intros c. cbn [handle]. apply (emit_close_frame w c).
  - intros sid buf. cbn [handle]. unfold exec, backend_data. unfold_M. cbn [fst snd].
    match goal with
    | |- context [sendFragment sid buf ?w1] =>
        destruct (sendFragment_frame w1 sid buf) as (_ & Hs & _);
        cbv zeta in Hs; unfold exec in Hs;
        destruct (sendFragment sid buf w1) as [[[]|e] w2]
    end; cbn [fst snd] in *; exact Hs.
Qed.

(** ** Instances *)

(** Ack 9 with six bytes read is refused and changes nothing; ack 5 keeps
    a tail of the buffer and leaves the socket alone. *)
Lemma shrinkBuffer_only_shrinks_ef :
  backendSocket (heap (exec (shrinkBuffer "X" 5) dropped_after_ack) "X")
    = backendSocket (heap dropped_after_ack "X") /\
  heap (exec (shrinkBuffer "X" 5) dropped_after_ack) "Y"
    = heap dropped_after_ack "Y".
Proof.
  destruct (shrinkBuffer_only_shrinks dropped_after_ack "X" 5)
    as (_ & _ & _ & _ & Hs & Hother).
  split.
  - apply (Hs "X"%string).
  - apply Hother. discriminate.
Defined.

(** The attached frontend of session [X] sends a text frame. *)
Lemma text_frame_on_attached :
  let w' := exec (on_message "X" 0 (Utf8 "hi")) attached in
  heap w' = heap attached /\
  connections w' 1 = connections attached 1 /\
  exists header,
    events (connections w' 0)
      = events (connections attached 0) ++ [SendBytes header; Close] /\
    readInt32BE header = Ret (-1).
Proof.
  cbv zeta.
  destruct (text_frame_is_protocol_closed attached "X" 0%nat "hi")
    as (_ & Hheap & _ & (header & Hev & _ & Hread) & _ & Hother).
  split; [exact Hheap|]. split; [apply Hother; discriminate|].
  exists header. split; [exact Hev | exact Hread].
Defined.

(** Scenario S7: the backend of session [X] closes while connection 0 is
    attached. *)
Lemma S7_backend_close :
  let w' := exec (backend_close "X") attached in
  sessions w' !! "X"%string = Some RNull /\
  sessions w' !! "Y"%string = sessions attached !! "Y"%string /\
  events (connections w' 0)
    = events (connections attached 0) ++ [SendBytes [xff; xff; xff; xff]; Close] /\
  events (connections w' 1) = events (connections attached 1).
Proof.
  cbv zeta.
  destruct (backend_close_nulls_and_closes attached "X")
    as (_ & Hnull & Hother & _ & Hev).
  split; [exact Hnull|]. split; [apply Hother; discriminate|]. split.
  - rewrite (Hev 0%nat). vm_compute. reflexivity.
  - rewrite (Hev 1%nat). vm_compute. reflexivity.
Defined.
